(** * Interactive Alignment Toolkit: the panel component

    A shallow embedding of [src/components/alignment/panel/panel.alignment.jsx]
    (the [PanelAlignment] React component) and of the few collaborators it
    calls, followed by the properties of the panel's pointer handlers, crop,
    align, load and mode-switch operations.

    Conventions of the embedding.

    - A JavaScript number is a rational ([Q]).  [Math.round] is
      round-half-up, [===] on numbers is [Qeq_bool].  Products and quotients
      are rounded to a binary64 double as the engine rounds them ([Js.mul],
      [Js.div], over [Js.double]): the pixel a scaled coordinate is stored at
      depends on it.  Sums and differences, which the component takes of
      pixel values, are exact.  NaN and the infinities are outside the
      model; a division by zero, which JavaScript answers with NaN or an
      infinity, is [0] here.
    - The component body is a closure over the context value [iat] it was
      rendered with: a read such as [panel.image] sees that rendered value,
      while a setter such as [panel.setImage] writes the live React state.
      Handlers therefore take the rendered [iat] as a parameter and act on a
      [World] that holds the live state and the canvas layers.
    - [try]/[catch] is modelled by a state monad with an exception flag: the
      writes made before a throw stay. *)

From Stdlib Require Import QArith Qround Qminmax Qabs ZArith List String Bool Lia Lqa.
Import ListNotations.
Open Scope Q_scope.

(** ** JavaScript numbers *)

Module Js.

Definition Math_round (q : Q) : Q := inject_Z (Qfloor (q + (1 # 2))).
Definition Math_min (a b : Q) : Q := Qmin a b.
Definition Math_max (a b : Q) : Q := Qmax a b.
Definition Math_abs (a : Q) : Q := Qabs a.

(** [n / d] rounded to the nearest integer, a tie to the even one. *)
Definition roundHalfEven (n : Z) (d : positive) : Z :=
  let q := (n / Z.pos d)%Z in
  let r := (n mod Z.pos d)%Z in
  match (2 * r ?= Z.pos d)%Z with
  | Lt => q
  | Gt => (q + 1)%Z
  | Eq => if Z.even q then q else (q + 1)%Z
  end.

(** The exponent of the last bit a binary64 double keeps for the positive
    value [n / d]: 52 below the exponent of its leading bit, and not below
    that of the subnormals. *)
Definition lastBit (n : Z) (d : positive) : Z :=
  let e0 := (Z.log2 n - Z.log2 (Z.pos d))%Z in
  let below := if (0 <=? e0)%Z then (n <? Z.pos d * 2 ^ e0)%Z
               else (n * 2 ^ (- e0) <? Z.pos d)%Z in
  let e := if below then (e0 - 1)%Z else e0 in
  Z.max (e - 52) (-1074).

(** The binary64 double nearest to [q], ties to even: what an arithmetic
    operation of the engine returns for the exact result [q].  (A result
    beyond the largest double, which the engine turns into an infinity, is
    outside the model.) *)
Definition double (q : Q) : Q :=
  let r := Qred q in
  let n := Z.abs (Qnum r) in
  let d := Qden r in
  if (n =? 0)%Z then 0
  else
    let ex := lastBit n d in
    if (0 <=? ex)%Z
    then inject_Z (Z.sgn (Qnum r) * roundHalfEven n (d * Z.to_pos (2 ^ ex)) * 2 ^ ex)
    else Qred (Z.sgn (Qnum r) * roundHalfEven (n * 2 ^ (- ex)) d # Z.to_pos (2 ^ (- ex))).

(** [a * b] and [a / b] on doubles. *)
Definition mul (a b : Q) : Q := double (a * b).
Definition div (a b : Q) : Q := double (a / b).

Definition lt (a b : Q) : bool := negb (Qle_bool b a).
Definition gt (a b : Q) : bool := lt b a.
Definition le (a b : Q) : bool := Qle_bool a b.
Definition ge (a b : Q) : bool := Qle_bool b a.
Definition eqq (a b : Q) : bool := Qeq_bool a b.

End Js.

Declare Scope js_scope.
Delimit Scope js_scope with js.
Notation "a <? b" := (Js.lt a b) (at level 70, no associativity) : js_scope.
Notation "a >? b" := (Js.gt a b) (at level 70, no associativity) : js_scope.
Notation "a <=? b" := (Js.le a b) (at level 70, no associativity) : js_scope.
Notation "a >=? b" := (Js.ge a b) (at level 70, no associativity) : js_scope.
Notation "a === b" := (Js.eqq a b) (at level 70, no associativity) : js_scope.
Open Scope js_scope.

(** ** Geometry: points, dimensions and rectangles *)

Module Point.
Record t : Type := mk { x : Q; y : Q }.
Definition eqv (p q : t) : Prop := x p == x q /\ y p == y q.
End Point.

Module Dims.
Record t : Type := mk { w : Q; h : Q }.
End Dims.

Module Rect.
Record t : Type := mk { x : Q; y : Q; w : Q; h : Q }.
Definition dims (r : t) : Dims.t := Dims.mk (w r) (h r).
Definition eqv (r s : t) : Prop :=
  x r == x s /\ y r == y s /\ w r == w s /\ h r == h s.
Definition zero : t := mk 0 0 0 0.
End Rect.

Coercion Rect.dims : Rect.t >-> Dims.t.

Module Bounds.
Record t : Type := mk { top : Q; left : Q; width : Q; height : Q }.
End Bounds.

(** ** Rasters, messages, options *)

Record ImageData : Type := mkImageData {
  width : Q;
  height : Q;
  data : list Z
}.

Record Message : Type := mkMessage { msg : string; type : string }.

Record Options : Type := mkOptions {
  ptrRadius : Q;
  controlPtMax : Z;
  maxMagnifiedWidth : Q;
  maxMagnifiedHeight : Q
}.

Record Event : Type := mkEvent { clientX : Q; clientY : Q }.

Open Scope string_scope.

(** The [canvas] entries of the schema's error table ([schema.js]). *)
Definition canvasErrors (key : string) : option string :=
  if String.eqb key "streamError" then Some "Error occurred during parsing of data stream."
  else if String.eqb key "default" then Some "Error: could not complete operation."
  else if String.eqb key "emptyCanvas" then Some "Please load both canvases to complete operation."
  else if String.eqb key "collinearPts" then Some "Control points should not be collinear (form a line)."
  else if String.eqb key "missingControlPoints" then Some "Missing control points to complete operation."
  else if String.eqb key "maxControlPoints" then Some "Maximum number of control points selected."
  else if String.eqb key "mismatchedDims" then Some "Images must be scaled to the same width to complete operation."
  else None.

(** Modelled from the spec: [getError] of [schema.services.client], which is
    defined outside the panel component.  Errors reach the user as a structured
    [{msg, type}]; the text is looked up in the schema's error table. *)
Definition getError (key : string) (kind : string) : Message :=
  match (if String.eqb kind "canvas" then canvasErrors key else None) with
  | Some text => mkMessage text "error"
  | None => mkMessage "Error: could not complete operation." "error"
  end.

Close Scope string_scope.

(** ** The panel data model *)

Module Status.
Inductive t : Type := empty | load | loading | loaded | update | downloading | error.
Definition eqb (a b : t) : bool :=
  match a, b with
  | empty, empty | load, load | loading, loading | loaded, loaded
  | update, update | downloading, downloading | error, error => true
  | _, _ => false
  end.
End Status.

Module Mode.
Inductive t : Type := pan | select | crop.
End Mode.

Inductive PanelId : Type := panel1 | panel2.

(** The pointer handlers of the component, by name.  A handler bundle stores
    names, [run] (below) gives each name its body. *)
Inductive Handler : Type :=
| StartPanImage | EndPanImage | PanImage
| SelectControlPoint | DeselectControlPoint | MoveControlPoint
| StartCropBox | EndCropBox | SelectCropBox | MoveCropBox.

Record Methods : Type := mkMethods {
  onMouseDown : Handler;
  onMouseUp : Handler;
  onMouseMove : Handler;
  onMouseOut : Handler
}.

(** [image_dims], [base_dims] and [source_dims] are read for their width and
    height only (the [x], [y] some writes give [image_dims] are never read),
    [render_dims] also for its offset. *)
Module Properties.
Record t : Type := mk {
  id : PanelId;
  image_dims : Dims.t;
  render_dims : Rect.t;
  base_dims : Dims.t;
  source_dims : Dims.t;
  bounds : Bounds.t;
  magnified_dims : Dims.t;
  filename : string;
  overlay : bool
}.
Definition set_image_dims (v : Dims.t) (p : t) : t :=
  mk (id p) v (render_dims p) (base_dims p) (source_dims p) (bounds p)
     (magnified_dims p) (filename p) (overlay p).
Definition set_render_dims (v : Rect.t) (p : t) : t :=
  mk (id p) (image_dims p) v (base_dims p) (source_dims p) (bounds p)
     (magnified_dims p) (filename p) (overlay p).
Definition set_source_dims (v : Dims.t) (p : t) : t :=
  mk (id p) (image_dims p) (render_dims p) (base_dims p) v (bounds p)
     (magnified_dims p) (filename p) (overlay p).
Definition set_base_dims (v : Dims.t) (p : t) : t :=
  mk (id p) (image_dims p) (render_dims p) v (source_dims p) (bounds p)
     (magnified_dims p) (filename p) (overlay p).
Definition set_bounds (v : Bounds.t) (p : t) : t :=
  mk (id p) (image_dims p) (render_dims p) (base_dims p) (source_dims p) v
     (magnified_dims p) (filename p) (overlay p).
Definition set_magnified_dims (v : Dims.t) (p : t) : t :=
  mk (id p) (image_dims p) (render_dims p) (base_dims p) (source_dims p) (bounds p)
     v (filename p) (overlay p).
End Properties.

Module Pointer.
Record t : Type := mk {
  x : Q;
  y : Q;
  selected : option Point.t;
  points : list Point.t;
  selectBox : Rect.t;
  index : Z;
  magnify : bool
}.
Definition pos (p : t) : Point.t := Point.mk (x p) (y p).
Definition set_selected (v : option Point.t) (p : t) : t :=
  mk (x p) (y p) v (points p) (selectBox p) (index p) (magnify p).
Definition set_points (v : list Point.t) (p : t) : t :=
  mk (x p) (y p) (selected p) v (selectBox p) (index p) (magnify p).
Definition set_selectBox (v : Rect.t) (p : t) : t :=
  mk (x p) (y p) (selected p) (points p) v (index p) (magnify p).
Definition set_index (v : Z) (p : t) : t :=
  mk (x p) (y p) (selected p) (points p) (selectBox p) v (magnify p).
End Pointer.

(** What a drawing surface shows after [draw(canvas, {view, source})]. *)
Record Drawn : Type := mkDrawn {
  drawn_image : option ImageData;
  drawn_view : Rect.t;
  drawn_source : Rect.t
}.

Inductive Shape : Type :=
| ControlPoints (pts : list Point.t)
| BoundingBox (x y w h : Q).

Module Panel.
Record t : Type := mk {
  status : Status.t;
  properties : Properties.t;
  image : option ImageData;
  source : option ImageData;
  rendered : option Drawn;
  pointer : Pointer.t;
  methods : Methods
}.
Definition set_status (v : Status.t) (p : t) : t :=
  mk v (properties p) (image p) (source p) (rendered p) (pointer p) (methods p).
Definition set_properties (v : Properties.t) (p : t) : t :=
  mk (status p) v (image p) (source p) (rendered p) (pointer p) (methods p).
Definition set_image (v : option ImageData) (p : t) : t :=
  mk (status p) (properties p) v (source p) (rendered p) (pointer p) (methods p).
Definition set_source (v : option ImageData) (p : t) : t :=
  mk (status p) (properties p) (image p) v (rendered p) (pointer p) (methods p).
Definition set_rendered (v : option Drawn) (p : t) : t :=
  mk (status p) (properties p) (image p) (source p) v (pointer p) (methods p).
Definition set_pointer (v : Pointer.t) (p : t) : t :=
  mk (status p) (properties p) (image p) (source p) (rendered p) v (methods p).
Definition set_methods (v : Methods) (p : t) : t :=
  mk (status p) (properties p) (image p) (source p) (rendered p) (pointer p) v.
End Panel.

(** The context value [iat = useIat()] a render of the component sees. *)
Record Iat : Type := mkIat {
  iat_panel1 : Panel.t;
  iat_panel2 : Panel.t;
  mode : Mode.t;
  options : Options
}.

Definition iat_get (iat : Iat) (id : PanelId) : Panel.t :=
  match id with panel1 => iat_panel1 iat | panel2 => iat_panel2 iat end.

(** The canvas stack of one panel (the component's refs). *)
Record Layers : Type := mkLayers {
  imageLayer : option ImageData;
  viewLayer : option Drawn;
  magnifiedLayer : option Drawn;
  overlayLayer1 : list Shape;
  overlayLayer2 : list Shape;
  viewBounds : Bounds.t;
  viewDims : Dims.t
}.

(** The live state the component writes: its panel's React state, the
    toolkit's user message, its canvas layers and its own [aligned] flag. *)
Record World : Type := mkWorld {
  live : Panel.t;
  message : option Message;
  layers : Layers;
  aligned : bool
}.

(** ** Effects: a state monad over [World] with an exception flag *)

Definition M (A : Type) : Type := World -> option A * World.

Definition ret {A : Type} (a : A) : M A := fun w => (Some a, w).

Definition bind {A B : Type} (c : M A) (k : A -> M B) : M B :=
  fun w => match c w with
           | (Some a, w') => k a w'
           | (None, w') => (None, w')
           end.

Definition throw {A : Type} : M A := fun w => (None, w).

Definition try_catch (body handler : M unit) : M unit :=
  fun w => match body w with
           | (Some a, w') => (Some a, w')
           | (None, w') => handler w'
           end.

Definition modify (f : World -> World) : M unit := fun w => (Some tt, f w).

Definition read {A : Type} (f : World -> A) : M A := fun w => (Some (f w), w).

Definition exec {A : Type} (c : M A) (w : World) : World := snd (c w).

Notation "x <- c ;; k" := (bind c (fun x => k))
  (at level 100, c at next level, right associativity).
Notation "c ;; k" := (bind c (fun _ => k))
  (at level 100, right associativity).

Definition on_live (f : Panel.t -> Panel.t) : M unit :=
  modify (fun w => mkWorld (f (live w)) (message w) (layers w) (aligned w)).

Definition on_layers (f : Layers -> Layers) : M unit :=
  modify (fun w => mkWorld (live w) (message w) (f (layers w)) (aligned w)).

Definition on_pointer (f : Pointer.t -> Pointer.t) : M unit :=
  on_live (fun p => Panel.set_pointer (f (Panel.pointer p)) p).

(** *** The panel's setters

    Modelled from the spec: the panel object of [alignment.provider.client],
    defined outside the panel component.  Each [setX] replaces one field of
    the panel's state; [setProperties] and [update] merge into the current
    properties; [reset] is the teardown of the spec's lifecycle (both buffers
    and all pointer and control-point state cleared). *)

Definition setStatus (s : Status.t) : M unit := on_live (Panel.set_status s).
Definition setImage (i : option ImageData) : M unit := on_live (Panel.set_image i).
Definition setSource (i : option ImageData) : M unit := on_live (Panel.set_source i).
Definition setRendered (d : option Drawn) : M unit := on_live (Panel.set_rendered d).
Definition setMethods (m : Methods) : M unit := on_live (Panel.set_methods m).
Definition setProperties (f : Properties.t -> Properties.t) : M unit :=
  on_live (fun p => Panel.set_properties (f (Panel.properties p)) p).
Definition update (f : Properties.t -> Properties.t) : M unit := setProperties f.

Definition initProperties (id : PanelId) : Properties.t :=
  Properties.mk id (Dims.mk 0 0) Rect.zero (Dims.mk 0 0) (Dims.mk 0 0)
    (Bounds.mk 0 0 0 0) (Dims.mk 0 0) EmptyString false.

Definition initPointer : Pointer.t :=
  Pointer.mk 0 0 None [] Rect.zero (-1)%Z false.

Definition reset : M unit :=
  on_live (fun p =>
    Panel.mk (Panel.status p)
      (initProperties (Properties.id (Panel.properties p)))
      None None None initPointer (Panel.methods p)).

Definition setSelect (s : option Point.t) : M unit := on_pointer (Pointer.set_selected s).
Definition setPoints (l : list Point.t) : M unit := on_pointer (Pointer.set_points l).
Definition clearPoints : M unit := on_pointer (Pointer.set_points []).
Definition setSelectBox (b : Rect.t) : M unit := on_pointer (Pointer.set_selectBox b).
Definition resetSelectBox : M unit := on_pointer (Pointer.set_selectBox Rect.zero).
Definition setIndex (i : Z) : M unit := on_pointer (Pointer.set_index i).

Definition setMessage (m : option Message) : M unit :=
  modify (fun w => mkWorld (live w) m (layers w) (aligned w)).
Definition setAligned (b : bool) : M unit :=
  modify (fun w => mkWorld (live w) (message w) (layers w) b).

(** *** The canvas layers

    Modelled from the spec: the [Canvas] and [Overlay] components, defined
    outside the panel component.  A surface keeps what was last loaded or
    drawn on it, [getImageData] reads that back, [clear] empties it, and an
    overlay draw replaces the overlay's previous markup. *)

Module Canvas.

Definition imageLayer_load (d : option ImageData) : M unit :=
  on_layers (fun l => mkLayers d (viewLayer l) (magnifiedLayer l)
    (overlayLayer1 l) (overlayLayer2 l) (viewBounds l) (viewDims l)).
Definition imageLayer_clear : M unit := imageLayer_load None.
Definition imageLayer_canvas : M (option ImageData) := read (fun w => imageLayer (layers w)).
Definition imageLayer_getImageData : M (option ImageData) := imageLayer_canvas.

Definition viewLayer_put (d : option Drawn) : M unit :=
  on_layers (fun l => mkLayers (imageLayer l) d (magnifiedLayer l)
    (overlayLayer1 l) (overlayLayer2 l) (viewBounds l) (viewDims l)).
Definition viewLayer_draw (canvas : option ImageData) (view source : Rect.t) : M unit :=
  viewLayer_put (Some (mkDrawn canvas view source)).
Definition viewLayer_clear : M unit := viewLayer_put None.
Definition viewLayer_getImageData : M (option Drawn) := read (fun w => viewLayer (layers w)).
Definition viewLayer_bounds : M Bounds.t := read (fun w => viewBounds (layers w)).
Definition viewLayer_dims : M Dims.t := read (fun w => viewDims (layers w)).

Definition magnifiedLayer_put (d : option Drawn) : M unit :=
  on_layers (fun l => mkLayers (imageLayer l) (viewLayer l) d
    (overlayLayer1 l) (overlayLayer2 l) (viewBounds l) (viewDims l)).
Definition magnifiedLayer_draw (canvas : option ImageData) (view source : Rect.t) : M unit :=
  magnifiedLayer_put (Some (mkDrawn canvas view source)).
Definition magnifiedLayer_clear : M unit := magnifiedLayer_put None.

Definition overlayLayer1_put (s : list Shape) : M unit :=
  on_layers (fun l => mkLayers (imageLayer l) (viewLayer l) (magnifiedLayer l)
    s (overlayLayer2 l) (viewBounds l) (viewDims l)).
Definition overlayLayer1_clear : M unit := overlayLayer1_put [].
Definition overlayLayer1_drawControlPoints (pts : list Point.t) : M unit :=
  overlayLayer1_put [ControlPoints pts].
Definition overlayLayer1_drawBoundingBox (x y w h : Q) : M unit :=
  overlayLayer1_put [BoundingBox x y w h].

Definition overlayLayer2_put (s : list Shape) : M unit :=
  on_layers (fun l => mkLayers (imageLayer l) (viewLayer l) (magnifiedLayer l)
    (overlayLayer1 l) s (viewBounds l) (viewDims l)).
Definition overlayLayer2_clear : M unit := overlayLayer2_put [].
Definition overlayLayer2_drawControlPoints (pts : list Point.t) : M unit :=
  overlayLayer2_put [ControlPoints pts].

End Canvas.

(** ** The functions the component imports

    [scaleToFit], [getScale], [scalePoint] and [inRange] come from
    [tools/scaler.alignment], [getPos] from [tools/pointer.alignment],
    [cropImage] from [tools/cropper.alignment], [alignImages] from
    [utils/align.utils.alignment].  The component is parameterised over
    them; [Spec.imports] below gives the instance the specification
    describes. *)

Inductive AlignResult : Type :=
| AlignError (error : Message)
| AlignData (data : ImageData).

Class Imports : Type := {
  scaleToFit : Q -> Q -> Q -> Q -> Dims.t;
  getScale : Dims.t -> Dims.t -> Point.t;
  scalePoint : Point.t -> Dims.t -> Dims.t -> Point.t;
  inRange : Q -> Q -> Q -> Q -> Q -> bool;
  getPos : Event -> Dims.t -> Bounds.t -> Point.t;
  (** [cropImage canvas image box]: [None] when the call throws, otherwise
      the content it leaves in the canvas it was given *)
  cropImage : option ImageData -> option ImageData -> Rect.t -> option (option ImageData);
  (** [alignImages panelSrc panelDst canvas image options]: [None] when the
      call throws, otherwise the [{data, error}] it returns and the content
      it leaves in the canvas it was given *)
  alignImages : Panel.t -> Panel.t -> option ImageData -> option ImageData ->
                Options -> option (AlignResult * option ImageData)
}.

(** ** The component [PanelAlignment({id})] *)

Definition isSome {A : Type} (o : option A) : bool :=
  match o with Some _ => true | None => false end.

(** [list[i] = v] on a copy of the list, for an index inside it. *)
Fixpoint list_set {A : Type} (l : list A) (i : nat) (v : A) : list A :=
  match l, i with
  | [], _ => []
  | _ :: t, O => v :: t
  | a :: t, S j => a :: list_set t j v
  end.

(** The three mode bundles and the crop sub-mode that moves an existing box. *)
Definition panMethods : Methods :=
  mkMethods StartPanImage EndPanImage PanImage EndPanImage.
Definition selectMethods : Methods :=
  mkMethods SelectControlPoint DeselectControlPoint MoveControlPoint DeselectControlPoint.
Definition cropMethods : Methods :=
  mkMethods StartCropBox EndCropBox SelectCropBox EndCropBox.
Definition cropMoveMethods : Methods :=
  mkMethods StartCropBox EndCropBox MoveCropBox EndCropBox.

Section Component.

Context {imports : Imports}.
Variable id : PanelId.
Variable iat : Iat.

Local Abbreviation panel := (iat_get iat id).

Import Canvas.

(** A call of [cropImage] on the image layer's canvas: the canvas is a shared
    object, what the callee draws on it is the layer's new content. *)
Definition call_cropImage (image : option ImageData) (selectBox : Rect.t) : M unit :=
  canvas <- imageLayer_canvas ;;
  match cropImage canvas image selectBox with
  | None => throw
  | Some canvas' => imageLayer_load canvas'
  end.

(** A call of [alignImages] on the image layer's canvas, likewise. *)
Definition call_alignImages (panelSrc panelDst : Panel.t) (image : option ImageData)
    (options : Options) : M AlignResult :=
  canvas <- imageLayer_canvas ;;
  match alignImages panelSrc panelDst canvas image options with
  | None => throw
  | Some (result, canvas') => imageLayer_load canvas' ;; ret result
  end.

(** The loader's [props] is taken to carry every property, so that merging
    [{...props, render_dims, bounds}] into the properties replaces them. *)
Definition _init (props : Properties.t) : M unit :=
  bounds <- viewLayer_bounds ;;
  renderDims <- viewLayer_dims ;;
  update (fun _ =>
    Properties.set_bounds bounds
      (Properties.set_render_dims (Rect.mk 0 0 (Dims.w renderDims) (Dims.h renderDims)) props)).

Definition _resetBounds : M Bounds.t :=
  bounds <- viewLayer_bounds ;;
  update (Properties.set_bounds bounds) ;;
  ret bounds.

(** Every call in the component passes [imageDims]; the fallback to
    [panel.properties.image_dims] for a missing argument is left out. *)
Definition _updateMagnified (imageDims : Rect.t) : M unit :=
  let imgW := Rect.w imageDims in
  let imgH := Rect.h imageDims in
  let magDims := scaleToFit imgW imgH (maxMagnifiedWidth (options iat)) (maxMagnifiedHeight (options iat)) in
  canvas <- imageLayer_canvas ;;
  magnifiedLayer_draw canvas (Rect.mk 0 0 (Dims.w magDims) (Dims.h magDims)) imageDims ;;
  update (Properties.set_magnified_dims magDims).

Definition _renderImage (viewDims imageDims : Rect.t) : M unit :=
  try_catch
    (canvas <- imageLayer_canvas ;;
     viewLayer_draw canvas viewDims imageDims ;;
     img <- imageLayer_getImageData ;;
     setImage img ;;
     shown <- viewLayer_getImageData ;;
     setRendered shown ;;
     _updateMagnified imageDims ;;
     setProperties (Properties.set_render_dims viewDims))
    (setStatus Status.error).

Definition _syncImages : M unit :=
  try_catch
    (img <- imageLayer_getImageData ;;
     setSource img ;;
     setProperties (Properties.set_source_dims
       (Dims.mk (Dims.w (Properties.image_dims (Panel.properties panel)))
                (Dims.h (Properties.image_dims (Panel.properties panel))))) ;;
     setMessage (Some (mkMessage "Source image updated to current image." "success")))
    (setStatus Status.error).

Definition _updateImage : M unit :=
  let source_dims := Properties.source_dims (Panel.properties panel) in
  let base_dims := Properties.base_dims (Panel.properties panel) in
  let dims := scaleToFit (Dims.w source_dims) (Dims.h source_dims)
                         (Dims.w base_dims) (Dims.h base_dims) in
  imageLayer_load (Panel.image panel) ;;
  _renderImage
    (Rect.mk 0 0 (Dims.w dims) (Dims.h dims))
    (Rect.mk 0 0 (Dims.w source_dims) (Dims.h source_dims)).

Definition _clearOverlay : M unit :=
  overlayLayer1_clear ;;
  overlayLayer2_clear ;;
  clearPoints.

Definition _removeImage : M unit :=
  _clearOverlay ;;
  reset ;;
  imageLayer_clear ;;
  viewLayer_clear ;;
  magnifiedLayer_clear ;;
  setStatus Status.empty.

(** *** Fit, full size, zoom *)

Definition _fitView : M unit :=
  let image_dims := Properties.image_dims (Panel.properties panel) in
  let base_dims := Properties.base_dims (Panel.properties panel) in
  let viewDims := scaleToFit (Dims.w image_dims) (Dims.h image_dims)
                             (Dims.w base_dims) (Dims.h base_dims) in
  _renderImage
    (Rect.mk 0 0 (Dims.w viewDims) (Dims.h viewDims))
    (Rect.mk 0 0 (Dims.w image_dims) (Dims.h image_dims)) ;;
  overlayLayer1_drawControlPoints
    (map (fun ctrlPt =>
            scalePoint ctrlPt (Rect.mk 0 0 (Dims.w viewDims) (Dims.h viewDims)) image_dims)
         (Pointer.points (Panel.pointer panel))).

Definition _fullView : M unit :=
  let image_dims := Properties.image_dims (Panel.properties panel) in
  let viewDims := Rect.mk 0 0 (Dims.w image_dims) (Dims.h image_dims) in
  _renderImage viewDims (Rect.mk 0 0 (Dims.w image_dims) (Dims.h image_dims)) ;;
  overlayLayer1_drawControlPoints
    (map (fun ctrlPt => scalePoint ctrlPt viewDims image_dims)
         (Pointer.points (Panel.pointer panel))).

Definition _zoomView (zoomValue : Q) : M unit :=
  let render_dims := Properties.render_dims (Panel.properties panel) in
  let image_dims := Properties.image_dims (Panel.properties panel) in
  let viewDims := Rect.mk (Js.Math_round (Js.mul (Rect.x render_dims) zoomValue))
                          (Js.Math_round (Js.mul (Rect.y render_dims) zoomValue))
                          (Js.Math_round (Js.mul (Rect.w render_dims) zoomValue))
                          (Js.Math_round (Js.mul (Rect.h render_dims) zoomValue)) in
  _renderImage viewDims (Rect.mk 0 0 (Dims.w image_dims) (Dims.h image_dims)) ;;
  overlayLayer1_drawControlPoints
    (map (fun ctrlPt =>
            let pt := scalePoint ctrlPt viewDims image_dims in
            Point.mk (Rect.x viewDims + Point.x pt) (Rect.y viewDims + Point.y pt))
         (Pointer.points (Panel.pointer panel))).

Definition _zoomIn : M unit := _zoomView 1.25.

(** The literal [0.8] is the double nearest to 8/10. *)
Definition _zoomOut : M unit := _zoomView (Js.double 0.8).

(** *** Pan *)

Definition _startPanImage : M unit := ret tt.

Definition _panImage (e : Event) (properties : Properties.t) (pointer : Pointer.t) : M unit :=
  try_catch
    (match Pointer.selected pointer with
     | None => ret tt
     | Some selected =>
       let render_dims := Properties.render_dims properties in
       let image_dims := Properties.image_dims properties in
       let _x := Rect.x render_dims + Pointer.x pointer - Point.x selected in
       let _y := Rect.y render_dims + Pointer.y pointer - Point.y selected in
       let viewDims := Rect.mk _x _y (Rect.w render_dims) (Rect.h render_dims) in
       let sourceDims := Rect.mk 0 0 (Dims.w image_dims) (Dims.h image_dims) in
       setSelect (Some (Point.mk (Pointer.x pointer) (Pointer.y pointer))) ;;
       canvas <- imageLayer_canvas ;;
       viewLayer_draw canvas viewDims sourceDims ;;
       setProperties (Properties.set_render_dims viewDims) ;;
       overlayLayer1_drawControlPoints
         (map (fun ctrlPt =>
                 let pt := scalePoint ctrlPt viewDims image_dims in
                 Point.mk (Point.x pt + Rect.x viewDims) (Point.y pt + Rect.y viewDims))
              (Pointer.points pointer))
     end)
    (setStatus Status.error).

Definition _endPanImage : M unit := ret tt.

(** *** Crop *)

(** The select box is a record here, so the guard [!panel.pointer.selectBox]
    of the source never fires and is left out. *)
Definition _applyCropBox : M unit :=
  try_catch
    (setStatus Status.loading ;;
     let selectBox := Pointer.selectBox (Panel.pointer panel) in
     let base_dims := Properties.base_dims (Panel.properties panel) in
     if (Rect.w selectBox === 0) && (Rect.h selectBox === 0) then ret tt
     else
       call_cropImage (Panel.image panel) selectBox ;;
       let scaledDims := scaleToFit (Rect.w selectBox) (Rect.h selectBox)
                           (Dims.w base_dims) (Dims.h base_dims) in
       _clearOverlay ;;
       _renderImage
         (Rect.mk 0 0 (Dims.w scaledDims) (Dims.h scaledDims))
         (Rect.mk 0 0 (Rect.w selectBox) (Rect.h selectBox)) ;;
       setProperties (fun prevState =>
         Properties.set_render_dims (Rect.mk 0 0 (Dims.w scaledDims) (Dims.h scaledDims))
           (Properties.set_image_dims (Dims.mk (Rect.w selectBox) (Rect.h selectBox)) prevState)) ;;
       setSelectBox (Rect.mk 0 0 0 0) ;;
       setStatus Status.loaded)
    (setStatus Status.error ;;
     setMessage (Some (mkMessage "Image could not be cropped." "error"))).

Definition _moveCropBox (e : Event) (properties : Properties.t) (pointer : Pointer.t) : M unit :=
  match Pointer.selected pointer with
  | None => ret tt
  | Some selected =>
    let selectBox := Pointer.selectBox pointer in
    let scaleDown := getScale (Properties.render_dims properties) (Properties.image_dims properties) in
    let _x := Js.Math_round (Js.mul (Point.x scaleDown) (Rect.x selectBox))
              + Pointer.x pointer - Point.x selected in
    let _y := Js.Math_round (Js.mul (Point.y scaleDown) (Rect.y selectBox))
              + Pointer.y pointer - Point.y selected in
    let _w := Js.Math_round (Js.mul (Point.x scaleDown) (Rect.w selectBox)) in
    let _h := Js.Math_round (Js.mul (Point.y scaleDown) (Rect.h selectBox)) in
    setSelect (Some (Point.mk (Pointer.x pointer) (Pointer.y pointer))) ;;
    let scaleUp := getScale (Properties.image_dims properties) (Properties.render_dims properties) in
    setSelectBox (Rect.mk (Js.Math_round (Js.mul (Point.x scaleUp) _x))
                          (Js.Math_round (Js.mul (Point.y scaleUp) _y))
                          (Rect.w selectBox) (Rect.h selectBox)) ;;
    overlayLayer1_drawBoundingBox _x _y _w _h
  end.

Definition _startCropBox (e : Event) (properties : Properties.t) (pointer : Pointer.t) : M unit :=
  let selectBox := Pointer.selectBox pointer in
  let scaledPt := scalePoint (Pointer.pos pointer)
                    (Properties.image_dims properties) (Properties.render_dims properties) in
  let inRange :=
    (Rect.w selectBox >? 0) && (Rect.h selectBox >? 0) &&
    (Point.x scaledPt >=? Rect.x selectBox) && (Point.x scaledPt <=? Rect.x selectBox + Rect.w selectBox) &&
    (Point.y scaledPt >=? Rect.y selectBox) && (Point.y scaledPt <=? Rect.y selectBox + Rect.h selectBox) in
  if inRange then setMethods cropMoveMethods
  else
    setSelectBox (Rect.mk (Point.x scaledPt) (Point.y scaledPt) 0 0) ;;
    overlayLayer1_drawBoundingBox 0 0 0 0.

Definition _endCropBox (e : Event) (properties : Properties.t) (pointer : Pointer.t) : M unit :=
  let selectBox := Pointer.selectBox pointer in
  let image_dims := Properties.image_dims properties in
  (if negb (isSome (Panel.image panel))
      || negb (Status.eqb (Panel.status panel) Status.loaded)
      || (Rect.w selectBox === 0)
      || (Rect.h selectBox === 0)
   then
     _clearOverlay ;;
     resetSelectBox
   else
     let _x := Js.Math_round (Js.Math_max (Js.Math_min (Rect.x selectBox) (Dims.w image_dims)) 0) in
     let _y := Js.Math_round (Js.Math_max (Js.Math_min (Rect.y selectBox) (Dims.h image_dims)) 0) in
     let _w := if Rect.x selectBox + Rect.w selectBox >? Dims.w image_dims
               then Dims.w image_dims - Js.Math_abs (Rect.x selectBox)
               else if Rect.x selectBox <? 0
                    then Rect.w selectBox - Js.Math_abs (Rect.x selectBox)
                    else Rect.w selectBox in
     let _h := if Rect.y selectBox + Rect.h selectBox >? Dims.h image_dims
               then Dims.h image_dims - Js.Math_abs (Rect.y selectBox)
               else if Rect.y selectBox <? 0
                    then Rect.h selectBox - Js.Math_abs (Rect.y selectBox)
                    else Rect.h selectBox in
     setSelectBox (Rect.mk _x _y _w _h) ;;
     let scale := getScale (Properties.render_dims properties) image_dims in
     overlayLayer1_drawBoundingBox
       (Js.Math_round (Js.mul (Point.x scale) _x))
       (Js.Math_round (Js.mul (Point.y scale) _y))
       (Js.Math_abs (Js.Math_round (Js.mul (Point.x scale) _w)))
       (Js.Math_abs (Js.Math_round (Js.mul (Point.y scale) _h)))) ;;
  setMethods cropMethods.

Definition _selectCropBox (e : Event) (properties : Properties.t) (pointer : Pointer.t) : M unit :=
  match Pointer.selected pointer with
  | None => ret tt
  | Some selected =>
    let render_dims := Properties.render_dims properties in
    let scale := getScale (Properties.image_dims properties) render_dims in
    let _x := Js.Math_min (Pointer.x pointer) (Point.x selected) in
    let _y := Js.Math_min (Pointer.y pointer) (Point.y selected) in
    let _w := Rect.x render_dims + Pointer.x pointer - Point.x selected in
    let _h := Rect.y render_dims + Pointer.y pointer - Point.y selected in
    setSelectBox (Rect.mk (Js.Math_round (Js.mul (Point.x scale) _x))
                          (Js.Math_round (Js.mul (Point.y scale) _y))
                          (Js.Math_abs (Js.Math_round (Js.mul (Point.x scale) _w)))
                          (Js.Math_abs (Js.Math_round (Js.mul (Point.y scale) _h)))) ;;
    overlayLayer1_drawBoundingBox (Point.x selected) (Point.y selected) _w _h
  end.

(** *** Select (control points) *)

(** The [forEach] over the current control points: every point is scaled to
    the render view and offset, and a point within [ptrRadius] of the cursor
    becomes the selected index. *)
Fixpoint hitTest (properties : Properties.t) (pos offset : Point.t) (radius : Q)
    (controlPoints : list Point.t) (index : Z) (pts : list Point.t) (selected : bool)
    : M (list Point.t * bool) :=
  match controlPoints with
  | [] => ret (pts, selected)
  | ctrlPt :: rest =>
    let pt := scalePoint ctrlPt (Properties.render_dims properties) (Properties.image_dims properties) in
    let pts := pts ++ [Point.mk (Point.x pt + Point.x offset) (Point.y pt + Point.y offset)] in
    if inRange (Point.x pos) (Point.y pos)
               (Point.x pt + Point.x offset) (Point.y pt + Point.y offset) radius
    then setIndex index ;;
         hitTest properties pos offset radius rest (index + 1)%Z pts true
    else hitTest properties pos offset radius rest (index + 1)%Z pts selected
  end.

(** The image pixel under a canvas position ([actual] in the source):
    [Math.round] of the double product of the scale and the offset from the
    image's corner. *)
Definition actualPoint (properties : Properties.t) (pos offset : Point.t) : Point.t :=
  let scaleUp := getScale (Properties.image_dims properties) (Properties.render_dims properties) in
  Point.mk (Js.Math_round (Js.mul (Point.x scaleUp) (Point.x pos - Point.x offset)))
           (Js.Math_round (Js.mul (Point.y scaleUp) (Point.y pos - Point.y offset))).

Definition renderOffset (properties : Properties.t) : Point.t :=
  Point.mk (Js.Math_round (Rect.x (Properties.render_dims properties)))
           (Js.Math_round (Rect.y (Properties.render_dims properties))).

(** [getPos] is taken to give a position and [iat.options] to be present;
    the fallbacks [|| {}] of the source (coordinates or options [undefined])
    are outside the number model. *)
Definition _selectControlPoint (e : Event) (properties : Properties.t) (pointer : Pointer.t) : M unit :=
  bounds <- _resetBounds ;;
  let ptrRadius := ptrRadius (options iat) in
  let controlPtMax := controlPtMax (options iat) in
  let pos := getPos e (Properties.base_dims properties) bounds in
  let controlPoints := Pointer.points pointer in
  let render_dims := Properties.render_dims properties in
  let offset := renderOffset properties in
  if (Point.x pos >? Rect.w render_dims + Point.x offset)
     || (Point.y pos >? Rect.h render_dims + Point.y offset) then ret tt
  else if (Point.x pos <? Point.x offset) || (Point.y pos <? Point.y offset) then ret tt
  else
    let actual := actualPoint properties pos offset in
    hit <- hitTest properties pos offset ptrRadius controlPoints 0%Z [] false ;;
    let pts := fst hit in
    let selected := snd hit in
    if selected then ret tt
    else if (Z.of_nat (List.length controlPoints) >=? controlPtMax)%Z
    then setMessage (Some (getError "maxControlPoints" "canvas"))
    else
      let pts := pts ++ [pos] in
      let controlPoints := controlPoints ++ [actual] in
      setPoints controlPoints ;;
      overlayLayer1_drawControlPoints pts.

Definition _deselectControlPoint : M unit := setIndex (-1)%Z.

Definition _moveControlPoint (e : Event) (properties : Properties.t) (pointer : Pointer.t) : M unit :=
  match Pointer.selected pointer with
  | None => ret tt
  | Some selected =>
    if (Pointer.index pointer <? 0)%Z then ret tt
    else
      match nth_error (Pointer.points pointer) (Z.to_nat (Pointer.index pointer)) with
      | None => ret tt
      | Some ctrlPt =>
        let render_dims := Properties.render_dims properties in
        let offset := renderOffset properties in
        if (Pointer.x pointer >? Rect.w render_dims + Point.x offset)
           || (Pointer.y pointer >? Rect.h render_dims + Point.y offset) then ret tt
        else if (Pointer.x pointer <? Point.x offset) || (Pointer.y pointer <? Point.y offset) then ret tt
        else
          let _x := Pointer.x pointer + (Pointer.x pointer - Point.x selected) in
          let _y := Pointer.y pointer + (Pointer.y pointer - Point.y selected) in
          setSelect (Some (Point.mk (Pointer.x pointer) (Pointer.y pointer))) ;;
          let scaleUp := getScale (Properties.image_dims properties) render_dims in
          let controlPoints :=
            list_set (Pointer.points pointer) (Z.to_nat (Pointer.index pointer))
              (Point.mk (Js.Math_round (Js.mul (Point.x scaleUp) (_x - Point.x offset)))
                        (Js.Math_round (Js.mul (Point.y scaleUp) (_y - Point.y offset)))) in
          setPoints controlPoints ;;
          overlayLayer1_drawControlPoints
            (map (fun ctrlPt =>
                    let pt := scalePoint ctrlPt render_dims (Properties.image_dims properties) in
                    Point.mk (Point.x offset + Point.x pt) (Point.y offset + Point.y pt))
                 controlPoints)
      end
  end.

(** *** Load, reset, align *)

(** What the image loader hands to the callback, after the destructuring
    [{data = null, props = null, error = null} = response || {}]. *)
Record LoadResponse : Type := mkLoadResponse {
  res_data : option ImageData;
  res_props : option Properties.t;
  res_error : option Message
}.

(** The synchronous part of [_loadImage]: the status is set and the loader
    is started. *)
Definition _loadImage (props : Properties.t) : M unit :=
  setStatus Status.loading.

(** The callback [_loadImage] gives to the loader. *)
Definition _loadImage_callback (response : LoadResponse) : M unit :=
  match res_props response with
  | None => ret tt
  | Some props =>
    match res_error response with
    | Some error =>
      setStatus Status.empty ;;
      setMessage (Some error)
    | None =>
      setSource (res_data response) ;;
      _init props ;;
      let dims := scaleToFit (Dims.w (Properties.source_dims props)) (Dims.h (Properties.source_dims props))
                             (Dims.w (Properties.base_dims props)) (Dims.h (Properties.base_dims props)) in
      imageLayer_load (res_data response) ;;
      _renderImage
        (Rect.mk 0 0 (Dims.w dims) (Dims.h dims))
        (Rect.mk 0 0 (Dims.w (Properties.source_dims props)) (Dims.h (Properties.source_dims props))) ;;
      setStatus Status.loaded
    end
  end.

Definition _resetImage : M unit :=
  try_catch
    (let source_dims := Properties.source_dims (Panel.properties panel) in
     let base_dims := Properties.base_dims (Panel.properties panel) in
     setImage (Panel.source panel) ;;
     resetSelectBox ;;
     let viewDims := scaleToFit (Dims.w source_dims) (Dims.h source_dims)
                                (Dims.w base_dims) (Dims.h base_dims) in
     if negb (isSome (Panel.source panel)) then ret tt
     else
       imageLayer_load (Panel.source panel) ;;
       _renderImage
         (Rect.mk 0 0 (Dims.w viewDims) (Dims.h viewDims))
         (Rect.mk 0 0 (Dims.w source_dims) (Dims.h source_dims)) ;;
       update (fun prev =>
         Properties.set_render_dims (Rect.mk 0 0 (Dims.w viewDims) (Dims.h viewDims))
           (Properties.set_image_dims (Dims.mk (Dims.w source_dims) (Dims.h source_dims)) prev)) ;;
       setMessage (Some (mkMessage "Loaded image reset to source image." "success")) ;;
       setStatus Status.loaded ;;
       setAligned false ;;
       overlayLayer1_drawControlPoints
         (map (fun ctrlPt => scalePoint ctrlPt viewDims (Properties.image_dims (Panel.properties panel)))
              (Pointer.points (Panel.pointer panel))))
    (setStatus Status.error).

(** The panel whose raster is warped and the panel it is aligned to. *)
Definition panelSrc : Panel.t :=
  match Properties.id (Panel.properties panel) with
  | panel1 => iat_panel2 iat
  | panel2 => iat_panel1 iat
  end.

Definition panelDst : Panel.t :=
  match Properties.id (Panel.properties panel) with
  | panel1 => iat_panel1 iat
  | panel2 => iat_panel2 iat
  end.

Definition _alignImage : M unit :=
  try_catch
    (setStatus Status.loading ;;
     let base_dims := Properties.base_dims (Panel.properties panel) in
     result <- call_alignImages panelSrc panelDst (Panel.image panel) (options iat) ;;
     match result with
     | AlignError error => setMessage (Some error)
     | AlignData data =>
       let scaledDims := scaleToFit (width data) (height data) (Dims.w base_dims) (Dims.h base_dims) in
       _renderImage
         (Rect.mk 0 0 (Dims.w scaledDims) (Dims.h scaledDims))
         (Rect.mk 0 0 (width data) (height data)) ;;
       setStatus Status.loaded ;;
       setAligned true
     end)
    (setStatus Status.error).

(** *** The effects on the status, the overlay flag and the window size *)

Definition statusEffect : M unit :=
  (if Status.eqb (Panel.status panel) Status.load
   then _loadImage (Panel.properties panel) else ret tt) ;;
  (if Status.eqb (Panel.status panel) Status.update
   then _updateImage ;; setStatus Status.loaded else ret tt).

Definition statusCleanup : M unit :=
  if Status.eqb (Panel.status panel) Status.empty
     || Status.eqb (Panel.status panel) Status.update
  then setStatus Status.loaded else ret tt.

Definition overlayEffect : M unit :=
  if Properties.overlay (Panel.properties panel) then
    let otherPanel := match Properties.id (Panel.properties panel) with
                      | panel1 => iat_panel2 iat
                      | panel2 => iat_panel1 iat
                      end in
    overlayLayer2_drawControlPoints
      (map (fun ctrlPt =>
              scalePoint ctrlPt (Properties.render_dims (Panel.properties otherPanel))
                (Properties.image_dims (Panel.properties otherPanel)))
           (Pointer.points (Panel.pointer otherPanel)))
  else overlayLayer2_clear.

Definition resizeEffect : M unit := _resetBounds ;; ret tt.

(** *** The effect on [iat.mode] *)

Definition modeEffect : M unit :=
  match mode iat with
  | Mode.pan => setMethods panMethods
  | Mode.select => setMethods selectMethods
  | Mode.crop =>
    (if isSome (Panel.image panel) then _resetImage else ret tt) ;;
    setMethods cropMethods
  end.

(** The other effects of the component, by name.  (The magnifier effect,
    which assigns no handler, is [magnifierEffect] further down.) *)
Inductive Effect : Type := StatusEffect | StatusCleanup | OverlayEffect | ResizeEffect.

Definition runEffect (f : Effect) : M unit :=
  match f with
  | StatusEffect => statusEffect
  | StatusCleanup => statusCleanup
  | OverlayEffect => overlayEffect
  | ResizeEffect => resizeEffect
  end.

(** The body behind each handler name. *)
Definition run (h : Handler) (e : Event) (properties : Properties.t) (pointer : Pointer.t) : M unit :=
  match h with
  | StartPanImage => _startPanImage
  | EndPanImage => _endPanImage
  | PanImage => _panImage e properties pointer
  | SelectControlPoint => _selectControlPoint e properties pointer
  | DeselectControlPoint => _deselectControlPoint
  | MoveControlPoint => _moveControlPoint e properties pointer
  | StartCropBox => _startCropBox e properties pointer
  | EndCropBox => _endCropBox e properties pointer
  | SelectCropBox => _selectCropBox e properties pointer
  | MoveCropBox => _moveCropBox e properties pointer
  end.

(** The commands the component hands to its menu, to the register tool and
    to the crop tool, and the loader's callback.  ([_resizeImage], an OpenCV
    resize over a resizer, and [_downloadImage], a file export, assign no
    handler and are modelled further down.) *)
Inductive Command : Type :=
| Load (props : Properties.t)
| Loaded (response : LoadResponse)
| SaveState
| Redraw (viewDims imageDims : Rect.t)
| Clear
| Fit
| Expand
| ZoomIn
| ZoomOut
| ResetCmd
| Remove
| ApplyCrop
| Align.

Definition runCommand (c : Command) : M unit :=
  match c with
  | Load props => _loadImage props
  | Loaded response => _loadImage_callback response
  | SaveState => _syncImages
  | Redraw viewDims imageDims => _renderImage viewDims imageDims
  | Clear => _clearOverlay
  | Fit => _fitView
  | Expand => _fullView
  | ZoomIn => _zoomIn
  | ZoomOut => _zoomOut
  | ResetCmd => _resetImage
  | Remove => _removeImage
  | ApplyCrop => _applyCropBox
  | Align => _alignImage
  end.

End Component.

(** ** Pointer events

    The controller ([useController], defined outside the panel component)
    owns the pointer events and forwards each one to the handler bound for
    it in [panel.methods], with a properties object and a pointer object. *)

Inductive EventKind : Type := MouseDown | MouseUp | MouseMove | MouseOut.

Definition handlerOf (k : EventKind) (m : Methods) : Handler :=
  match k with
  | MouseDown => onMouseDown m
  | MouseUp => onMouseUp m
  | MouseMove => onMouseMove m
  | MouseOut => onMouseOut m
  end.

(** The mode a handler belongs to. *)
Definition handlerMode (h : Handler) : Mode.t :=
  match h with
  | StartPanImage | EndPanImage | PanImage => Mode.pan
  | SelectControlPoint | DeselectControlPoint | MoveControlPoint => Mode.select
  | StartCropBox | EndCropBox | SelectCropBox | MoveCropBox => Mode.crop
  end.

(** A bundle drawn from the behaviour set of the single mode [m]. *)
Definition bundleOf (m : Mode.t) (b : Methods) : Prop :=
  forall k, handlerMode (handlerOf k b) = m.

(** One move of the component: the mode effect runs (a mode change), a
    pointer event is handled by the handler bound for it, whatever render's
    closure and whatever arguments it is called with, a command runs, or
    one of the other effects runs. *)
Inductive step {imports : Imports} (id : PanelId) : World -> World -> Prop :=
| step_mode : forall iat w, step id w (exec (modeEffect id iat) w)
| step_event : forall iat k e properties pointer w,
    step id w (exec (run id iat (handlerOf k (Panel.methods (live w))) e properties pointer) w)
| step_command : forall iat c w, step id w (exec (runCommand id iat c) w)
| step_effect : forall iat f w, step id w (exec (runEffect id iat f) w).

(** The worlds the component can be in: the mode effect has run at mount,
    then any number of moves. *)
Inductive reachable {imports : Imports} (id : PanelId) : World -> Prop :=
| reach_mount : forall iat w, reachable id (exec (modeEffect id iat) w)
| reach_step : forall w w', reachable id w -> step id w w' -> reachable id w'.

(** ** The imported functions as the specification describes them

    Their quotients and products are the engine's ([Js.div], [Js.mul]). *)

Module Spec.

(** Modelled from the spec: [scaleToFit] of [tools/scaler.alignment], defined
    outside the panel component.  The largest rectangle with the aspect
    ratio [srcW/srcH] that fits within [(maxW, maxH)]. *)
Definition scaleToFit (srcW srcH maxW maxH : Q) : Dims.t :=
  let ratio := Qmin (Js.div maxW srcW) (Js.div maxH srcH) in
  Dims.mk (Js.mul srcW ratio) (Js.mul srcH ratio).

(** Modelled from the spec: [getScale] of [tools/scaler.alignment], defined
    outside the panel component.  The per-axis ratio of the two rectangles'
    widths and heights, the factor that converts a length from one space to
    the other.  Which rectangle is the numerator is fixed by the call sites
    of the component: [getScale(image_dims, render_dims)] is named [scaleUp]
    and turns a canvas offset into image pixels, [getScale(render_dims,
    image_dims)] is named [scaleDown]; so the first argument is divided by
    the second. *)
Definition getScale (dims1 dims2 : Dims.t) : Point.t :=
  Point.mk (Js.div (Dims.w dims1) (Dims.w dims2)) (Js.div (Dims.h dims1) (Dims.h dims2)).

(** Modelled from the spec: [scalePoint] of [tools/scaler.alignment], defined
    outside the panel component.  It applies [getScale] to a point, with
    rounding. *)
Definition scalePoint (pt : Point.t) (dims1 dims2 : Dims.t) : Point.t :=
  let scale := getScale dims1 dims2 in
  Point.mk (Js.Math_round (Js.mul (Point.x pt) (Point.x scale)))
           (Js.Math_round (Js.mul (Point.y pt) (Point.y scale))).

(** Modelled from the spec: [inRange] of [tools/scaler.alignment], defined
    outside the panel component.  The Euclidean proximity test, on squared
    distances. *)
Definition inRange (px py cx cy radius : Q) : bool :=
  (0 <=? radius) &&
  (Js.mul (px - cx) (px - cx) + Js.mul (py - cy) (py - cy) <=? Js.mul radius radius).

(** Modelled from the spec: [getPos] of [tools/pointer.alignment], defined
    outside the panel component.  The cursor in canvas space: the client
    position of the event relative to the top-left corner of the canvas
    bounds. *)
Definition getPos (e : Event) (base_dims : Dims.t) (bounds : Bounds.t) : Point.t :=
  Point.mk (clientX e - Bounds.left bounds) (clientY e - Bounds.top bounds).

(** The vision capability (crop, align) is an external collaborator whose
    internals the specification leaves open; the instance takes it as given. *)
Definition imports
    (cropImage : option ImageData -> option ImageData -> Rect.t -> option (option ImageData))
    (alignImages : Panel.t -> Panel.t -> option ImageData -> option ImageData ->
                   Options -> option (AlignResult * option ImageData)) : Imports :=
  Build_Imports scaleToFit getScale scalePoint inRange getPos cropImage alignImages.

(** The clamp of a crop box as the specification words it: the intersection
    of the box with the image bounds [[0, w] x [0, h]]. *)
Definition intersection (box : Rect.t) (image_dims : Dims.t) : Rect.t :=
  let x0 := Qmax (Rect.x box) 0 in
  let y0 := Qmax (Rect.y box) 0 in
  let x1 := Qmin (Rect.x box + Rect.w box) (Dims.w image_dims) in
  let y1 := Qmin (Rect.y box + Rect.h box) (Dims.h image_dims) in
  Rect.mk x0 y0 (x1 - x0) (y1 - y0).

End Spec.

(** ** Sample data *)

Module Sample.

Definition raster (dims : Dims.t) (n : Z) : ImageData :=
  mkImageData (Dims.w dims) (Dims.h dims) [n].

(** A cropper that leaves a raster of the box's size in the canvas, and a
    solver that reports missing control points. *)
Definition cropToBox (canvas image : option ImageData) (box : Rect.t) : option (option ImageData) :=
  Some (Some (mkImageData (Rect.w box) (Rect.h box) [])).

Definition alignFails (src dst : Panel.t) (canvas image : option ImageData) (o : Options)
    : option (AlignResult * option ImageData) :=
  Some (AlignError (getError "missingControlPoints" "canvas"), canvas).

Definition imports : Imports := Spec.imports cropToBox alignFails.

Definition options : Options := mkOptions 10 4%Z 1600 1200.

Definition bounds : Bounds.t := Bounds.mk 0 0 800 600.

Definition properties (id : PanelId) (image_dims : Dims.t) (render_dims : Rect.t) : Properties.t :=
  Properties.mk id image_dims render_dims (Dims.mk 800 600) image_dims bounds
    (Dims.mk 0 0) "photo.jpg" false.

Definition pointer (points : list Point.t) (selectBox : Rect.t) : Pointer.t :=
  Pointer.mk 0 0 None points selectBox (-1)%Z false.

Definition loadedPanel (id : PanelId) (image_dims : Dims.t) (render_dims : Rect.t)
    (points : list Point.t) (selectBox : Rect.t) (m : Methods) : Panel.t :=
  Panel.mk Status.loaded (properties id image_dims render_dims)
    (Some (raster image_dims 1)) (Some (raster image_dims 0)) None (pointer points selectBox) m.

Definition emptyPanel (id : PanelId) : Panel.t :=
  Panel.mk Status.empty (initProperties id) None None None initPointer panMethods.

(** The canvas stack of a panel: the image layer holds the panel's image. *)
Definition layersOf (image : option ImageData) (overlay1 : list Shape) : Layers :=
  mkLayers image None None overlay1 [] bounds (Dims.mk 800 600).

Definition world (p : Panel.t) (overlay1 : list Shape) : World :=
  mkWorld p None (layersOf (Panel.image p) overlay1) false.

Definition iat (p : Panel.t) (m : Mode.t) : Iat :=
  mkIat p (emptyPanel panel2) m options.

(** Four stored control points (image space), as many as [options] allows. *)
Definition fourPoints : list Point.t :=
  [Point.mk 100 100; Point.mk 200 200; Point.mk 300 300; Point.mk 400 400].

(** A 4000x3000 image in select mode, rendered at [render_dims]. *)
Definition selectPanel (render_dims : Rect.t) (points : list Point.t) : Panel.t :=
  loadedPanel panel1 (Dims.mk 4000 3000) render_dims points Rect.zero selectMethods.

(** A 150x300 image in crop mode with the select box [box]. *)
Definition cropPanel (box : Rect.t) : Panel.t :=
  loadedPanel panel1 (Dims.mk 150 300) (Rect.mk 0 0 300 600) [] box cropMethods.

(** The loader's answer for a 4000x3000 image and an 800x600 canvas. *)
Definition loadResponse : LoadResponse :=
  mkLoadResponse (Some (raster (Dims.mk 4000 3000) 5))
    (Some (properties panel1 (Dims.mk 4000 3000) Rect.zero)) None.

End Sample.

(** ** Predicates used in the statements *)

(** The canvas position lies outside the rendered image: the two guards at
    the head of [_selectControlPoint]. *)
Definition OutsideImage (properties : Properties.t) (pos : Point.t) : Prop :=
  let render_dims := Properties.render_dims properties in
  let offset := renderOffset properties in
  Rect.w render_dims + Point.x offset < Point.x pos \/
  Rect.h render_dims + Point.y offset < Point.y pos \/
  Point.x pos < Point.x offset \/
  Point.y pos < Point.y offset.

Definition InsideImage (properties : Properties.t) (pos : Point.t) : Prop :=
  let render_dims := Properties.render_dims properties in
  let offset := renderOffset properties in
  (Point.x offset <= Point.x pos <= Rect.w render_dims + Point.x offset) /\
  (Point.y offset <= Point.y pos <= Rect.h render_dims + Point.y offset).

(** Where a stored control point is drawn: scaled to the render view, then
    offset. *)
Definition renderedPoint {imports : Imports} (properties : Properties.t) (offset ctrlPt : Point.t)
    : Point.t :=
  let pt := scalePoint ctrlPt (Properties.render_dims properties) (Properties.image_dims properties) in
  Point.mk (Point.x pt + Point.x offset) (Point.y pt + Point.y offset).

(** The canvas position is within [radius] of no stored control point. *)
Definition NoPointInRange {imports : Imports} (properties : Properties.t) (pos : Point.t)
    (radius : Q) (controlPoints : list Point.t) : Prop :=
  Forall (fun ctrlPt =>
            let pt := renderedPoint properties (renderOffset properties) ctrlPt in
            inRange (Point.x pos) (Point.y pos) (Point.x pt) (Point.y pt) radius = false)
         controlPoints.

(** One of the bundles the component ever binds. *)
Definition KnownBundle (b : Methods) : Prop :=
  b = panMethods \/ b = selectMethods \/ b = cropMethods \/ b = cropMoveMethods.

(** [keeps f c]: running [c] does not change the observation [f] of the
    world, whether [c] returns or throws. *)
Definition keeps {A X : Type} (f : World -> X) (c : M A) : Prop :=
  forall w, f (snd (c w)) = f w.

(** The handler bundle currently bound. *)
Definition methodsOf (w : World) : Methods := Panel.methods (live w).

(** ** Further parts of the component *)

(** The context value of the next render: the panel [id] is the live state. *)
Definition rerender (iat : Iat) (id : PanelId) (w : World) : Iat :=
  match id with
  | panel1 => mkIat (live w) (iat_panel2 iat) (mode iat) (options iat)
  | panel2 => mkIat (iat_panel1 iat) (live w) (mode iat) (options iat)
  end.

(** The OpenCV calls of [_resizeImage] ([imread], [resize] and the copy of
    the result's data), an external capability like the cropper and the
    solver. *)
Class Resizer : Type := {
  (** [cvResize canvas dsize]: [None] when one of the calls throws,
      otherwise the pixel data of the resized matrix *)
  cvResize : option ImageData -> Dims.t -> option (list Z)
}.

Section Tools.

Context {resizer : Resizer}.
Variable id : PanelId.
Variable iat : Iat.

Local Abbreviation panel := (iat_get iat id).

Import Canvas.

(** [base_dims.w || panel.properties.base_dims.w]: a width or height of 0
    falls back to the panel's own.  The [x: 0, y: 0] the source writes into
    [image_dims] has no field here: the image dimensions are a width and a
    height. *)
Definition _resizeImage (base_dims image_dims : Dims.t) : M unit :=
  _clearOverlay ;;
  try_catch
    (canvas <- imageLayer_canvas ;;
     match cvResize canvas image_dims with
     | None => throw
     | Some dstData =>
       let dstImageData := mkImageData (Dims.w image_dims) (Dims.h image_dims) dstData in
       setImage (Some dstImageData) ;;
       imageLayer_load (Some dstImageData) ;;
       update (fun prev =>
         Properties.set_base_dims
           (Dims.mk (if Dims.w base_dims === 0
                     then Dims.w (Properties.base_dims (Panel.properties panel))
                     else Dims.w base_dims)
                    (if Dims.h base_dims === 0
                     then Dims.h (Properties.base_dims (Panel.properties panel))
                     else Dims.h base_dims))
           (Properties.set_image_dims (Dims.mk (Dims.w image_dims) (Dims.h image_dims)) prev))
     end)
    (setStatus Status.error).

(** The file export.  [imageLayer.current.blob] and [saveAs] write a file
    and no state of the panel; the time stamp and the file name are left
    out.  [blobThrows] says whether the call of [blob] throws. *)
Definition _downloadImage (blobThrows : bool) : M unit :=
  try_catch
    (setStatus Status.downloading ;;
     if blobThrows then throw else ret tt)
    (setStatus Status.error).

(** The callback [_downloadImage] gives to [blob]: whether or not a blob was
    made, the status goes back to [loaded]. *)
Definition _downloadImage_callback (blob : bool) : M unit :=
  setStatus Status.loaded.

Definition _updateCropBox (x y w h : Q) : M unit :=
  overlayLayer1_drawBoundingBox x y w h.

Definition _updateControlPoint (pts : list Point.t) : M unit :=
  let offset := renderOffset (Panel.properties panel) in
  overlayLayer1_drawControlPoints
    (map (fun ctrlPt => Point.mk (Point.x offset + Point.x ctrlPt) (Point.y offset + Point.y ctrlPt))
         pts) ;;
  _resetBounds ;;
  ret tt.

(** The effect on the pointer position and the magnify flag.  The magnifier
    canvas it draws on, or clears, holds no state of the panel; what is left
    of it here is the refresh of the bounds. *)
Definition magnifierEffect : M unit :=
  if Pointer.magnify (Panel.pointer panel) then _resetBounds ;; ret tt else ret tt.

End Tools.

(** What the component renders beside the canvases: the crop tool
    ([iat.mode === 'crop' && panel.image && panel.status === 'loaded']) and
    the error banner ([panel.status === 'error']). *)
Definition cropToolShown (iat : Iat) (id : PanelId) : bool :=
  match mode iat with Mode.crop => true | _ => false end
  && isSome (Panel.image (iat_get iat id))
  && Status.eqb (Panel.status (iat_get iat id)) Status.loaded.

Definition errorBannerShown (iat : Iat) (id : PanelId) : bool :=
  Status.eqb (Panel.status (iat_get iat id)) Status.error.

(** The image cursor [PanelInfo] displays ([actual] in
    [panel.info.alignment.js]): the pointer scaled from the render view to
    the image. *)
Definition imageCursor {imports : Imports} (panel : Panel.t) : Point.t :=
  scalePoint (Pointer.pos (Panel.pointer panel))
    (Properties.image_dims (Panel.properties panel))
    (Properties.render_dims (Panel.properties panel)).

(** Two resizers for the examples: one that answers with a one-entry raster
    and one whose OpenCV call throws. *)
Module SampleTools.

Definition resizes : Resizer := Build_Resizer (fun canvas dsize => Some [7%Z]).

Definition resizeThrows : Resizer := Build_Resizer (fun canvas dsize => None).

End SampleTools.

(** The stored point number [i] (from 0) is drawn within [radius] of the
    canvas position and no later stored point is. *)
Definition LastPointInRange {imports : Imports} (properties : Properties.t) (pos : Point.t)
    (radius : Q) (controlPoints : list Point.t) (i : nat) : Prop :=
  let near ctrlPt :=
    let pt := renderedPoint properties (renderOffset properties) ctrlPt in
    inRange (Point.x pos) (Point.y pos) (Point.x pt) (Point.y pt) radius in
  (exists ctrlPt, nth_error controlPoints i = Some ctrlPt /\ near ctrlPt = true) /\
  (forall j ctrlPt, (i < j)%nat -> nth_error controlPoints j = Some ctrlPt -> near ctrlPt = false).

(** The commands that only change how the image is shown. *)
Definition isViewCommand (c : Command) : bool :=
  match c with
  | Redraw _ _ | Fit | Expand | ZoomIn | ZoomOut => true
  | _ => false
  end.

(** The stored control points fit the configured capacity. *)
Definition WithinCapacity (max : Z) (w : World) : Prop :=
  (Z.of_nat (List.length (Pointer.points (Panel.pointer (live w)))) <= max)%Z.

(** [preserves P c]: running [c] from a world where [P] holds ends in one
    where it holds, whether [c] returns or throws. *)
Definition preserves {A : Type} (P : World -> Prop) (c : M A) : Prop :=
  forall w, P w -> P (snd (c w)).

(** What no pointer handler touches: the two rasters and the dimensions of
    the image, of its source and of the canvas. *)
Definition rasterState (w : World)
    : option ImageData * option ImageData * Dims.t * Dims.t * Dims.t :=
  (Panel.image (live w), Panel.source (live w),
   Properties.image_dims (Panel.properties (live w)),
   Properties.source_dims (Panel.properties (live w)),
   Properties.base_dims (Panel.properties (live w))).

(** What no view command touches: the stored control points and select box,
    the source raster, the image dimensions, the bound handlers and the
    user message. *)
Definition editState (w : World)
    : list Point.t * Rect.t * option ImageData * Dims.t * Methods * option Message :=
  (Pointer.points (Panel.pointer (live w)), Pointer.selectBox (Panel.pointer (live w)),
   Panel.source (live w), Properties.image_dims (Panel.properties (live w)),
   Panel.methods (live w), message w).

(** * Properties *)

(** ** Comparisons *)

Lemma lt_true (a b : Q) : (a <? b) = true <-> a < b.
Proof.
  unfold Js.lt. rewrite negb_true_iff. split; intro H.
  - apply Qnot_le_lt. intro L. apply Qle_bool_iff in L. congruence.
  - destruct (Qle_bool b a) eqn:E; [|reflexivity].
    apply Qle_bool_iff in E. exfalso. exact (Qlt_not_le _ _ H E).
Qed.

Lemma lt_false (a b : Q) : (a <? b) = false <-> b <= a.
Proof. unfold Js.lt. rewrite negb_false_iff. apply Qle_bool_iff. Qed.

Lemma gt_true (a b : Q) : (a >? b) = true <-> b < a.
Proof. apply lt_true. Qed.

Lemma gt_false (a b : Q) : (a >? b) = false <-> a <= b.
Proof. apply lt_false. Qed.

Lemma eqq_true (a b : Q) : (a === b) = true <-> a == b.
Proof. apply Qeq_bool_iff. Qed.

Lemma Math_round_comp a b : a == b -> Js.Math_round a = Js.Math_round b.
Proof.
  intro H. unfold Js.Math_round. f_equal. apply Qfloor_comp. rewrite H. reflexivity.
Qed.

Lemma double_comp a b : a == b -> Js.double a = Js.double b.
Proof. intro H. unfold Js.double. rewrite (Qred_complete a b H). reflexivity. Qed.

Lemma mul_comp a b c d : a == c -> b == d -> Js.mul a b = Js.mul c d.
Proof. intros H1 H2. apply double_comp. rewrite H1, H2. reflexivity. Qed.

Lemma div_comp a b c d : a == c -> b == d -> Js.div a b = Js.div c d.
Proof. intros H1 H2. apply double_comp. rewrite H1, H2. reflexivity. Qed.

Lemma double_zero q : q == 0 -> Js.double q = 0.
Proof. intro H. rewrite (double_comp q 0 H). reflexivity. Qed.

Lemma Math_round_integer (z : Z) : Js.Math_round (inject_Z z) = inject_Z z.
Proof.
  unfold Js.Math_round. f_equal. unfold Qfloor, inject_Z, Qplus. cbn [Qnum Qden].
  change (Z.pos (1 * 2)) with 2%Z.
  symmetry. apply (Z.div_unique _ _ _ 1); lia.
Qed.

(** ** The rounding of doubles *)

Lemma roundHalfEven_error n d :
  (2 * Z.abs (Js.roundHalfEven n d * Z.pos d - n) <= Z.pos d)%Z.
Proof.
  unfold Js.roundHalfEven.
  pose proof (Z.div_mod n (Z.pos d) ltac:(lia)) as E.
  pose proof (Z.mod_pos_bound n (Z.pos d) ltac:(lia)) as B.
  set (q := (n / Z.pos d)%Z) in *. set (r := (n mod Z.pos d)%Z) in *.
  set (D := Z.pos d) in *. clearbody q r D.
  assert (F : (n - q * D = r)%Z) by lia.
  assert (F1 : ((q + 1) * D - n = D - r)%Z) by lia.
  assert (F0 : (q * D - n = - r)%Z) by lia.
  destruct (Z.compare_spec (2 * r) D) as [C | C | C].
  - destruct (Z.even q); [rewrite F0 | rewrite F1]; lia.
  - rewrite F0. lia.
  - rewrite F1. lia.
Qed.

Lemma roundHalfEven_exact t d : Js.roundHalfEven (t * Z.pos d) d = t.
Proof.
  unfold Js.roundHalfEven. rewrite Z.div_mul, Z.mod_mul by lia. reflexivity.
Qed.

Lemma lastBit_upper n d K :
  (0 < n)%Z -> (0 <= K)%Z -> (n < Z.pos d * 2 ^ K)%Z ->
  (Js.lastBit n d <= Z.max (K - 52) (-1074))%Z.
Proof.
  intros Hn HK Hlt. unfold Js.lastBit.
  assert (L : (Z.log2 n <= K + Z.log2 (Z.pos d))%Z).
  { rewrite <- Z.log2_mul_pow2 by lia. apply Z.log2_le_mono. lia. }
  destruct (if (0 <=? Z.log2 n - Z.log2 (Z.pos d))%Z then _ else _); lia.
Qed.

(** Below [2 ^ K], [K <= 51], a double is a multiple of [2 ^ (K - 52)]
    or finer: the value [Js.double] returns. *)
Lemma double_below q K :
  (0 <= K <= 51)%Z -> Qabs q < inject_Z (2 ^ K) -> ~ q == 0 ->
  exists k, (52 - K <= k)%Z /\
    Js.double q
    == (Z.sgn (Qnum (Qred q))
        * Js.roundHalfEven (Z.abs (Qnum (Qred q)) * 2 ^ k) (Qden (Qred q)))
       # Z.to_pos (2 ^ k).
Proof.
  intros HK Hq Hne.
  assert (Hr : Qabs (Qred q) < inject_Z (2 ^ K)) by (rewrite Qred_correct; exact Hq).
  assert (Hn : (Z.abs (Qnum (Qred q)) <> 0)%Z).
  { intro E. apply Hne. rewrite <- (Qred_correct q).
    unfold Qeq. cbn [Qnum Qden]. lia. }
  assert (Hlt : (Z.abs (Qnum (Qred q)) < Z.pos (Qden (Qred q)) * 2 ^ K)%Z).
  { unfold Qlt, Qabs, inject_Z in Hr. destruct (Qred q) as [num den]. cbn [Qnum Qden] in *.
    rewrite Z.mul_1_r in Hr. rewrite Z.mul_comm. exact Hr. }
  assert (Hpos : (0 < Z.abs (Qnum (Qred q)))%Z) by lia.
  pose proof (lastBit_upper _ (Qden (Qred q)) K Hpos (proj1 HK) Hlt) as U.
  exists (- Js.lastBit (Z.abs (Qnum (Qred q))) (Qden (Qred q)))%Z.
  split; [lia |].
  unfold Js.double.
  destruct (Z.eqb_spec (Z.abs (Qnum (Qred q))) 0) as [E | _]; [contradiction |].
  destruct (Z.leb_spec 0 (Js.lastBit (Z.abs (Qnum (Qred q))) (Qden (Qred q)))) as [L | _]; [lia |].
  apply Qred_correct.
Qed.

(** The error of the rounding below [2 ^ K]. *)
Lemma double_error q K :
  (0 <= K <= 51)%Z -> Qabs q < inject_Z (2 ^ K) ->
  Qabs (Js.double q - q) <= 1 # Z.to_pos (2 ^ (53 - K)).
Proof.
  intros HK Hq.
  destruct (Qeq_dec q 0) as [Z0 | Hne].
  { rewrite (double_zero q Z0), Z0. discriminate. }
  destruct (double_below q K HK Hq Hne) as (k & Hk & E).
  set (V := _ # _) in E. rewrite E. clear E.
  assert (Hr : Qabs (V - q) == Qabs (V - Qred q)) by (rewrite (Qred_correct q); reflexivity).
  rewrite Hr. clear Hr. subst V.
  pose proof (roundHalfEven_error (Z.abs (Qnum (Qred q)) * 2 ^ k) (Qden (Qred q))) as R.
  set (m := Js.roundHalfEven _ _) in *.
  assert (Hn0 : Qnum (Qred q) <> 0%Z).
  { intro E0. apply Hne. rewrite <- (Qred_correct q). unfold Qeq. rewrite E0. reflexivity. }
  destruct (Qred q) as [num den]. cbn [Qnum Qden] in *.
  assert (T : (0 < 2 ^ k)%Z) by (apply Z.pow_pos_nonneg; lia).
  assert (U : (0 < 2 ^ (53 - K))%Z) by (apply Z.pow_pos_nonneg; lia).
  assert (UT : (2 ^ (53 - K) <= 2 * 2 ^ k)%Z).
  { change 2%Z with (2 ^ 1)%Z at 2. rewrite <- Z.pow_add_r by lia.
    apply Z.pow_le_mono_r; lia. }
  apply Qabs_Qle_condition.
  unfold Qle, Qminus, Qplus, Qopp. cbn [Qnum Qden].
  rewrite !Pos2Z.inj_mul, !Z2Pos.id by lia.
  set (t := (2 ^ k)%Z) in *. set (u := (2 ^ (53 - K))%Z) in *. set (d := Z.pos den) in *.
  assert (D : (0 < d)%Z) by (subst d; lia).
  clearbody m t u d.
  assert (X : (Z.abs (Z.sgn num * m * d - num * t) * u <= d * t)%Z).
  { assert (A : (Z.abs (Z.sgn num * m * d - num * t) = Z.abs (m * d - Z.abs num * t))%Z).
    { destruct num; cbn [Z.sgn Z.abs]; lia. }
    rewrite A.
    assert (B : (Z.abs (m * d - Z.abs num * t) * u
                 <= Z.abs (m * d - Z.abs num * t) * (2 * t))%Z).
    { apply Z.mul_le_mono_nonneg_l; lia. }
    assert (C : (Z.abs (m * d - Z.abs num * t) * 2 * t <= d * t)%Z).
    { apply Z.mul_le_mono_nonneg_r; lia. }
    lia. }
  replace (Z.sgn num * m * d + - num * t)%Z with (Z.sgn num * m * d - num * t)%Z by ring.
  assert (Y : (Z.abs ((Z.sgn num * m * d - num * t) * u)
               = Z.abs (Z.sgn num * m * d - num * t) * u)%Z).
  { rewrite Z.abs_mul, (Z.abs_eq u) by lia. reflexivity. }
  set (P := ((Z.sgn num * m * d - num * t) * u)%Z) in *.
  set (A := Z.abs (Z.sgn num * m * d - num * t)) in *.
  clearbody P A. split; lia.
Qed.

(** A value below [2 ^ K] with few enough bits after the point is a double. *)
Lemma double_exact q K j a :
  (0 <= K <= 51)%Z -> Qabs q < inject_Z (2 ^ K) -> (0 <= j <= 52 - K)%Z ->
  q == a # Z.to_pos (2 ^ j) ->
  Js.double q == q.
Proof.
  intros HK Hq Hj Ha.
  destruct (Qeq_dec q 0) as [Z0 | Hne].
  { rewrite (double_zero q Z0), Z0. reflexivity. }
  destruct (double_below q K HK Hq Hne) as (k & Hk & E).
  rewrite E. clear E. apply Qeq_trans with (Qred q); [| apply Qred_correct].
  pose proof (gcd_Qred q) as G.
  assert (Hr : Qred q == a # Z.to_pos (2 ^ j)) by (rewrite Qred_correct; exact Ha).
  destruct (Qred q) as [num den]. cbn [Qnum Qden] in *.
  assert (J : (0 < 2 ^ j)%Z) by (apply Z.pow_pos_nonneg; lia).
  assert (T : (0 < 2 ^ k)%Z) by (apply Z.pow_pos_nonneg; lia).
  unfold Qeq in Hr. cbn [Qnum Qden] in Hr. rewrite Z2Pos.id in Hr by lia.
  assert (Dj : (Z.pos den | 2 ^ j)%Z).
  { apply (Z.gauss _ num).
    - exists a. lia.
    - rewrite Z.gcd_comm. exact G. }
  assert (Dk : (Z.pos den | 2 ^ k)%Z).
  { replace k with (j + (k - j))%Z by lia. rewrite Z.pow_add_r by lia.
    apply Z.divide_mul_l. exact Dj. }
  destruct Dk as [c Hc].
  replace (Z.abs num * 2 ^ k)%Z with (Z.abs num * c * Z.pos den)%Z by (rewrite Hc; ring).
  rewrite roundHalfEven_exact.
  unfold Qeq. cbn [Qnum Qden]. rewrite Z2Pos.id by lia. rewrite Hc.
  destruct num; cbn [Z.sgn Z.abs]; lia.
Qed.

(** ** Frame reasoning: what a computation leaves alone *)

Section Keeps.

Context {X : Type} (f : World -> X).

Lemma keeps_ret {A : Type} (a : A) : keeps f (ret a).
Proof. intro w. reflexivity. Qed.

Lemma keeps_throw {A : Type} : keeps f (@throw A).
Proof. intro w. reflexivity. Qed.

Lemma keeps_read {A : Type} (g : World -> A) : keeps f (read g).
Proof. intro w. reflexivity. Qed.

Lemma keeps_modify (g : World -> World) :
  (forall w, f (g w) = f w) -> keeps f (modify g).
Proof. intros H w. apply H. Qed.

Lemma keeps_bind {A B : Type} (c : M A) (k : A -> M B) :
  keeps f c -> (forall a, keeps f (k a)) -> keeps f (bind c k).
Proof.
  intros Hc Hk w. unfold bind. specialize (Hc w).
  destruct (c w) as [[a|] w1]; simpl in *.
  - rewrite Hk. exact Hc.
  - exact Hc.
Qed.

Lemma keeps_try_catch (body handler : M unit) :
  keeps f body -> keeps f handler -> keeps f (try_catch body handler).
Proof.
  intros Hb Hh w. unfold try_catch. specialize (Hb w).
  destruct (body w) as [[a|] w1]; simpl in *.
  - exact Hb.
  - rewrite Hh. exact Hb.
Qed.

End Keeps.

(** Unfolds the setters and canvas primitives down to the monad operations. *)
Ltac unfold_effects :=
  unfold _resetBounds, _clearOverlay, _updateMagnified, _init,
    setStatus, setImage, setSource, setRendered, setMethods, update, setProperties,
    reset, setSelect, setPoints, clearPoints, setSelectBox, resetSelectBox, setIndex,
    setMessage, setAligned,
    Canvas.imageLayer_clear, Canvas.imageLayer_load, Canvas.imageLayer_getImageData,
    Canvas.imageLayer_canvas,
    Canvas.viewLayer_draw, Canvas.viewLayer_clear, Canvas.viewLayer_put,
    Canvas.viewLayer_getImageData, Canvas.viewLayer_bounds, Canvas.viewLayer_dims,
    Canvas.magnifiedLayer_draw, Canvas.magnifiedLayer_clear, Canvas.magnifiedLayer_put,
    Canvas.overlayLayer1_clear, Canvas.overlayLayer1_drawControlPoints,
    Canvas.overlayLayer1_drawBoundingBox, Canvas.overlayLayer1_put,
    Canvas.overlayLayer2_clear, Canvas.overlayLayer2_put,
    on_pointer, on_live, on_layers in *;
  cbv zeta.

(** Discharges [keeps f c] for straight-line code over the monad operations. *)
Ltac keeps_tac :=
  repeat
    match goal with
    | |- keeps _ (ret _) => apply keeps_ret
    | |- keeps _ throw => apply keeps_throw
    | |- keeps _ (read _) => apply keeps_read
    | |- keeps _ (modify _) => apply keeps_modify; intros; reflexivity
    | |- keeps _ (try_catch _ _) => apply keeps_try_catch
    | |- keeps _ (bind _ _) => apply keeps_bind; [| intro]
    | |- keeps _ (if ?b then _ else _) => destruct b
    | |- keeps _ (match ?x with _ => _ end) => destruct x
    end.

(** ** Select mode: placing control points *)

Section SelectMode.

Context {imports : Imports}.

Lemma outside_guards properties pos :
  OutsideImage properties pos ->
  ((Point.x pos >? Rect.w (Properties.render_dims properties) + Point.x (renderOffset properties))
    || (Point.y pos >? Rect.h (Properties.render_dims properties) + Point.y (renderOffset properties))) = true
  \/ ((Point.x pos <? Point.x (renderOffset properties))
       || (Point.y pos <? Point.y (renderOffset properties))) = true.
Proof.
  intros [H | [H | [H | H]]].
  - left. apply orb_true_iff. left. now apply gt_true.
  - left. apply orb_true_iff. right. now apply gt_true.
  - right. apply orb_true_iff. left. now apply lt_true.
  - right. apply orb_true_iff. right. now apply lt_true.
Qed.

Lemma inside_guards properties pos :
  InsideImage properties pos ->
  ((Point.x pos >? Rect.w (Properties.render_dims properties) + Point.x (renderOffset properties))
    || (Point.y pos >? Rect.h (Properties.render_dims properties) + Point.y (renderOffset properties))) = false
  /\ ((Point.x pos <? Point.x (renderOffset properties))
       || (Point.y pos <? Point.y (renderOffset properties))) = false.
Proof.
  intros [[Hx1 Hx2] [Hy1 Hy2]]. split; apply orb_false_iff; split;
    first [now apply gt_false | now apply lt_false].
Qed.

(** When no stored point is near the cursor, the [forEach] only collects the
    rendered points: nothing is selected and no state is written. *)
Lemma hitTest_miss properties pos radius controlPoints :
  NoPointInRange properties pos radius controlPoints ->
  forall index pts selected w,
    hitTest properties pos (renderOffset properties) radius controlPoints index pts selected w
    = (Some (pts ++ map (renderedPoint properties (renderOffset properties)) controlPoints,
             selected), w).
Proof.
  induction 1 as [| ctrlPt rest Hmiss Hrest IH]; intros index pts selected w.
  - simpl. rewrite app_nil_r. reflexivity.
  - simpl in Hmiss. simpl hitTest.
    unfold renderedPoint in Hmiss. simpl in Hmiss. rewrite Hmiss.
    rewrite IH. simpl map. rewrite <- app_assoc. reflexivity.
Qed.

Lemma hitTest_keeps {X : Type} (f : World -> X) :
  (forall i w, f (snd (setIndex i w)) = f w) ->
  forall properties pos offset radius controlPoints index pts selected,
    keeps f (hitTest properties pos offset radius controlPoints index pts selected).
Proof.
  intros Hf properties pos offset radius controlPoints.
  induction controlPoints as [| c rest IH]; intros index pts selected; simpl.
  - apply keeps_ret.
  - destruct (inRange _ _ _ _ _).
    + apply keeps_bind; [exact (Hf index) | intro; apply IH].
    + apply IH.
Qed.

(** A pointer-down outside the rendered image stops after the bounds refresh. *)
Lemma selectControlPoint_run_outside iat e properties pointer w :
  OutsideImage properties (getPos e (Properties.base_dims properties) (viewBounds (layers w))) ->
  exec (_selectControlPoint iat e properties pointer) w = exec _resetBounds w.
Proof.
  intro Hout.
  unfold _selectControlPoint, exec, bind at 1. unfold_effects. unfold read, modify, bind, ret.
  cbv beta iota.
  destruct (outside_guards _ _ Hout) as [G | G]; rewrite G.
  - reflexivity.
  - match goal with |- context [if ?c then _ else _] => destruct c end; reflexivity.
Qed.

(** A pointer-down inside the rendered image and near no stored point goes
    on to the capacity test. *)
Lemma selectControlPoint_run_inside iat e properties pointer w :
  let pos := getPos e (Properties.base_dims properties) (viewBounds (layers w)) in
  let controlPoints := Pointer.points pointer in
  InsideImage properties pos ->
  NoPointInRange properties pos (ptrRadius (options iat)) controlPoints ->
  exec (_selectControlPoint iat e properties pointer) w
  = exec
      (if (Z.of_nat (List.length controlPoints) >=? controlPtMax (options iat))%Z
       then setMessage (Some (getError "maxControlPoints" "canvas"))
       else setPoints (controlPoints ++ [actualPoint properties pos (renderOffset properties)]) ;;
            Canvas.overlayLayer1_drawControlPoints
              (map (renderedPoint properties (renderOffset properties)) controlPoints ++ [pos]))
      (exec _resetBounds w).
Proof.
  intros pos controlPoints Hin Hmiss.
  destruct (inside_guards _ _ Hin) as [G1 G2].
  unfold _selectControlPoint, exec, bind at 1. unfold_effects. unfold read, modify, bind, ret.
  cbv beta iota. fold pos. rewrite G1, G2. fold controlPoints.
  rewrite (hitTest_miss _ _ _ _ Hmiss).
  cbv beta iota. unfold snd at 2, fst.
  destruct (_ >=? _)%Z; reflexivity.
Qed.

(** C10.  In select mode, a pointer-down whose canvas position falls outside
    the rendered image region (beyond the render offset plus the rendered
    width or height, or before the render offset) is ignored: the handler
    stops right after refreshing the canvas bounds, so no control point is
    added, no point is selected, no error is emitted, and the pointer state
    and the canvas layers are unchanged. *)
Theorem selectControlPoint_outside_ignored iat e properties pointer w :
  let pos := getPos e (Properties.base_dims properties) (viewBounds (layers w)) in
  OutsideImage properties pos ->
  let w' := exec (_selectControlPoint iat e properties pointer) w in
  w' = exec _resetBounds w /\
  Pointer.points (Panel.pointer (live w')) = Pointer.points (Panel.pointer (live w)) /\
  Pointer.index (Panel.pointer (live w')) = Pointer.index (Panel.pointer (live w)) /\
  message w' = message w /\
  Panel.pointer (live w') = Panel.pointer (live w) /\
  layers w' = layers w.
Proof.
  intros pos Hout w'. subst w'.
  rewrite (selectControlPoint_run_outside iat e properties pointer w Hout).
  repeat split; reflexivity.
Qed.


End SelectMode.

(** ** Pan mode *)

Section PanMode.

Context {imports : Imports}.

(** C6.  In pan mode, a mouse-move with a selected anchor translates
    [render_dims.x] and [render_dims.y] by exactly the cursor displacement
    since the anchor (pointer minus anchor) and leaves [render_dims.w] and
    [render_dims.h] as they were; [image_dims] and the control-point list are
    unchanged.  The handlers bound for mouse-down, mouse-up and mouse-out in
    pan mode change nothing. *)
Theorem panImage_translates e properties pointer w selected :
  Pointer.selected pointer = Some selected ->
  let w' := exec (_panImage e properties pointer) w in
  let before := Properties.render_dims properties in
  let after := Properties.render_dims (Panel.properties (live w')) in
  (Rect.x after == Rect.x before + (Pointer.x pointer - Point.x selected) /\
   Rect.y after == Rect.y before + (Pointer.y pointer - Point.y selected) /\
   Rect.w after = Rect.w before /\
   Rect.h after = Rect.h before) /\
  Properties.image_dims (Panel.properties (live w'))
    = Properties.image_dims (Panel.properties (live w)) /\
  Pointer.points (Panel.pointer (live w')) = Pointer.points (Panel.pointer (live w)) /\
  (forall id iat k e' properties' pointer' w0,
     k <> MouseMove ->
     exec (run id iat (handlerOf k panMethods) e' properties' pointer') w0 = w0).
Proof.
  intros Hsel w' before after. subst w' before after.
  unfold _panImage, exec. rewrite Hsel. simpl.
  split; [split; [|split; [|split]] | split; [|split]]; try reflexivity.
  - unfold Qminus. rewrite Qplus_assoc. reflexivity.
  - unfold Qminus. rewrite Qplus_assoc. reflexivity.
  - intros id iat [] e' properties' pointer' w0 Hk; try congruence; reflexivity.
Qed.

End PanMode.

(** ** Crop and align commands *)

Section Commands.

Context {imports : Imports}.

(** C5 (what the code does).  [_applyCropBox] on an empty select box (zero
    width and zero height) emits no error and leaves the image and the
    properties alone, but it has already set the status to [loading] and
    returns without restoring it. *)
Theorem applyCropBox_empty_box id iat w :
  let selectBox := Pointer.selectBox (Panel.pointer (iat_get iat id)) in
  Rect.w selectBox == 0 -> Rect.h selectBox == 0 ->
  let w' := exec (_applyCropBox id iat) w in
  w' = exec (setStatus Status.loading) w /\
  Panel.status (live w') = Status.loading /\
  message w' = message w /\
  Panel.image (live w') = Panel.image (live w) /\
  Panel.properties (live w') = Panel.properties (live w).
Proof.
  intros selectBox Hw Hh w'. subst w'.
  apply eqq_true in Hw, Hh.
  unfold _applyCropBox, exec, try_catch, bind. unfold setStatus at 1, on_live, modify.
  fold selectBox. rewrite Hw, Hh. simpl.
  split; [|split; [|split; [|split]]]; reflexivity.
Qed.

(** A box of zero width but non-zero height passes the emptiness test
    ([w === 0 && h === 0]) and is handed to the cropper. *)
Lemma applyCropBox_zero_width_crops id iat w cropped :
  let selectBox := Pointer.selectBox (Panel.pointer (iat_get iat id)) in
  Rect.w selectBox == 0 -> ~ Rect.h selectBox == 0 ->
  cropImage (imageLayer (layers w)) (Panel.image (iat_get iat id)) selectBox = Some cropped ->
  let w' := exec (_applyCropBox id iat) w in
  Panel.image (live w') = cropped /\ Panel.status (live w') = Status.loaded.
Proof.
  intros selectBox Hw Hh Hcrop w'. subst w' selectBox.
  apply eqq_true in Hw.
  assert (Hh' : (Rect.h (Pointer.selectBox (Panel.pointer (iat_get iat id))) === 0) = false).
  { destruct (Rect.h _ === 0) eqn:E; [|reflexivity].
    apply eqq_true in E. contradiction. }
  clear Hh. unfold exec, _applyCropBox.
  vm_compute in Hw, Hh', Hcrop.
  split; vm_compute; rewrite Hw, Hh', Hcrop; reflexivity.
Qed.

(** C4 (what the code does).  When the solver reports a failure, [_alignImage]
    surfaces the error as the user message and keeps the panel's image, but
    the status it set to [loading] on entry is not restored. *)
Theorem alignImage_reported_failure id iat w error canvas' :
  alignImages (panelSrc id iat) (panelDst id iat) (imageLayer (layers w))
    (Panel.image (iat_get iat id)) (options iat) = Some (AlignError error, canvas') ->
  let w' := exec (_alignImage id iat) w in
  message w' = Some error /\
  Panel.status (live w') = Status.loading /\
  Panel.image (live w') = Panel.image (live w).
Proof.
  intros H w'. subst w'.
  unfold exec, _alignImage. vm_compute in H. vm_compute. rewrite H.
  split; [|split]; reflexivity.
Qed.

(** The sibling paths of [_alignImage]: success ends in [loaded], an
    exception in [error]. *)
Lemma alignImage_other_paths id iat w :
  (forall data canvas',
     alignImages (panelSrc id iat) (panelDst id iat) (imageLayer (layers w))
       (Panel.image (iat_get iat id)) (options iat) = Some (AlignData data, canvas') ->
     Panel.status (live (exec (_alignImage id iat) w)) = Status.loaded) /\
  (alignImages (panelSrc id iat) (panelDst id iat) (imageLayer (layers w))
       (Panel.image (iat_get iat id)) (options iat) = None ->
     Panel.status (live (exec (_alignImage id iat) w)) = Status.error).
Proof.
  split; [intros data canvas' H | intro H];
    unfold exec, _alignImage; vm_compute in H; vm_compute; rewrite H; reflexivity.
Qed.

(** ** The clamp of the crop box *)

(** One axis of the clamp in [_endCropBox], for a box with an integer origin
    that starts inside the image, or starts before it and ends inside it:
    the committed origin and extent are those of the intersection, and the
    extent is not negative. *)
Lemma clamp_axis (x w W : Q) (zx : Z) :
  0 < w -> 0 <= W -> x == inject_Z zx ->
  (0 <= x <= W) \/ (x < 0 /\ 0 <= x + w <= W) ->
  Js.Math_round (Js.Math_max (Js.Math_min x W) 0) == Qmax x 0 /\
  (if x + w >? W then W - Js.Math_abs x
   else if x <? 0 then w - Js.Math_abs x else w)
  == Qmin (x + w) W - Qmax x 0 /\
  0 <= (if x + w >? W then W - Js.Math_abs x
        else if x <? 0 then w - Js.Math_abs x else w).
Proof.
  intros Hw HW Hx Hcase. unfold Js.Math_max, Js.Math_min, Js.Math_abs.
  destruct Hcase as [[H0 H1] | [H0 [H2 H1]]].
  - (* the box starts inside the image *)
    assert (A : Qabs x == x) by (apply Qabs_pos; exact H0).
    assert (X : Qmax x 0 == x) by (apply Q.max_l; exact H0).
    assert (N : Qmax (Qmin x W) 0 == inject_Z zx).
    { rewrite (Q.min_l x W H1), X. exact Hx. }
    split; [| split].
    + rewrite (Math_round_comp _ _ N), Math_round_integer, X. symmetry. exact Hx.
    + destruct (x + w >? W) eqn:G.
      * apply gt_true in G.
        assert (M : Qmin (x + w) W == W) by (apply Q.min_r; lra).
        rewrite A, M, X. reflexivity.
      * apply gt_false in G.
        assert (M : Qmin (x + w) W == x + w) by (apply Q.min_l; exact G).
        assert (L : (x <? 0) = false) by (apply lt_false; exact H0).
        rewrite L, M, X. lra.
    + destruct (x + w >? W) eqn:G.
      * rewrite A. lra.
      * assert (L : (x <? 0) = false) by (apply lt_false; exact H0).
        rewrite L. lra.
  - (* the box starts before the image and ends inside it *)
    assert (Hle : x <= 0) by lra.
    assert (A : Qabs x == - x) by (apply Qabs_neg; exact Hle).
    assert (X : Qmax x 0 == 0) by (apply Q.max_r; exact Hle).
    assert (N : Qmax (Qmin x W) 0 == inject_Z 0).
    { rewrite (Q.min_l x W) by lra. rewrite X. reflexivity. }
    assert (M : Qmin (x + w) W == x + w) by (apply Q.min_l; exact H1).
    assert (G : (x + w >? W) = false) by (apply gt_false; exact H1).
    assert (L : (x <? 0) = true) by (apply lt_true; exact H0).
    split; [| split].
    + rewrite (Math_round_comp _ _ N), Math_round_integer, X. reflexivity.
    + rewrite G, L, A, M, X. lra.
    + rewrite G, L, A. lra.
Qed.

(** On a loaded panel, a mouse-up with a select box of positive size and
    integer origin that touches the image and overflows it on at most one
    side of each axis (it starts inside the image, or starts before it and
    ends inside it) commits the intersection of the box with the image
    bounds, a box whose width and height are not negative. *)
Theorem endCropBox_one_sided_overflow id iat e properties pointer w zx zy :
  let box := Pointer.selectBox pointer in
  let dims := Properties.image_dims properties in
  Panel.image (iat_get iat id) <> None ->
  Panel.status (iat_get iat id) = Status.loaded ->
  0 < Rect.w box -> 0 < Rect.h box -> 0 <= Dims.w dims -> 0 <= Dims.h dims ->
  Rect.x box == inject_Z zx -> Rect.y box == inject_Z zy ->
  (0 <= Rect.x box <= Dims.w dims) \/
    (Rect.x box < 0 /\ 0 <= Rect.x box + Rect.w box <= Dims.w dims) ->
  (0 <= Rect.y box <= Dims.h dims) \/
    (Rect.y box < 0 /\ 0 <= Rect.y box + Rect.h box <= Dims.h dims) ->
  let committed :=
    Pointer.selectBox (Panel.pointer (live (exec (_endCropBox id iat e properties pointer) w))) in
  Rect.eqv committed (Spec.intersection box dims) /\
  0 <= Rect.w committed /\ 0 <= Rect.h committed.
Proof.
  intros box dims Himg Hst Hw Hh HW HH Hx Hy Hcx Hcy committed. subst committed.
  unfold _endCropBox, exec. fold box dims.
  destruct (Panel.image (iat_get iat id)) as [img|]; [| congruence].
  rewrite Hst. cbn [isSome negb Status.eqb orb].
  assert (Ew : (Rect.w box === 0) = false).
  { destruct (Rect.w box === 0) eqn:E; [| reflexivity]. apply eqq_true in E. lra. }
  assert (Eh : (Rect.h box === 0) = false).
  { destruct (Rect.h box === 0) eqn:E; [| reflexivity]. apply eqq_true in E. lra. }
  rewrite Ew, Eh. cbn [orb].
  destruct (clamp_axis _ _ _ zx Hw HW Hx Hcx) as (X1 & X2 & X3).
  destruct (clamp_axis _ _ _ zy Hh HH Hy Hcy) as (Y1 & Y2 & Y3).
  unfold Spec.intersection, Rect.eqv. cbn.
  split; [| split]; [repeat split; assumption | exact X3 | exact Y3].
Qed.

(** A mouse-up with an empty select box, or on a panel that is not loaded,
    commits nothing: both overlays and the stored control points are
    cleared, the select box is reset and the crop bundle is bound again. *)
Theorem endCropBox_empty_box_clears id iat e properties pointer w :
  let box := Pointer.selectBox pointer in
  Panel.image (iat_get iat id) = None \/
  Panel.status (iat_get iat id) <> Status.loaded \/
  Rect.w box == 0 \/ Rect.h box == 0 ->
  let w' := exec (_endCropBox id iat e properties pointer) w in
  Pointer.points (Panel.pointer (live w')) = [] /\
  Pointer.selectBox (Panel.pointer (live w')) = Rect.zero /\
  overlayLayer1 (layers w') = [] /\ overlayLayer2 (layers w') = [] /\
  Panel.methods (live w') = cropMethods.
Proof.
  intros box Hcase w'. subst w'.
  assert (G : negb (isSome (Panel.image (iat_get iat id)))
              || negb (Status.eqb (Panel.status (iat_get iat id)) Status.loaded)
              || (Rect.w box === 0) || (Rect.h box === 0) = true).
  { destruct Hcase as [H | [H | [H | H]]].
    - rewrite H. reflexivity.
    - destruct (Panel.status (iat_get iat id)); try congruence;
        destruct (Panel.image (iat_get iat id)); reflexivity.
    - apply eqq_true in H. rewrite H. rewrite orb_true_r. reflexivity.
    - apply eqq_true in H. rewrite H. rewrite orb_true_r. reflexivity. }
  unfold _endCropBox, exec. fold box. rewrite G.
  split; [| split; [| split; [| split]]]; reflexivity.
Qed.

(** ** Mode changes *)

(** C7 (amended).  Every mode change replaces the handler bundle, with the
    bundle of the mode entered, whatever the panel holds.  Entering pan or
    select does only that, and the canvas layers, overlays included, are as
    before.  Entering crop on a panel with a loaded image first runs the
    reset-to-source (the image becomes the source raster, the select box is
    reset to empty) and then installs the crop handlers; on a panel without
    an image it only installs them. *)
Theorem modeEffect_replaces_bundle id iat w :
  let w' := exec (modeEffect id iat) w in
  (mode iat = Mode.pan -> w' = exec (setMethods panMethods) w /\ layers w' = layers w) /\
  (mode iat = Mode.select -> w' = exec (setMethods selectMethods) w /\ layers w' = layers w) /\
  (mode iat = Mode.crop -> Panel.image (iat_get iat id) <> None ->
     w' = exec (setMethods cropMethods) (exec (_resetImage id iat) w) /\
     Panel.image (live w') = Panel.source (iat_get iat id) /\
     Pointer.selectBox (Panel.pointer (live w')) = Rect.zero /\
     Panel.methods (live w') = cropMethods) /\
  (mode iat = Mode.crop -> Panel.image (iat_get iat id) = None ->
     w' = exec (setMethods cropMethods) w /\ layers w' = layers w) /\
  Panel.methods (live w')
    = match mode iat with
      | Mode.pan => panMethods
      | Mode.select => selectMethods
      | Mode.crop => cropMethods
      end.
Proof.
  intro w'. subst w'. unfold modeEffect.
  split; [| split; [| split; [| split]]].
  - intro H. rewrite H. split; reflexivity.
  - intro H. rewrite H. split; reflexivity.
  - intros H Himg. rewrite H.
    destruct (Panel.image (iat_get iat id)) as [img|]; [| congruence].
    unfold exec, _resetImage.
    destruct (Panel.source (iat_get iat id)) as [src|]; cbn [isSome negb];
      (split; [|split; [|split]]; vm_compute; reflexivity).
  - intros H Himg. rewrite H, Himg. split; reflexivity.
  - destruct (mode iat); try reflexivity.
    destruct (Panel.image (iat_get iat id)) as [img|]; cbn [isSome]; [| reflexivity].
    unfold exec, _resetImage.
    destruct (Panel.source (iat_get iat id)) as [src|]; vm_compute; reflexivity.
Qed.

(** ** Load and remove *)


End Commands.

(** ** Handler bundles *)

Section Bundles.

Context {imports : Imports}.

(** Every handler other than the two crop handlers that rebind the bundle
    leaves the bound bundle alone. *)
Lemma run_keeps_methods id iat h e properties pointer :
  h <> StartCropBox -> h <> EndCropBox ->
  keeps methodsOf (run id iat h e properties pointer).
Proof.
  intros H1 H2. destruct h; try congruence; unfold run.
  - unfold _startPanImage. keeps_tac.
  - unfold _endPanImage. keeps_tac.
  - unfold _panImage. unfold_effects. keeps_tac.
  - unfold _selectControlPoint. unfold_effects.
    apply keeps_bind; [keeps_tac | intro].
    destruct (_ || _); [keeps_tac |].
    destruct (_ || _); [keeps_tac |].
    apply keeps_bind; [apply hitTest_keeps; reflexivity | intro].
    keeps_tac.
  - unfold _deselectControlPoint. unfold_effects. keeps_tac.
  - unfold _moveControlPoint. unfold_effects. keeps_tac.
  - unfold _selectCropBox. unfold_effects. keeps_tac.
  - unfold _moveCropBox. unfold_effects. keeps_tac.
Qed.

Lemma run_known_bundle id iat h e properties pointer w :
  KnownBundle (methodsOf w) ->
  KnownBundle (methodsOf (exec (run id iat h e properties pointer) w)).
Proof.
  intro K.
  assert (Hk : h <> StartCropBox -> h <> EndCropBox ->
               methodsOf (exec (run id iat h e properties pointer) w) = methodsOf w).
  { intros H1 H2. exact (run_keeps_methods id iat h e properties pointer H1 H2 w). }
  destruct h; try (rewrite Hk by discriminate; exact K); clear Hk; unfold run, exec.
  - unfold _startCropBox. cbv zeta.
    match goal with |- context [if ?c then _ else _] => destruct c end.
    + right; right; right. reflexivity.
    + exact K.
  - unfold _endCropBox. cbv zeta.
    match goal with |- context [if ?c then _ else _] => destruct c end;
      right; right; left; reflexivity.
Qed.

Lemma modeEffect_known_bundle id iat w :
  KnownBundle (methodsOf (exec (modeEffect id iat) w)).
Proof.
  unfold modeEffect, exec. destruct (mode iat).
  - left. reflexivity.
  - right; left. reflexivity.
  - right; right; left.
    destruct (Panel.image (iat_get iat id)); cbn [isSome]; [| reflexivity].
    unfold _resetImage. destruct (Panel.source (iat_get iat id)); vm_compute; reflexivity.
Qed.

(** No command rebinds the handlers. *)
Lemma runCommand_keeps_methods id iat c : keeps methodsOf (runCommand id iat c).
Proof.
  destruct c; unfold runCommand.
  - unfold _loadImage. unfold_effects. keeps_tac.
  - unfold _loadImage_callback, _renderImage. unfold_effects. keeps_tac.
  - unfold _syncImages. unfold_effects. keeps_tac.
  - unfold _renderImage. unfold_effects. keeps_tac.
  - unfold_effects. keeps_tac.
  - unfold _fitView, _renderImage. unfold_effects. keeps_tac.
  - unfold _fullView, _renderImage. unfold_effects. keeps_tac.
  - unfold _zoomIn, _zoomView, _renderImage. unfold_effects. keeps_tac.
  - unfold _zoomOut, _zoomView, _renderImage. unfold_effects. keeps_tac.
  - unfold _resetImage, _renderImage. unfold_effects. keeps_tac.
  - unfold _removeImage. unfold_effects. keeps_tac.
  - unfold _applyCropBox, call_cropImage, _renderImage. unfold_effects. keeps_tac.
  - unfold _alignImage, call_alignImages, _renderImage. unfold_effects. keeps_tac.
Qed.

(** Nor does any effect other than the one on the mode. *)
Lemma runEffect_keeps_methods id iat f : keeps methodsOf (runEffect id iat f).
Proof.
  destruct f; unfold runEffect.
  - unfold statusEffect, _loadImage, _updateImage, _renderImage. unfold_effects. keeps_tac.
  - unfold statusCleanup. unfold_effects. keeps_tac.
  - unfold overlayEffect, Canvas.overlayLayer2_drawControlPoints. unfold_effects. keeps_tac.
  - unfold resizeEffect. unfold_effects. keeps_tac.
Qed.

Lemma known_bundle_single_mode b : KnownBundle b -> exists m, bundleOf m b.
Proof.
  intros [-> | [-> | [-> | ->]]];
    [exists Mode.pan | exists Mode.select | exists Mode.crop | exists Mode.crop];
    intros []; reflexivity.
Qed.

Lemma reachable_known_bundle id w : reachable id w -> KnownBundle (methodsOf w).
Proof.
  induction 1 as [iat w | w w' Hr IH Hs].
  - apply modeEffect_known_bundle.
  - destruct Hs as [iat w | iat k e properties pointer w | iat c w | iat f w].
    + apply modeEffect_known_bundle.
    + exact (run_known_bundle id iat _ e properties pointer w IH).
    + unfold exec. rewrite (runCommand_keeps_methods id iat c w). exact IH.
    + unfold exec. rewrite (runEffect_keeps_methods id iat f w). exact IH.
Qed.

(** C9.  Handler bundles are swapped as a unit: in every world the component
    can reach, by mode changes, by pointer events handled through the bound
    bundle (crop sub-mode switches included), by commands and by its other
    effects, the bound bundle is one
    of the complete four-handler bundles the component assigns, and its
    four mouse handlers (down, up, move, out) all belong to one and the same
    mode; so every pointer event is dispatched by a single mode's bundle. *)
Theorem handler_bundles_single_mode id w :
  reachable id w ->
  KnownBundle (Panel.methods (live w)) /\
  exists m : Mode.t,
    forall k : EventKind, handlerMode (handlerOf k (Panel.methods (live w))) = m.
Proof.
  intro Hr. pose proof (reachable_known_bundle id w Hr) as K.
  split; [exact K | exact (known_bundle_single_mode _ K)].
Qed.

End Bundles.

(** ** The example scenario, with the scaler of the specification *)

Section SpecScaler.

Variable cropImage : option ImageData -> option ImageData -> Rect.t -> option (option ImageData).
Variable alignImages : Panel.t -> Panel.t -> option ImageData -> option ImageData ->
                       Options -> option (AlignResult * option ImageData).

Local Abbreviation spec := (Spec.imports cropImage alignImages).

Lemma renderOffset_zero properties :
  Rect.eqv (Properties.render_dims properties) (Rect.mk 0 0 800 600) ->
  renderOffset properties = Point.mk 0 0.
Proof.
  intros (Hx & Hy & _). simpl in Hx, Hy. unfold renderOffset.
  rewrite (Math_round_comp _ _ Hx), (Math_round_comp _ _ Hy). reflexivity.
Qed.

Lemma actualPoint_example properties pos :
  Properties.image_dims properties = Dims.mk 4000 3000 ->
  Rect.eqv (Properties.render_dims properties) (Rect.mk 0 0 800 600) ->
  Point.eqv pos (Point.mk 400 300) ->
  actualPoint (imports := spec) properties pos (Point.mk 0 0) = Point.mk 2000 1500.
Proof.
  intros Hi (_ & _ & Hw & Hh) (Hx & Hy). simpl in Hw, Hh, Hx, Hy.
  unfold actualPoint. cbn [getScale spec Spec.imports Spec.getScale Point.x Point.y].
  rewrite Hi. cbn [Dims.w Dims.h Rect.dims].
  rewrite (div_comp 4000 (Rect.w (Properties.render_dims properties)) 4000 800 (Qeq_refl _) Hw).
  rewrite (div_comp 3000 (Rect.h (Properties.render_dims properties)) 3000 600 (Qeq_refl _) Hh).
  rewrite (mul_comp (Js.div 4000 800) (Point.x pos - 0) (Js.div 4000 800) (400 - 0)
             (Qeq_refl _) ltac:(rewrite Hx; reflexivity)).
  rewrite (mul_comp (Js.div 3000 600) (Point.y pos - 0) (Js.div 3000 600) (300 - 0)
             (Qeq_refl _) ltac:(rewrite Hy; reflexivity)).
  vm_compute. reflexivity.
Qed.

Lemma inside_example properties pos :
  Rect.eqv (Properties.render_dims properties) (Rect.mk 0 0 800 600) ->
  Point.eqv pos (Point.mk 400 300) ->
  InsideImage properties pos.
Proof.
  intros Hr (Hx & Hy). unfold InsideImage. rewrite (renderOffset_zero _ Hr).
  destruct Hr as (_ & _ & Hw & Hh). simpl in *.
  rewrite Hw, Hh, Hx, Hy. repeat split; discriminate.
Qed.

(** C3 (amended).  Loading an image whose dimensions are 4000x3000 into a
    panel whose base canvas is 800x600 yields [render_dims] [{0,0,800,600}];
    and with [image_dims] 4000x3000 and these [render_dims] (zero offset), a
    select-mode pointer-down at canvas position (400,300), with no existing
    control point within [ptrRadius] and fewer than [controlPtMax] points
    stored, appends the image-space point (2000,1500). *)
Theorem load_then_place_control_point :
  (forall iat w data props,
     Properties.source_dims props = Dims.mk 4000 3000 ->
     Properties.base_dims props = Dims.mk 800 600 ->
     Rect.eqv
       (Properties.render_dims (Panel.properties (live
          (exec (_loadImage_callback (imports := spec) iat
                   (mkLoadResponse (Some data) (Some props) None)) w))))
       (Rect.mk 0 0 800 600)) /\
  (forall iat e properties pointer w,
     let pos := getPos (Imports := spec) e (Properties.base_dims properties)
                  (viewBounds (layers w)) in
     Properties.image_dims properties = Dims.mk 4000 3000 ->
     Rect.eqv (Properties.render_dims properties) (Rect.mk 0 0 800 600) ->
     Point.eqv pos (Point.mk 400 300) ->
     NoPointInRange (imports := spec) properties pos (ptrRadius (options iat))
       (Pointer.points pointer) ->
     (Z.of_nat (List.length (Pointer.points pointer)) < controlPtMax (options iat))%Z ->
     Pointer.points (Panel.pointer (live
       (exec (_selectControlPoint (imports := spec) iat e properties pointer) w)))
       = Pointer.points pointer ++ [Point.mk 2000 1500]).
Proof.
  split.
  - intros iat w data props Hs Hb.
    unfold _loadImage_callback, exec. cbn [res_props res_error res_data].
    rewrite Hs, Hb. vm_compute. repeat split; reflexivity.
  - intros iat e properties pointer w pos Hi Hr Hp Hmiss Hcap.
    rewrite (selectControlPoint_run_inside (imports := spec) iat e properties pointer w
               (inside_example _ _ Hr Hp) Hmiss).
    fold pos.
    destruct (Z.geb_spec (Z.of_nat (List.length (Pointer.points pointer)))
                         (controlPtMax (options iat))); [lia |].
    rewrite (renderOffset_zero _ Hr), (actualPoint_example _ _ Hi Hr Hp).
    reflexivity.
Qed.

End SpecScaler.

(** ** Concrete runs *)

Section Runs.

Import Sample.

Local Abbreviation I := Sample.imports.

(** C10, at a click right of an image zoomed out to 640x480. *)
Lemma selectControlPoint_outside_ignored_witness :
  let p := selectPanel (Rect.mk 0 0 640 480) fourPoints in
  let w := world p [] in
  let w' := exec (_selectControlPoint (imports := I) (iat p Mode.select) (mkEvent 700 100)
                    (Panel.properties p) (Panel.pointer p)) w in
  OutsideImage (Panel.properties p) (Point.mk 700 100) /\
  Pointer.points (Panel.pointer (live w')) = fourPoints /\
  Pointer.index (Panel.pointer (live w')) = (-1)%Z /\
  message w' = None.
Proof.
  intros p w w'.
  assert (Hout : OutsideImage (Panel.properties p)
                   (getPos (Imports := I) (mkEvent 700 100)
                      (Properties.base_dims (Panel.properties p)) (viewBounds (layers w)))).
  { left. vm_compute. reflexivity. }
  destruct (selectControlPoint_outside_ignored (imports := I) (iat p Mode.select)
              (mkEvent 700 100) (Panel.properties p) (Panel.pointer p) w Hout)
    as (_ & Hpts & Hidx & Hmsg & _).
  split; [left; vm_compute; reflexivity |].
  split; [exact Hpts | split; [exact Hidx | exact Hmsg]].
Defined.



(** C3 as stated fails at capacity: with four points stored and
    [controlPtMax] four, the pointer-down at (400,300) on the 4000x3000 image
    rendered at [{0,0,800,600}], near no stored point, appends nothing. *)
Lemma place_control_point_at_capacity :
  let p := selectPanel (Rect.mk 0 0 800 600) fourPoints in
  let w := world p [] in
  let pos := getPos (Imports := I) (mkEvent 400 300)
               (Properties.base_dims (Panel.properties p)) (viewBounds (layers w)) in
  let w' := exec (_selectControlPoint (imports := I) (iat p Mode.select) (mkEvent 400 300)
                    (Panel.properties p) (Panel.pointer p)) w in
  pos = Point.mk 400 300 /\
  NoPointInRange (imports := I) (Panel.properties p) pos (ptrRadius Sample.options) fourPoints /\
  Pointer.points (Panel.pointer (live w')) = fourPoints /\
  Pointer.points (Panel.pointer (live w')) <> fourPoints ++ [Point.mk 2000 1500].
Proof.
  intros p w pos w'.
  split; [| split; [| split]].
  - reflexivity.
  - repeat (constructor; [vm_compute; reflexivity |]). constructor.
  - vm_compute. reflexivity.
  - vm_compute. discriminate.
Qed.

(** C3 (amended), from an empty panel: the load, then the pointer-down. *)
Lemma load_then_place_control_point_witness :
  let p := emptyPanel panel1 in
  let loaded := exec (_loadImage_callback (imports := I) (iat p Mode.select) loadResponse)
                  (world p []) in
  let w' := exec (_selectControlPoint (imports := I) (iat p Mode.select) (mkEvent 400 300)
                    (Panel.properties (live loaded)) (Panel.pointer (live loaded))) loaded in
  Rect.eqv (Properties.render_dims (Panel.properties (live loaded))) (Rect.mk 0 0 800 600) /\
  Pointer.points (Panel.pointer (live w')) = [Point.mk 2000 1500].
Proof.
  intros p loaded w'.
  destruct (load_then_place_control_point cropToBox alignFails) as [Hload Hclick].
  assert (Hr : Rect.eqv (Properties.render_dims (Panel.properties (live loaded)))
                 (Rect.mk 0 0 800 600)).
  { exact (Hload (iat p Mode.select) (world p []) (raster (Dims.mk 4000 3000) 5)
             (properties panel1 (Dims.mk 4000 3000) Rect.zero) eq_refl eq_refl). }
  split; [exact Hr |].
  refine (Hclick (iat p Mode.select) (mkEvent 400 300) (Panel.properties (live loaded))
            (Panel.pointer (live loaded)) loaded eq_refl Hr _ _ _).
  - split; reflexivity.
  - constructor.
  - vm_compute. reflexivity.
Defined.

(** C6, at a drag from (100,100) to (150,160) on a view offset by (10,20). *)
Lemma panImage_translates_witness :
  let p := selectPanel (Rect.mk 10 20 800 600) fourPoints in
  let pointer := Pointer.mk 150 160 (Some (Point.mk 100 100)) fourPoints Rect.zero (-1)%Z false in
  let w' := exec (_panImage (imports := I) (mkEvent 150 160) (Panel.properties p) pointer)
              (world p []) in
  Properties.render_dims (Panel.properties (live w')) = Rect.mk 60 80 800 600 /\
  Rect.x (Properties.render_dims (Panel.properties (live w'))) == 10 + (150 - 100) /\
  Properties.image_dims (Panel.properties (live w')) = Dims.mk 4000 3000 /\
  Pointer.points (Panel.pointer (live w')) = fourPoints.
Proof.
  intros p pointer w'.
  destruct (panImage_translates (imports := I) (mkEvent 150 160) (Panel.properties p) pointer
              (world p []) (Point.mk 100 100) eq_refl)
    as ((Hx & _) & Hdims & Hpts & _).
  split; [vm_compute; reflexivity |].
  split; [exact Hx |].
  split; [exact Hdims | exact Hpts].
Defined.

(** C5, on a loaded panel whose select box is empty. *)
Lemma applyCropBox_empty_box_witness :
  let p := cropPanel Rect.zero in
  let w' := exec (_applyCropBox (imports := I) panel1 (iat p Mode.crop)) (world p []) in
  Panel.status (live (world p [])) = Status.loaded /\
  Panel.status (live w') = Status.loading /\
  message w' = None /\
  Panel.image (live w') = Panel.image p.
Proof.
  intros p w'.
  destruct (applyCropBox_empty_box (imports := I) panel1 (iat p Mode.crop) (world p [])
              ltac:(reflexivity) ltac:(reflexivity))
    as (_ & Hst & Hmsg & Himg & _).
  split; [reflexivity |].
  split; [exact Hst | split; [exact Hmsg | exact Himg]].
Defined.

(** C4, with a solver that reports missing control points. *)
Lemma alignImage_reported_failure_witness :
  let p := selectPanel (Rect.mk 0 0 800 600) [] in
  let w' := exec (_alignImage (imports := I) panel1 (iat p Mode.select)) (world p []) in
  Panel.status (live (world p [])) = Status.loaded /\
  message w' = Some (getError "missingControlPoints" "canvas") /\
  Panel.status (live w') = Status.loading /\
  Panel.image (live w') = Panel.image p.
Proof.
  intros p w'.
  split; [reflexivity |].
  exact (alignImage_reported_failure (imports := I) panel1 (iat p Mode.select) (world p [])
           (getError "missingControlPoints" "canvas") (Some (raster (Dims.mk 4000 3000) 1)) eq_refl).
Defined.

(** C2 (what the code does).  The select box [{x:-50, y:10, w:300, h:100}]
    on a loaded 150x300 image overflows the image on both sides; mouse-up
    commits [{0,10,100,100}], while the intersection of the box with the
    image bounds is [{0,10,150,100}]. *)
Theorem endCropBox_overflow_both_sides :
  let box := Rect.mk (-50) 10 300 100 in
  let p := cropPanel box in
  let w' := exec (_endCropBox (imports := I) panel1 (iat p Mode.crop) (mkEvent 0 0)
                    (Panel.properties p) (Panel.pointer p)) (world p []) in
  Pointer.selectBox (Panel.pointer (live w')) = Rect.mk 0 10 100 100 /\
  Spec.intersection box (Properties.image_dims (Panel.properties p)) = Rect.mk 0 10 150 100 /\
  Pointer.selectBox (Panel.pointer (live w'))
    <> Spec.intersection box (Properties.image_dims (Panel.properties p)).
Proof.
  intros box p w'. split; [| split].
  - vm_compute. reflexivity.
  - vm_compute. reflexivity.
  - vm_compute. discriminate.
Qed.

(** The example of the claim itself: [{x:-50, y:10, w:200, h:100}] on the
    150x300 image commits as [{0,10,150,100}], the intersection. *)
Lemma endCropBox_claimed_example :
  let box := Rect.mk (-50) 10 200 100 in
  let p := cropPanel box in
  let w' := exec (_endCropBox (imports := I) panel1 (iat p Mode.crop) (mkEvent 0 0)
                    (Panel.properties p) (Panel.pointer p)) (world p []) in
  Pointer.selectBox (Panel.pointer (live w')) = Rect.mk 0 10 150 100 /\
  Spec.intersection box (Properties.image_dims (Panel.properties p)) = Rect.mk 0 10 150 100.
Proof.
  intros box p w'. split; vm_compute; reflexivity.
Qed.

(** The one-sided clamp, at the claim's example. *)
Lemma endCropBox_one_sided_overflow_witness :
  let box := Rect.mk (-50) 10 200 100 in
  let p := cropPanel box in
  let committed :=
    Pointer.selectBox (Panel.pointer (live
       (exec (_endCropBox (imports := I) panel1 (iat p Mode.crop) (mkEvent 0 0)
                (Panel.properties p) (Panel.pointer p)) (world p [])))) in
  Rect.eqv committed (Rect.mk 0 10 150 100) /\
  0 <= Rect.w committed /\ 0 <= Rect.h committed.
Proof.
  intros box p committed.
  refine (endCropBox_one_sided_overflow (imports := I) panel1 (iat p Mode.crop) (mkEvent 0 0)
            (Panel.properties p) (Panel.pointer p) (world p []) (-50)%Z 10%Z
            _ eq_refl _ _ _ _ _ _ _ _).
  - discriminate.
  - reflexivity.
  - reflexivity.
  - discriminate.
  - discriminate.
  - reflexivity.
  - reflexivity.
  - right. split; [reflexivity | split; discriminate].
  - left. split; discriminate.
Defined.

(** A simple click in crop mode (a zero-size box) clears the stored points. *)
Lemma endCropBox_empty_box_clears_witness :
  let p := loadedPanel panel1 (Dims.mk 150 300) (Rect.mk 0 0 300 600) fourPoints
             (Rect.mk 20 20 0 0) cropMethods in
  let w' := exec (_endCropBox (imports := I) panel1 (iat p Mode.crop) (mkEvent 0 0)
                    (Panel.properties p) (Panel.pointer p)) (world p []) in
  Pointer.points (Panel.pointer p) = fourPoints /\
  Pointer.points (Panel.pointer (live w')) = [] /\
  Pointer.selectBox (Panel.pointer (live w')) = Rect.zero.
Proof.
  intros p w'.
  destruct (endCropBox_empty_box_clears (imports := I) panel1 (iat p Mode.crop) (mkEvent 0 0)
              (Panel.properties p) (Panel.pointer p) (world p [])
              (or_intror (or_intror (or_introl eq_refl))))
    as (Hpts & Hbox & _).
  split; [reflexivity | split; [exact Hpts | exact Hbox]].
Defined.

(** A box right of the image is committed with a negative width. *)
Lemma endCropBox_outside_box_negative_width :
  let box := Rect.mk 200 10 50 100 in
  let p := cropPanel box in
  let w' := exec (_endCropBox (imports := I) panel1 (iat p Mode.crop) (mkEvent 0 0)
                    (Panel.properties p) (Panel.pointer p)) (world p []) in
  Pointer.selectBox (Panel.pointer (live w')) = Rect.mk 150 10 (-50) 100.
Proof.
  intros box p w'. vm_compute. reflexivity.
Qed.

(** C7 as stated fails: a mode change does not clear the overlay.  With the
    stored control points drawn on overlay 1, switching to pan leaves the
    drawing in place, and entering crop draws the control points again. *)
Lemma modeEffect_keeps_overlay :
  let p := selectPanel (Rect.mk 0 0 800 600) fourPoints in
  let drawn := [ControlPoints [Point.mk 20 20; Point.mk 40 40; Point.mk 60 60; Point.mk 80 80]] in
  let w := world p drawn in
  overlayLayer1 (layers (exec (modeEffect (imports := I) panel1 (iat p Mode.pan)) w)) = drawn /\
  overlayLayer1 (layers (exec (modeEffect (imports := I) panel1 (iat p Mode.pan)) w)) <> [] /\
  overlayLayer1 (layers (exec (modeEffect (imports := I) panel1 (iat p Mode.crop)) w)) = drawn.
Proof.
  intros p drawn w. split; [| split].
  - vm_compute. reflexivity.
  - vm_compute. discriminate.
  - vm_compute. reflexivity.
Qed.

(** C7 (amended), entering crop with a loaded image and a stale select box,
    and entering crop on an empty panel. *)
Lemma modeEffect_replaces_bundle_witness :
  let p := loadedPanel panel1 (Dims.mk 4000 3000) (Rect.mk 0 0 800 600) fourPoints
             (Rect.mk 5 5 10 10) selectMethods in
  let w' := exec (modeEffect (imports := I) panel1 (iat p Mode.crop)) (world p []) in
  let q := emptyPanel panel1 in
  let v' := exec (modeEffect (imports := I) panel1 (iat q Mode.crop)) (world q []) in
  Panel.image (live w') = Some (raster (Dims.mk 4000 3000) 0) /\
  Pointer.selectBox (Panel.pointer (live w')) = Rect.zero /\
  Panel.methods (live w') = cropMethods /\
  Panel.methods (live (world q [])) = panMethods /\
  Panel.methods (live v') = cropMethods.
Proof.
  intros p w' q v'.
  destruct (modeEffect_replaces_bundle (imports := I) panel1 (iat p Mode.crop) (world p []))
    as (_ & _ & Hcrop & _).
  destruct (Hcrop eq_refl ltac:(discriminate)) as (_ & Himg & Hbox & Hm).
  destruct (modeEffect_replaces_bundle (imports := I) panel1 (iat q Mode.crop) (world q []))
    as (_ & _ & _ & _ & Hq).
  split; [exact Himg |]. split; [exact Hbox |]. split; [exact Hm |].
  split; [reflexivity | exact Hq].
Defined.


(** C9, after a mount in select mode, a switch to crop and a mouse-down. *)
Lemma handler_bundles_single_mode_witness :
  let p := selectPanel (Rect.mk 0 0 800 600) fourPoints in
  let mounted := exec (modeEffect (imports := I) panel1 (iat p Mode.select)) (world p []) in
  let cropping := exec (modeEffect (imports := I) panel1 (iat p Mode.crop)) mounted in
  let w := exec (run (imports := I) panel1 (iat p Mode.crop)
                   (handlerOf MouseDown (Panel.methods (live cropping))) (mkEvent 10 10)
                   (Panel.properties (live cropping)) (Panel.pointer (live cropping)))
             cropping in
  reachable (imports := I) panel1 w /\
  KnownBundle (Panel.methods (live w)) /\
  exists m : Mode.t,
    forall k : EventKind, handlerMode (handlerOf k (Panel.methods (live w))) = m.
Proof.
  intros p mounted cropping w.
  assert (Hr : reachable (imports := I) panel1 w).
  { apply reach_step with (w := cropping).
    - apply reach_step with (w := mounted).
      + apply reach_mount.
      + apply step_mode.
    - exact (step_event panel1 (iat p Mode.crop) MouseDown (mkEvent 10 10)
               (Panel.properties (live cropping)) (Panel.pointer (live cropping)) cropping). }
  split; [exact Hr |].
  exact (handler_bundles_single_mode (imports := I) panel1 w Hr).
Defined.

End Runs.

(** * Further properties *)

(** ** Select mode: picking up and moving a stored point *)

Section SelectStored.

Context {imports : Imports}.

Lemma setIndex_twice i j w : snd (setIndex i (snd (setIndex j w))) = snd (setIndex i w).
Proof. reflexivity. Qed.

Lemma NoPointInRange_after properties pos radius c rest :
  (forall j ctrlPt, (0 < j)%nat -> nth_error (c :: rest) j = Some ctrlPt ->
     (let pt := renderedPoint properties (renderOffset properties) ctrlPt in
      inRange (Point.x pos) (Point.y pos) (Point.x pt) (Point.y pt) radius) = false) ->
  NoPointInRange properties pos radius rest.
Proof.
  intro H. apply Forall_forall. intros x Hx.
  destruct (In_nth_error _ _ Hx) as [n Hn].
  exact (H (S n) x (Nat.lt_0_succ n) Hn).
Qed.

(** When stored points are near the cursor, the [forEach] leaves the index of
    the last of them selected. *)
Lemma hitTest_last properties pos radius controlPoints :
  forall i, LastPointInRange properties pos radius controlPoints i ->
  forall index pts selected w,
    hitTest properties pos (renderOffset properties) radius controlPoints index pts selected w
    = (Some (pts ++ map (renderedPoint properties (renderOffset properties)) controlPoints, true),
       snd (setIndex (index + Z.of_nat i) w)).
Proof.
  induction controlPoints as [| c rest IH]; intros i [[ctrlPt [Hnth Hnear]] Hlater] index pts selected w.
  - destruct i; discriminate.
  - destruct i as [| n].
    + injection Hnth as <-. simpl hitTest.
      unfold renderedPoint in Hnear. cbv zeta in Hnear. simpl in Hnear. rewrite Hnear.
      unfold bind at 1.
      change (setIndex index w) with (Some tt, snd (setIndex index w)). cbv beta iota.
      rewrite (hitTest_miss _ _ _ _ (NoPointInRange_after _ _ _ _ _ Hlater)).
      rewrite Z.add_0_r. simpl map. rewrite <- app_assoc. reflexivity.
    + assert (Hrest : LastPointInRange properties pos radius rest n).
      { split.
        - exists ctrlPt. split; [exact Hnth | exact Hnear].
        - intros j c' Hj Hc'. apply (Hlater (S j) c'); [lia | exact Hc']. }
      simpl hitTest.
      replace (index + Z.of_nat (S n))%Z with (index + 1 + Z.of_nat n)%Z by lia.
      match goal with |- context [if ?b then _ else _] => destruct b end.
      * unfold bind at 1.
        change (setIndex index w) with (Some tt, snd (setIndex index w)). cbv beta iota.
        rewrite (IH n Hrest). rewrite setIndex_twice.
        simpl map. rewrite <- app_assoc. reflexivity.
      * rewrite (IH n Hrest). simpl map. rewrite <- app_assoc. reflexivity.
Qed.

(** In select mode, a pointer-down inside the rendered image and within
    [ptrRadius] of a stored control point picks that point up instead of
    placing a new one: the index of the last stored point in range becomes
    the selected index, and nothing else changes but the refreshed canvas
    bounds: the control-point list, the message (no capacity error, even
    with the list full) and the canvas layers are as before. *)
Theorem selectControlPoint_picks_up iat e properties pointer w i :
  let pos := getPos e (Properties.base_dims properties) (viewBounds (layers w)) in
  InsideImage properties pos ->
  LastPointInRange properties pos (ptrRadius (options iat)) (Pointer.points pointer) i ->
  let w' := exec (_selectControlPoint iat e properties pointer) w in
  w' = exec (setIndex (Z.of_nat i)) (exec _resetBounds w) /\
  Pointer.index (Panel.pointer (live w')) = Z.of_nat i /\
  Pointer.points (Panel.pointer (live w')) = Pointer.points (Panel.pointer (live w)) /\
  message w' = message w /\
  layers w' = layers w.
Proof.
  intros pos Hin Hlast w'.
  assert (E : w' = exec (setIndex (Z.of_nat i)) (exec _resetBounds w)).
  { subst w'. destruct (inside_guards _ _ Hin) as [G1 G2].
    unfold _selectControlPoint, exec, bind at 1. unfold_effects. unfold read, modify, bind, ret.
    cbv beta iota. fold pos. rewrite G1, G2.
    rewrite (hitTest_last _ _ _ _ _ Hlast).
    cbv beta iota. reflexivity. }
  rewrite E. split; [reflexivity |]. split; [reflexivity |]. split; [reflexivity |].
  split; reflexivity.
Qed.

Lemma list_set_length {A : Type} (l : list A) i v : List.length (list_set l i v) = List.length l.
Proof.
  revert i; induction l as [| a t IH]; intros [| j]; simpl; try reflexivity.
  now rewrite IH.
Qed.




(** In select mode, a mouse-move changes nothing at all when there is
    no anchor, when no stored point is selected (negative index, or an index
    past the end of the list), or when the pointer is outside the rendered
    image. *)
Theorem moveControlPoint_guards e properties pointer w :
  Pointer.selected pointer = None \/
  (Pointer.index pointer < 0)%Z \/
  (List.length (Pointer.points pointer) <= Z.to_nat (Pointer.index pointer))%nat \/
  OutsideImage properties (Pointer.pos pointer) ->
  exec (_moveControlPoint e properties pointer) w = w.
Proof.
  intro H. unfold _moveControlPoint.
  destruct (Pointer.selected pointer) as [selected |]; [| reflexivity].
  destruct (Pointer.index pointer <? 0)%Z eqn:Hlt; [reflexivity |].
  destruct (nth_error _ _) as [ctrlPt |] eqn:Hnth; [| reflexivity].
  destruct H as [H | [H | [H | H]]].
  - discriminate.
  - apply Z.ltb_ge in Hlt. lia.
  - apply nth_error_None in H. congruence.
  - cbv zeta.
    destruct (outside_guards _ _ H) as [G | G];
      change (Point.x (Pointer.pos pointer)) with (Pointer.x pointer) in G;
      change (Point.y (Pointer.pos pointer)) with (Pointer.y pointer) in G;
      rewrite G.
    + reflexivity.
    + match goal with |- context [if ?c then _ else _] => destruct c end; reflexivity.
Qed.

End SelectStored.

(** ** Crop mode: drawing, grabbing and moving the box *)

Section CropBox.

Context {imports : Imports}.

(** In crop mode, a mouse-move with an anchor (a drag) stores a select
    box whose width and height are never negative, whichever way the pointer
    is dragged; the anchor, the control points and the bound handlers are as
    before.  Without an anchor the mouse-move changes nothing. *)
Theorem selectCropBox_normalised e properties pointer w :
  let w' := exec (_selectCropBox e properties pointer) w in
  (forall selected, Pointer.selected pointer = Some selected ->
     0 <= Rect.w (Pointer.selectBox (Panel.pointer (live w'))) /\
     0 <= Rect.h (Pointer.selectBox (Panel.pointer (live w'))) /\
     Pointer.selected (Panel.pointer (live w')) = Pointer.selected (Panel.pointer (live w)) /\
     Pointer.points (Panel.pointer (live w')) = Pointer.points (Panel.pointer (live w)) /\
     methodsOf w' = methodsOf w) /\
  (Pointer.selected pointer = None -> w' = w).
Proof.
  intro w'. subst w'. unfold _selectCropBox. split.
  - intros selected Hsel. rewrite Hsel. cbv zeta.
    split; [| split; [| split; [| split]]]; try reflexivity.
    + apply Qabs_nonneg.
    + apply Qabs_nonneg.
  - intro Hsel. rewrite Hsel. reflexivity.
Qed.

(** In crop mode, moving a grabbed box (a mouse-move of the move
    bundle, with an anchor) keeps the stored box's width and height exactly
    and moves the anchor to the pointer; the control points are as before.
    Without an anchor the mouse-move changes nothing. *)
Theorem moveCropBox_keeps_size e properties pointer w :
  let w' := exec (_moveCropBox e properties pointer) w in
  (forall selected, Pointer.selected pointer = Some selected ->
     Rect.w (Pointer.selectBox (Panel.pointer (live w'))) = Rect.w (Pointer.selectBox pointer) /\
     Rect.h (Pointer.selectBox (Panel.pointer (live w'))) = Rect.h (Pointer.selectBox pointer) /\
     Pointer.selected (Panel.pointer (live w')) = Some (Pointer.pos pointer) /\
     Pointer.points (Panel.pointer (live w')) = Pointer.points (Panel.pointer (live w)) /\
     methodsOf w' = methodsOf w) /\
  (Pointer.selected pointer = None -> w' = w).
Proof.
  intro w'. subst w'. unfold _moveCropBox. split.
  - intros selected Hsel. rewrite Hsel. cbv zeta.
    split; [| split; [| split; [| split]]]; reflexivity.
  - intro Hsel. rewrite Hsel. reflexivity.
Qed.

(** In crop mode, a mouse-down on the existing select box (a box of
    positive width and height that contains the pointer, scaled to image
    pixels) grabs it: only the handler bundle changes, to the move bundle.
    A mouse-down anywhere else, or with an empty box, starts a new box of
    zero size at the scaled pointer position and keeps the bundle. *)
Theorem startCropBox_grabs_or_restarts e properties pointer w :
  let selectBox := Pointer.selectBox pointer in
  let scaledPt := scalePoint (Pointer.pos pointer)
                    (Properties.image_dims properties) (Properties.render_dims properties) in
  let w' := exec (_startCropBox e properties pointer) w in
  (0 < Rect.w selectBox -> 0 < Rect.h selectBox ->
   Rect.x selectBox <= Point.x scaledPt <= Rect.x selectBox + Rect.w selectBox ->
   Rect.y selectBox <= Point.y scaledPt <= Rect.y selectBox + Rect.h selectBox ->
   w' = exec (setMethods cropMoveMethods) w /\
   methodsOf w' = cropMoveMethods /\
   Panel.pointer (live w') = Panel.pointer (live w) /\
   layers w' = layers w) /\
  (Rect.w selectBox <= 0 \/ Rect.h selectBox <= 0 \/
   Point.x scaledPt < Rect.x selectBox \/ Rect.x selectBox + Rect.w selectBox < Point.x scaledPt \/
   Point.y scaledPt < Rect.y selectBox \/ Rect.y selectBox + Rect.h selectBox < Point.y scaledPt ->
   Pointer.selectBox (Panel.pointer (live w')) = Rect.mk (Point.x scaledPt) (Point.y scaledPt) 0 0 /\
   overlayLayer1 (layers w') = [BoundingBox 0 0 0 0] /\
   methodsOf w' = methodsOf w).
Proof.
  intros selectBox scaledPt w'. subst w'. unfold _startCropBox. cbv zeta.
  fold selectBox. fold scaledPt. split.
  - intros Hw Hh [Hx1 Hx2] [Hy1 Hy2].
    apply gt_true in Hw, Hh.
    assert (G1 : (Point.x scaledPt >=? Rect.x selectBox) = true) by (apply Qle_bool_iff; exact Hx1).
    assert (G2 : (Point.x scaledPt <=? Rect.x selectBox + Rect.w selectBox) = true)
      by (apply Qle_bool_iff; exact Hx2).
    assert (G3 : (Point.y scaledPt >=? Rect.y selectBox) = true) by (apply Qle_bool_iff; exact Hy1).
    assert (G4 : (Point.y scaledPt <=? Rect.y selectBox + Rect.h selectBox) = true)
      by (apply Qle_bool_iff; exact Hy2).
    rewrite Hw, Hh, G1, G2, G3, G4. cbv beta iota delta [andb].
    split; [| split; [| split]]; reflexivity.
  - intro H.
    assert (G : ((Rect.w selectBox >? 0) && (Rect.h selectBox >? 0) &&
                 (Point.x scaledPt >=? Rect.x selectBox) &&
                 (Point.x scaledPt <=? Rect.x selectBox + Rect.w selectBox) &&
                 (Point.y scaledPt >=? Rect.y selectBox) &&
                 (Point.y scaledPt <=? Rect.y selectBox + Rect.h selectBox)) = false).
    { destruct H as [H | [H | [H | [H | [H | H]]]]].
      - apply gt_false in H. rewrite H. reflexivity.
      - apply gt_false in H. rewrite H. rewrite andb_false_r. reflexivity.
      - apply lt_true in H. unfold Js.ge. unfold Js.lt in H.
        apply negb_true_iff in H. rewrite H. rewrite andb_false_r. reflexivity.
      - apply lt_true in H. unfold Js.le at 1. unfold Js.lt in H.
        apply negb_true_iff in H. rewrite H. rewrite andb_false_r. reflexivity.
      - apply lt_true in H. unfold Js.ge at 2. unfold Js.lt in H.
        apply negb_true_iff in H. rewrite H. rewrite andb_false_r. reflexivity.
      - apply lt_true in H. unfold Js.le at 2. unfold Js.lt in H.
        apply negb_true_iff in H. rewrite H. rewrite andb_false_r. reflexivity. }
    rewrite G. split; [| split]; reflexivity.
Qed.

End CropBox.

(** ** Commands: crop, align, load, reset, zoom *)

Section MoreCommands.

Context {imports : Imports}.

(** How [_applyCropBox] ends, by case: the status, and the image after a
    crop that went through. *)
Lemma applyCropBox_outcome id iat w :
  let panel := iat_get iat id in
  let selectBox := Pointer.selectBox (Panel.pointer panel) in
  let w' := exec (_applyCropBox id iat) w in
  (Rect.w selectBox == 0 /\ Rect.h selectBox == 0 -> Panel.status (live w') = Status.loading) /\
  (~ (Rect.w selectBox == 0 /\ Rect.h selectBox == 0) ->
     (cropImage (imageLayer (layers w)) (Panel.image panel) selectBox = None ->
        Panel.status (live w') = Status.error) /\
     (forall cropped,
        cropImage (imageLayer (layers w)) (Panel.image panel) selectBox = Some cropped ->
        Panel.status (live w') = Status.loaded /\ Panel.image (live w') = cropped)).
Proof.
  intros panel selectBox w'. subst w' selectBox panel. split.
  - intros [Hw Hh]. apply eqq_true in Hw, Hh.
    unfold exec, _applyCropBox. vm_compute in Hw, Hh. vm_compute. rewrite Hw, Hh. reflexivity.
  - intro Hbox.
    assert (G : ((Rect.w (Pointer.selectBox (Panel.pointer (iat_get iat id))) === 0)
                 && (Rect.h (Pointer.selectBox (Panel.pointer (iat_get iat id))) === 0)) = false).
    { destruct (Rect.w _ === 0) eqn:E1; [| reflexivity].
      destruct (Rect.h _ === 0) eqn:E2; [| reflexivity].
      apply eqq_true in E1, E2. exfalso. apply Hbox. split; assumption. }
    clear Hbox. unfold exec, _applyCropBox. vm_compute in G. split.
    + intro Hcrop. vm_compute in Hcrop. vm_compute. rewrite G, Hcrop. reflexivity.
    + intros cropped Hcrop. vm_compute in Hcrop.
      split; vm_compute; rewrite G, Hcrop; reflexivity.
Qed.

(** [_applyCropBox] on a select box that is not empty, when the cropper
    returns: the panel's image and the image layer hold what the cropper
    left in the canvas, [image_dims] is the box's width and height,
    [render_dims] is that size fitted to the canvas at offset zero, the
    select box is reset to empty, the stored control points and both
    overlays are cleared, and the status ends at [loaded].  The source
    raster and the message are as before. *)
Theorem applyCropBox_crops id iat w cropped :
  let panel := iat_get iat id in
  let selectBox := Pointer.selectBox (Panel.pointer panel) in
  let base_dims := Properties.base_dims (Panel.properties panel) in
  ~ (Rect.w selectBox == 0 /\ Rect.h selectBox == 0) ->
  cropImage (imageLayer (layers w)) (Panel.image panel) selectBox = Some cropped ->
  let w' := exec (_applyCropBox id iat) w in
  let scaledDims := scaleToFit (Rect.w selectBox) (Rect.h selectBox)
                      (Dims.w base_dims) (Dims.h base_dims) in
  Panel.image (live w') = cropped /\
  imageLayer (layers w') = cropped /\
  Properties.image_dims (Panel.properties (live w')) = Dims.mk (Rect.w selectBox) (Rect.h selectBox) /\
  Properties.render_dims (Panel.properties (live w'))
    = Rect.mk 0 0 (Dims.w scaledDims) (Dims.h scaledDims) /\
  Pointer.selectBox (Panel.pointer (live w')) = Rect.mk 0 0 0 0 /\
  Pointer.points (Panel.pointer (live w')) = [] /\
  overlayLayer1 (layers w') = [] /\ overlayLayer2 (layers w') = [] /\
  Panel.status (live w') = Status.loaded /\
  Panel.source (live w') = Panel.source (live w) /\
  message w' = message w.
Proof.
  intros panel selectBox base_dims Hbox Hcrop w' scaledDims.
  subst w' scaledDims base_dims selectBox panel.
  assert (G : ((Rect.w (Pointer.selectBox (Panel.pointer (iat_get iat id))) === 0)
               && (Rect.h (Pointer.selectBox (Panel.pointer (iat_get iat id))) === 0)) = false).
  { destruct (Rect.w _ === 0) eqn:E1; [| reflexivity].
    destruct (Rect.h _ === 0) eqn:E2; [| reflexivity].
    apply eqq_true in E1, E2. exfalso. apply Hbox. split; assumption. }
  clear Hbox. unfold exec, _applyCropBox.
  vm_compute in G, Hcrop.
  split; [| split; [| split; [| split; [| split; [| split; [| split; [| split; [| split; [| split]]]]]]]]];
    vm_compute; rewrite G, Hcrop; reflexivity.
Qed.


(** [_alignImage], when the solver returns a warped raster: the
    panel's image and the image layer hold what the solver left in the
    canvas, [render_dims] is the raster's size fitted to the canvas at
    offset zero, the status ends at [loaded] and the toolkit is flagged as
    aligned.  [image_dims], the source raster, the control points and the
    message are as before. *)
Theorem alignImage_aligned id iat w data canvas' :
  let panel := iat_get iat id in
  let base_dims := Properties.base_dims (Panel.properties panel) in
  alignImages (panelSrc id iat) (panelDst id iat) (imageLayer (layers w))
    (Panel.image panel) (options iat) = Some (AlignData data, canvas') ->
  let w' := exec (_alignImage id iat) w in
  let scaledDims := scaleToFit (width data) (height data) (Dims.w base_dims) (Dims.h base_dims) in
  Panel.image (live w') = canvas' /\
  imageLayer (layers w') = canvas' /\
  Properties.render_dims (Panel.properties (live w'))
    = Rect.mk 0 0 (Dims.w scaledDims) (Dims.h scaledDims) /\
  Panel.status (live w') = Status.loaded /\
  aligned w' = true /\
  Properties.image_dims (Panel.properties (live w'))
    = Properties.image_dims (Panel.properties (live w)) /\
  Panel.source (live w') = Panel.source (live w) /\
  Pointer.points (Panel.pointer (live w')) = Pointer.points (Panel.pointer (live w)) /\
  message w' = message w.
Proof.
  intros panel base_dims H w' scaledDims. subst w' scaledDims base_dims panel.
  unfold exec, _alignImage. vm_compute in H.
  split; [| split; [| split; [| split; [| split; [| split; [| split; [| split]]]]]]];
    vm_compute; rewrite H; reflexivity.
Qed.

(** The loader's callback with an error: when the response carries no
    properties it is dropped whole, error included, and nothing changes;
    when it carries properties the status becomes [empty] and the error is
    the message.  Either way the image, the source, the properties, the
    pointer state and the canvas layers are as before. *)
Theorem loadImage_callback_error iat response w error :
  res_error response = Some error ->
  let w' := exec (_loadImage_callback iat response) w in
  (res_props response = None -> w' = w) /\
  (res_props response <> None ->
     Panel.status (live w') = Status.empty /\ message w' = Some error) /\
  Panel.image (live w') = Panel.image (live w) /\
  Panel.source (live w') = Panel.source (live w) /\
  Panel.properties (live w') = Panel.properties (live w) /\
  Panel.pointer (live w') = Panel.pointer (live w) /\
  layers w' = layers w.
Proof.
  intros Herr w'. subst w'. unfold _loadImage_callback. rewrite Herr.
  destruct (res_props response) as [props |].
  - split; [discriminate |]. split; [intros _; split; reflexivity |].
    split; [| split; [| split; [| split]]]; reflexivity.
  - split; [reflexivity |]. split; [congruence |].
    split; [| split; [| split; [| split]]]; reflexivity.
Qed.

(** [_resetImage] on a panel with a source raster. *)
Lemma resetImage_with_source id iat w source :
  let panel := iat_get iat id in
  let source_dims := Properties.source_dims (Panel.properties panel) in
  let base_dims := Properties.base_dims (Panel.properties panel) in
  let viewDims := scaleToFit (Dims.w source_dims) (Dims.h source_dims)
                             (Dims.w base_dims) (Dims.h base_dims) in
  Panel.source panel = Some source ->
  let w' := exec (_resetImage id iat) w in
  Panel.image (live w') = Some source /\
  imageLayer (layers w') = Some source /\
  Properties.image_dims (Panel.properties (live w'))
    = Dims.mk (Dims.w source_dims) (Dims.h source_dims) /\
  Properties.render_dims (Panel.properties (live w'))
    = Rect.mk 0 0 (Dims.w viewDims) (Dims.h viewDims) /\
  Pointer.selectBox (Panel.pointer (live w')) = Rect.zero /\
  Panel.status (live w') = Status.loaded /\
  aligned w' = false /\
  Pointer.points (Panel.pointer (live w')) = Pointer.points (Panel.pointer (live w)) /\
  Panel.source (live w') = Panel.source (live w).
Proof.
  intros panel source_dims base_dims viewDims Hsrc w'.
  subst w' viewDims base_dims source_dims panel. unfold exec, _resetImage.
  vm_compute in Hsrc.
  split; [| split; [| split; [| split; [| split; [| split; [| split; [| split]]]]]]];
    vm_compute; rewrite Hsrc; reflexivity.
Qed.

(** [_resetImage] on a panel with a source raster makes the source the
    image again: the image and the image layer hold the source raster,
    [image_dims] is [source_dims], [render_dims] is that size fitted to the
    canvas at offset zero, the select box is empty, the status is [loaded]
    and the aligned flag is off; the control points and the source are as
    before.  On a panel without a source raster it only nulls the image and
    empties the select box: nothing is drawn and the status is untouched. *)
Theorem resetImage_restores_source id iat w :
  let panel := iat_get iat id in
  let source_dims := Properties.source_dims (Panel.properties panel) in
  let base_dims := Properties.base_dims (Panel.properties panel) in
  let viewDims := scaleToFit (Dims.w source_dims) (Dims.h source_dims)
                             (Dims.w base_dims) (Dims.h base_dims) in
  let w' := exec (_resetImage id iat) w in
  (forall source, Panel.source panel = Some source ->
     Panel.image (live w') = Some source /\
     imageLayer (layers w') = Some source /\
     Properties.image_dims (Panel.properties (live w'))
       = Dims.mk (Dims.w source_dims) (Dims.h source_dims) /\
     Properties.render_dims (Panel.properties (live w'))
       = Rect.mk 0 0 (Dims.w viewDims) (Dims.h viewDims) /\
     Pointer.selectBox (Panel.pointer (live w')) = Rect.zero /\
     Panel.status (live w') = Status.loaded /\
     aligned w' = false /\
     Pointer.points (Panel.pointer (live w')) = Pointer.points (Panel.pointer (live w)) /\
     Panel.source (live w') = Panel.source (live w)) /\
  (Panel.source panel = None ->
     w' = exec (setImage None ;; resetSelectBox) w /\
     Panel.status (live w') = Panel.status (live w) /\
     layers w' = layers w).
Proof.
  intros panel source_dims base_dims viewDims w'.
  subst w' viewDims base_dims source_dims panel. split; [| unfold exec, _resetImage].
  - intros source Hsrc. exact (resetImage_with_source id iat w source Hsrc).
  - intro Hsrc. vm_compute in Hsrc.
    split; [| split]; vm_compute; rewrite Hsrc; reflexivity.
Qed.

Lemma iat_get_rerender iat id w : iat_get (rerender iat id w) id = live w.
Proof. destruct id; reflexivity. Qed.

(** Save, crop, reset is a round trip.  From a render whose snapshot
    is current and with a raster in the image layer: after saving the state
    ([_syncImages]), cropping ([_applyCropBox], whatever the select box and
    whatever the cropper does, a throw included) and resetting
    ([_resetImage]), each from the render that follows the previous step,
    the image and the image layer hold the raster that was saved and
    [image_dims] is what it was when saving; the select box is empty and the
    status is [loaded]. *)
Theorem save_crop_reset_round_trip id iat w raster :
  iat_get iat id = live w ->
  imageLayer (layers w) = Some raster ->
  let w1 := exec (_syncImages id iat) w in
  let iat1 := rerender iat id w1 in
  let w2 := exec (_applyCropBox id iat1) w1 in
  let iat2 := rerender iat1 id w2 in
  let w3 := exec (_resetImage id iat2) w2 in
  Panel.image (live w3) = Some raster /\
  imageLayer (layers w3) = Some raster /\
  Properties.image_dims (Panel.properties (live w3))
    = Properties.image_dims (Panel.properties (live w)) /\
  Pointer.selectBox (Panel.pointer (live w3)) = Rect.zero /\
  Panel.status (live w3) = Status.loaded.
Proof.
  intros Hsnap Hlayer w1 iat1 w2 iat2 w3.
  assert (Hsrc1 : Panel.source (live w1) = Some raster).
  { subst w1. unfold exec, _syncImages. vm_compute. vm_compute in Hlayer. rewrite Hlayer. reflexivity. }
  assert (Hdims1 : Properties.source_dims (Panel.properties (live w1))
                   = Properties.image_dims (Panel.properties (live w))).
  { subst w1. unfold exec, _syncImages. rewrite Hsnap.
    destruct w as [[st [pid [iw ih] rd bd sd bo md fn ov] im so re po me] msg ly al]. reflexivity. }
  assert (K : Panel.source (live w2) = Some raster /\
              Properties.source_dims (Panel.properties (live w2))
              = Properties.image_dims (Panel.properties (live w))).
  { rewrite <- Hsrc1, <- Hdims1. subst w2.
    assert (F : keeps (fun w => (Panel.source (live w),
                                 Properties.source_dims (Panel.properties (live w))))
                      (_applyCropBox id iat1)).
    { unfold _applyCropBox, call_cropImage, _renderImage. unfold_effects. keeps_tac. }
    specialize (F w1). unfold exec. injection F as F1 F2. split; assumption. }
  destruct K as [Hsrc2 Hdims2].
  assert (Hsrc2' : Panel.source (iat_get iat2 id) = Some raster)
    by (subst iat2; rewrite iat_get_rerender; exact Hsrc2).
  pose proof (resetImage_with_source id iat2 w2 raster Hsrc2') as R. cbv zeta in R.
  subst iat2. rewrite iat_get_rerender in R.
  destruct R as (R1 & R2 & R3 & R4 & R5 & R6 & _).
  fold w3 in R1, R2, R3, R5, R6.
  split; [exact R1 |]. split; [exact R2 |]. split; [| split; [exact R5 | exact R6]].
  rewrite R3. rewrite Hdims2.
  destruct (Properties.image_dims (Panel.properties (live w))). reflexivity.
Qed.

Lemma Math_round_ratio (z a : Z) (b : positive) :
  Js.Math_round (inject_Z z * (a # b)) = inject_Z ((2 * (z * a) + Z.pos b) / (2 * Z.pos b)).
Proof.
  unfold Js.Math_round. f_equal.
  unfold Qfloor, Qplus, Qmult, inject_Z. cbn [Qnum Qden].
  f_equal; lia.
Qed.

Lemma double_08 : Js.double 0.8 = 3602879701896397 # 4503599627370496.
Proof. vm_compute. reflexivity. Qed.

Lemma Qfloor_unique (y : Q) (z : Z) :
  inject_Z z <= y -> y < inject_Z (z + 1) -> Qfloor y = z.
Proof.
  intros L U.
  assert (A : (z <= Qfloor y)%Z).
  { rewrite <- (Qfloor_Z z). apply Qfloor_resp_le. exact L. }
  assert (B : (Qfloor y < z + 1)%Z).
  { rewrite Zlt_Qlt. eapply Qle_lt_trans; [apply Qfloor_le | exact U]. }
  lia.
Qed.

(** One coordinate of the zoom round trip, in doubles: [n * 1.25] is exact,
    and the double product with the double [0.8] stays well within the
    distance 1/10 that [0.8 * m] keeps from a rounding tie. *)
Lemma zoom_in_out_double (r : Q) (z : Z) :
  r == inject_Z z -> (Z.abs z <= 2 ^ 40)%Z ->
  Js.Math_round (Js.mul (Js.Math_round (Js.mul r 1.25)) (Js.double 0.8)) = inject_Z z.
Proof.
  intros Hr Hz. change (2 ^ 40)%Z with 1099511627776%Z in Hz.
  assert (Zlo : -1099511627776 <= inject_Z z).
  { change (-1099511627776) with (inject_Z (-1099511627776)). rewrite <- Zle_Qle. lia. }
  assert (Zhi : inject_Z z <= 1099511627776).
  { change 1099511627776 with (inject_Z 1099511627776). rewrite <- Zle_Qle. lia. }
  assert (E1 : Js.mul r 1.25 == inject_Z z * 1.25).
  { unfold Js.mul.
    rewrite (double_comp (r * 1.25) (inject_Z z * 1.25)) by (rewrite Hr; reflexivity).
    apply (double_exact _ 41 2 (5 * z)); [lia | | lia |].
    - apply Qabs_Qlt_condition. change (inject_Z (2 ^ 41)) with 2199023255552. split; lra.
    - change (Z.to_pos (2 ^ 2)) with 4%positive. unfold Qeq, Qmult, inject_Z.
      cbn [Qnum Qden]. lia. }
  rewrite (Math_round_comp _ _ E1). rewrite Math_round_ratio.
  set (m := ((2 * (z * 125) + Z.pos 100) / (2 * Z.pos 100))%Z).
  assert (Hm : (4 * m <= 5 * z + 2 < 4 * m + 4)%Z).
  { subst m. Z.div_mod_to_equations. lia. }
  destruct Hm as [Hm1 Hm2].
  assert (M1 : 4 * inject_Z m <= 5 * inject_Z z + 2).
  { rewrite Zle_Qle in Hm1. rewrite inject_Z_plus, !inject_Z_mult in Hm1. exact Hm1. }
  assert (M2 : 5 * inject_Z z + 2 < 4 * inject_Z m + 4).
  { rewrite Zlt_Qlt in Hm2. rewrite !inject_Z_plus, !inject_Z_mult in Hm2. exact Hm2. }
  assert (Hb : Qabs (inject_Z m * Js.double 0.8) < inject_Z (2 ^ 41)).
  { rewrite double_08. apply Qabs_Qlt_condition.
    change (inject_Z (2 ^ 41)) with 2199023255552. split; lra. }
  pose proof (double_error _ 41 ltac:(lia) Hb) as Err.
  apply Qabs_Qle_condition in Err.
  change (Z.to_pos (2 ^ (53 - 41))) with 4096%positive in Err.
  unfold Js.mul. set (x2 := Js.double (inject_Z m * Js.double 0.8)) in *.
  rewrite double_08 in Err.
  unfold Js.Math_round. f_equal. apply Qfloor_unique.
  - lra.
  - rewrite inject_Z_plus. change (inject_Z 1) with 1. lra.
Qed.

(** Zooming in and then out again is a round trip on a view with
    whole-pixel geometry: when the rendered offset and size are whole
    numbers of magnitude at most [2 ^ 40], in whatever form they are held,
    [_zoomIn] followed by [_zoomOut] from the next render leaves
    [render_dims] at the same offset and size
    ([Math.round(Math.round(n * 1.25) * 0.8)] is [n], in doubles). *)
Theorem zoomIn_zoomOut_round_trip id iat w x y width height :
  Rect.eqv (Properties.render_dims (Panel.properties (iat_get iat id)))
    (Rect.mk (inject_Z x) (inject_Z y) (inject_Z width) (inject_Z height)) ->
  (Z.abs x <= 2 ^ 40)%Z -> (Z.abs y <= 2 ^ 40)%Z ->
  (Z.abs width <= 2 ^ 40)%Z -> (Z.abs height <= 2 ^ 40)%Z ->
  let w1 := exec (_zoomIn id iat) w in
  let w2 := exec (_zoomOut id (rerender iat id w1)) w1 in
  Rect.eqv (Properties.render_dims (Panel.properties (live w2)))
    (Properties.render_dims (Panel.properties (iat_get iat id))) /\
  Properties.render_dims (Panel.properties (live w2))
    = Rect.mk (inject_Z x) (inject_Z y) (inject_Z width) (inject_Z height).
Proof.
  intros Hdims Bx By Bw Bh w1 w2.
  assert (E1 : Properties.render_dims (Panel.properties (live w1))
               = let r := Properties.render_dims (Panel.properties (iat_get iat id)) in
                 Rect.mk (Js.Math_round (Js.mul (Rect.x r) 1.25))
                         (Js.Math_round (Js.mul (Rect.y r) 1.25))
                         (Js.Math_round (Js.mul (Rect.w r) 1.25))
                         (Js.Math_round (Js.mul (Rect.h r) 1.25))).
  { subst w1. reflexivity. }
  assert (E2 : Properties.render_dims (Panel.properties (live w2))
               = let r := Properties.render_dims (Panel.properties (iat_get iat id)) in
                 Rect.mk
                   (Js.Math_round (Js.mul (Js.Math_round (Js.mul (Rect.x r) 1.25)) (Js.double 0.8)))
                   (Js.Math_round (Js.mul (Js.Math_round (Js.mul (Rect.y r) 1.25)) (Js.double 0.8)))
                   (Js.Math_round (Js.mul (Js.Math_round (Js.mul (Rect.w r) 1.25)) (Js.double 0.8)))
                   (Js.Math_round (Js.mul (Js.Math_round (Js.mul (Rect.h r) 1.25)) (Js.double 0.8)))).
  { subst w2. unfold _zoomOut, _zoomView. rewrite iat_get_rerender. rewrite E1. reflexivity. }
  destruct Hdims as (Hx & Hy & Hw & Hh). cbn [Rect.x Rect.y Rect.w Rect.h] in Hx, Hy, Hw, Hh.
  assert (E : Properties.render_dims (Panel.properties (live w2))
              = Rect.mk (inject_Z x) (inject_Z y) (inject_Z width) (inject_Z height)).
  { rewrite E2. cbv zeta.
    rewrite (zoom_in_out_double _ _ Hx Bx), (zoom_in_out_double _ _ Hy By),
            (zoom_in_out_double _ _ Hw Bw), (zoom_in_out_double _ _ Hh Bh).
    reflexivity. }
  split; [| exact E].
  rewrite E. unfold Rect.eqv. cbn [Rect.x Rect.y Rect.w Rect.h].
  split; [| split; [| split]]; symmetry; assumption.
Qed.

End MoreCommands.

(** ** What handlers, view commands and effects leave alone *)

Section Frames.

Context {imports : Imports}.

(** No pointer handler, in any mode and with any arguments, changes
    the panel's image raster, its source raster, or the dimensions of the
    image, of the source or of the canvas. *)
Theorem handlers_keep_rasters id iat h e properties pointer :
  keeps rasterState (run id iat h e properties pointer).
Proof.
  destruct h; unfold run.
  - unfold _startPanImage. keeps_tac.
  - unfold _endPanImage. keeps_tac.
  - unfold _panImage. unfold_effects. keeps_tac.
  - unfold _selectControlPoint. unfold_effects.
    apply keeps_bind; [keeps_tac | intro].
    destruct (_ || _); [keeps_tac |].
    destruct (_ || _); [keeps_tac |].
    apply keeps_bind; [apply hitTest_keeps; reflexivity | intro].
    keeps_tac.
  - unfold _deselectControlPoint. unfold_effects. keeps_tac.
  - unfold _moveControlPoint. unfold_effects. keeps_tac.
  - unfold _startCropBox. unfold_effects. keeps_tac.
  - unfold _endCropBox. unfold_effects. keeps_tac.
  - unfold _selectCropBox. unfold_effects. keeps_tac.
  - unfold _moveCropBox. unfold_effects. keeps_tac.
Qed.

(** Redrawing never edits.  The view commands (redraw, fit, expand,
    zoom in, zoom out) and the two callbacks that let the register tool and
    the crop tool redraw overlay 1 leave the stored control points, the
    stored select box, the source raster, [image_dims], the bound handlers
    and the user message as they are. *)
Theorem redraws_keep_edits id iat :
  (forall c, isViewCommand c = true -> keeps editState (runCommand id iat c)) /\
  (forall x y w h, keeps editState (_updateCropBox x y w h)) /\
  (forall pts, keeps editState (_updateControlPoint id iat pts)).
Proof.
  split; [| split].
  - intros c Hc. destruct c; try discriminate Hc; unfold runCommand.
    + unfold _renderImage. unfold_effects. keeps_tac.
    + unfold _fitView, _renderImage. unfold_effects. keeps_tac.
    + unfold _fullView, _renderImage. unfold_effects. keeps_tac.
    + unfold _zoomIn, _zoomView, _renderImage. unfold_effects. keeps_tac.
    + unfold _zoomOut, _zoomView, _renderImage. unfold_effects. keeps_tac.
  - intros x y w h. unfold _updateCropBox. unfold_effects. keeps_tac.
  - intro pts. unfold _updateControlPoint. unfold_effects. keeps_tac.
Qed.

(** The effect on the overlay flag writes overlay layer 2 and nothing
    else.  With the flag on, layer 2 shows the control points of the other
    panel (panel 2 for a panel whose properties name it panel 1, and the
    other way round), each scaled by that other panel's own render and image
    dimensions; with the flag off, layer 2 is cleared. *)
Theorem overlayEffect_shows_other_panel id iat w :
  let panel := iat_get iat id in
  let other := match Properties.id (Panel.properties panel) with
               | panel1 => iat_panel2 iat
               | panel2 => iat_panel1 iat
               end in
  let w' := exec (overlayEffect id iat) w in
  live w' = live w /\ message w' = message w /\ aligned w' = aligned w /\
  imageLayer (layers w') = imageLayer (layers w) /\
  viewLayer (layers w') = viewLayer (layers w) /\
  magnifiedLayer (layers w') = magnifiedLayer (layers w) /\
  overlayLayer1 (layers w') = overlayLayer1 (layers w) /\
  overlayLayer2 (layers w')
    = if Properties.overlay (Panel.properties panel)
      then [ControlPoints
              (map (fun ctrlPt =>
                      scalePoint ctrlPt (Properties.render_dims (Panel.properties other))
                        (Properties.image_dims (Panel.properties other)))
                   (Pointer.points (Panel.pointer other)))]
      else [].
Proof.
  intros panel other w'. subst w' other panel. unfold overlayEffect, exec.
  destruct (Properties.overlay _);
    (split; [| split; [| split; [| split; [| split; [| split; [| split]]]]]]); reflexivity.
Qed.

End Frames.

(** ** Resizing *)

Section Resize.

Context {resizer : Resizer}.

(** [_resizeImage] clears the stored control points and both overlays
    before it tries anything, so they are gone whether the resize succeeds
    or throws; and it never redraws: the view layer, [render_dims], the
    source raster and the select box are as before in both cases.  When the
    resize throws, the status is [error] and the image and its dimensions
    are as before. *)
Theorem resizeImage_always_clears id iat base_dims image_dims w :
  let w' := exec (_resizeImage id iat base_dims image_dims) w in
  Pointer.points (Panel.pointer (live w')) = [] /\
  overlayLayer1 (layers w') = [] /\ overlayLayer2 (layers w') = [] /\
  viewLayer (layers w') = viewLayer (layers w) /\
  Properties.render_dims (Panel.properties (live w'))
    = Properties.render_dims (Panel.properties (live w)) /\
  Panel.source (live w') = Panel.source (live w) /\
  Pointer.selectBox (Panel.pointer (live w')) = Pointer.selectBox (Panel.pointer (live w)) /\
  (cvResize (imageLayer (layers w)) image_dims = None ->
     Panel.status (live w') = Status.error /\
     Panel.image (live w') = Panel.image (live w) /\
     imageLayer (layers w') = imageLayer (layers w) /\
     Properties.image_dims (Panel.properties (live w'))
       = Properties.image_dims (Panel.properties (live w))).
Proof.
  intro w'. subst w'. unfold exec, _resizeImage.
  destruct (cvResize (imageLayer (layers w)) image_dims) as [data |] eqn:E; vm_compute in E.
  - split; [| split; [| split; [| split; [| split; [| split; [| split]]]]]];
      try (vm_compute; rewrite E; reflexivity).
    discriminate.
  - split; [| split; [| split; [| split; [| split; [| split; [| split]]]]]];
      try (vm_compute; rewrite E; reflexivity).
    intros _. split; [| split; [| split]]; vm_compute; rewrite E; reflexivity.
Qed.

(** [_resizeImage], when the resize succeeds: the image and the image
    layer hold a raster of the requested width and height with the resized
    data, [image_dims] is the requested size, and the canvas size
    [base_dims] takes the requested width and height except that a
    requested 0 keeps the panel's current one.  The status is not
    touched. *)
Theorem resizeImage_resizes id iat base_dims image_dims w data :
  cvResize (imageLayer (layers w)) image_dims = Some data ->
  let panel := iat_get iat id in
  let w' := exec (_resizeImage id iat base_dims image_dims) w in
  let resized := mkImageData (Dims.w image_dims) (Dims.h image_dims) data in
  Panel.image (live w') = Some resized /\
  imageLayer (layers w') = Some resized /\
  Properties.image_dims (Panel.properties (live w'))
    = Dims.mk (Dims.w image_dims) (Dims.h image_dims) /\
  (Dims.w base_dims == 0 ->
     Dims.w (Properties.base_dims (Panel.properties (live w')))
       = Dims.w (Properties.base_dims (Panel.properties panel))) /\
  (~ Dims.w base_dims == 0 ->
     Dims.w (Properties.base_dims (Panel.properties (live w'))) = Dims.w base_dims) /\
  (Dims.h base_dims == 0 ->
     Dims.h (Properties.base_dims (Panel.properties (live w')))
       = Dims.h (Properties.base_dims (Panel.properties panel))) /\
  (~ Dims.h base_dims == 0 ->
     Dims.h (Properties.base_dims (Panel.properties (live w'))) = Dims.h base_dims) /\
  Panel.status (live w') = Panel.status (live w).
Proof.
  intros E panel w' resized. subst w' resized panel.
  assert (R : exec (_resizeImage id iat base_dims image_dims) w
            = exec (_clearOverlay ;;
                    setImage (Some (mkImageData (Dims.w image_dims) (Dims.h image_dims) data)) ;;
                    Canvas.imageLayer_load
                      (Some (mkImageData (Dims.w image_dims) (Dims.h image_dims) data)) ;;
                    update (fun prev =>
                      Properties.set_base_dims
                        (Dims.mk (if Dims.w base_dims === 0
                                  then Dims.w (Properties.base_dims (Panel.properties (iat_get iat id)))
                                  else Dims.w base_dims)
                                 (if Dims.h base_dims === 0
                                  then Dims.h (Properties.base_dims (Panel.properties (iat_get iat id)))
                                  else Dims.h base_dims))
                        (Properties.set_image_dims
                           (Dims.mk (Dims.w image_dims) (Dims.h image_dims)) prev))) w).
  { unfold exec, _resizeImage. unfold _clearOverlay. unfold_effects.
    unfold bind, try_catch, modify, read. cbv beta iota. cbn [layers imageLayer].
    rewrite E. reflexivity. }
  rewrite R. clear R E.
  split; [reflexivity |]. split; [reflexivity |]. split; [reflexivity |].
  split; [| split; [| split; [| split]]].
  - intro H. apply eqq_true in H.
    unfold exec, _clearOverlay. unfold_effects. unfold bind, modify. cbn. rewrite H. reflexivity.
  - intro H. assert (H' : (Dims.w base_dims === 0) = false).
    { destruct (Dims.w base_dims === 0) eqn:F; [| reflexivity]. apply eqq_true in F. contradiction. }
    unfold exec, _clearOverlay. unfold_effects. unfold bind, modify. cbn. rewrite H'. reflexivity.
  - intro H. apply eqq_true in H.
    unfold exec, _clearOverlay. unfold_effects. unfold bind, modify. cbn. rewrite H. reflexivity.
  - intro H. assert (H' : (Dims.h base_dims === 0) = false).
    { destruct (Dims.h base_dims === 0) eqn:F; [| reflexivity]. apply eqq_true in F. contradiction. }
    unfold exec, _clearOverlay. unfold_effects. unfold bind, modify. cbn. rewrite H'. reflexivity.
  - reflexivity.
Qed.

End Resize.

(** ** The capacity of the control-point list *)

Section Capacity.

Context {imports : Imports} {resizer : Resizer}.

Lemma preserves_ret {A : Type} P (a : A) : preserves P (ret a).
Proof. intros w H. exact H. Qed.

Lemma preserves_throw {A : Type} P : preserves P (@throw A).
Proof. intros w H. exact H. Qed.

Lemma preserves_read {A : Type} P (g : World -> A) : preserves P (read g).
Proof. intros w H. exact H. Qed.

Lemma preserves_modify P (g : World -> World) :
  (forall w, P w -> P (g w)) -> preserves P (modify g).
Proof. intros Hg w H. apply Hg. exact H. Qed.

Lemma preserves_bind {A B : Type} P (c : M A) (k : A -> M B) :
  preserves P c -> (forall a, preserves P (k a)) -> preserves P (bind c k).
Proof.
  intros Hc Hk w H. unfold bind. specialize (Hc w H).
  destruct (c w) as [[a |] w1]; simpl in *.
  - apply Hk. exact Hc.
  - exact Hc.
Qed.

Lemma preserves_try_catch P (body handler : M unit) :
  preserves P body -> preserves P handler -> preserves P (try_catch body handler).
Proof.
  intros Hb Hh w H. unfold try_catch. specialize (Hb w H).
  destruct (body w) as [[a |] w1]; simpl in *.
  - exact Hb.
  - apply Hh. exact Hb.
Qed.

Lemma keeps_points_within max {A : Type} (c : M A) :
  keeps (fun w => Pointer.points (Panel.pointer (live w))) c ->
  preserves (WithinCapacity max) c.
Proof.
  intros K w H. unfold WithinCapacity in *.
  pose proof (K w) as E. cbv beta in E. rewrite E. exact H.
Qed.

Lemma setPoints_within max l :
  (Z.of_nat (List.length l) <= max)%Z -> preserves (WithinCapacity max) (setPoints l).
Proof. intros H w _. exact H. Qed.

(** Discharges [preserves (WithinCapacity max) c] for code that keeps the
    control points or clears them. *)
Ltac within_tac Hmax :=
  repeat
    match goal with
    | |- preserves _ (ret _) => apply preserves_ret
    | |- preserves _ throw => apply preserves_throw
    | |- preserves _ (read _) => apply preserves_read
    | |- preserves _ (modify _) =>
        apply preserves_modify; let w := fresh "w" in let H := fresh "H" in
        intros w H; first [exact H | exact Hmax]
    | |- preserves _ (try_catch _ _) => apply preserves_try_catch
    | |- preserves _ (bind _ _) => apply preserves_bind; [| intro]
    | |- preserves _ (if ?b then _ else _) => destruct b
    | |- preserves _ (match ?x with _ => _ end) => destruct x
    end.

Lemma run_within_capacity id iat h e properties pointer :
  (0 <= controlPtMax (options iat))%Z ->
  (Z.of_nat (List.length (Pointer.points pointer)) <= controlPtMax (options iat))%Z ->
  preserves (WithinCapacity (controlPtMax (options iat))) (run id iat h e properties pointer).
Proof.
  intros Hmax Hptr. destruct h; unfold run.
  - unfold _startPanImage. within_tac Hmax.
  - unfold _endPanImage. within_tac Hmax.
  - unfold _panImage. unfold_effects. within_tac Hmax.
  - unfold _selectControlPoint.
    apply preserves_bind; [unfold_effects; within_tac Hmax | intro bounds]. cbv zeta.
    destruct (_ || _); [apply preserves_ret |].
    destruct (_ || _); [apply preserves_ret |].
    apply preserves_bind;
      [apply keeps_points_within; apply hitTest_keeps; reflexivity | intro hit].
    destruct (snd hit); [apply preserves_ret |].
    destruct (Z.geb_spec (Z.of_nat (List.length (Pointer.points pointer)))
                         (controlPtMax (options iat))) as [Hfull | Hroom].
    + unfold_effects. within_tac Hmax.
    + apply preserves_bind; [| intro; unfold_effects; within_tac Hmax].
      apply setPoints_within. rewrite length_app. simpl List.length. lia.
  - unfold _deselectControlPoint. unfold_effects. within_tac Hmax.
  - unfold _moveControlPoint.
    destruct (Pointer.selected pointer); [| apply preserves_ret].
    destruct (_ <? _)%Z; [apply preserves_ret |].
    destruct (nth_error _ _); [| apply preserves_ret]. cbv zeta.
    destruct (_ || _); [apply preserves_ret |].
    destruct (_ || _); [apply preserves_ret |].
    apply preserves_bind; [unfold_effects; within_tac Hmax | intro].
    apply preserves_bind; [| intro; unfold_effects; within_tac Hmax].
    apply setPoints_within. rewrite list_set_length. exact Hptr.
  - unfold _startCropBox. unfold_effects. within_tac Hmax.
  - unfold _endCropBox. unfold_effects. within_tac Hmax.
  - unfold _selectCropBox. unfold_effects. within_tac Hmax.
  - unfold _moveCropBox. unfold_effects. within_tac Hmax.
Qed.

Lemma runCommand_within_capacity id iat c max :
  (0 <= max)%Z -> preserves (WithinCapacity max) (runCommand id iat c).
Proof.
  intro Hmax. destruct c; unfold runCommand.
  - unfold _loadImage. unfold_effects. within_tac Hmax.
  - unfold _loadImage_callback, _renderImage. unfold_effects. within_tac Hmax.
  - unfold _syncImages. unfold_effects. within_tac Hmax.
  - unfold _renderImage. unfold_effects. within_tac Hmax.
  - unfold_effects. within_tac Hmax.
  - unfold _fitView, _renderImage. unfold_effects. within_tac Hmax.
  - unfold _fullView, _renderImage. unfold_effects. within_tac Hmax.
  - unfold _zoomIn, _zoomView, _renderImage. unfold_effects. within_tac Hmax.
  - unfold _zoomOut, _zoomView, _renderImage. unfold_effects. within_tac Hmax.
  - unfold _resetImage, _renderImage. unfold_effects. within_tac Hmax.
  - unfold _removeImage. unfold_effects. within_tac Hmax.
  - unfold _applyCropBox, call_cropImage, _renderImage. unfold_effects. within_tac Hmax.
  - unfold _alignImage, call_alignImages, _renderImage. unfold_effects. within_tac Hmax.
Qed.

Lemma runEffect_within_capacity id iat f max :
  (0 <= max)%Z -> preserves (WithinCapacity max) (runEffect id iat f).
Proof.
  intro Hmax. destruct f; unfold runEffect.
  - unfold statusEffect, _loadImage, _updateImage, _renderImage. unfold_effects. within_tac Hmax.
  - unfold statusCleanup. unfold_effects. within_tac Hmax.
  - unfold overlayEffect, Canvas.overlayLayer2_drawControlPoints. unfold_effects. within_tac Hmax.
  - unfold resizeEffect. unfold_effects. within_tac Hmax.
Qed.

Lemma modeEffect_within_capacity id iat max :
  (0 <= max)%Z -> preserves (WithinCapacity max) (modeEffect id iat).
Proof.
  intro Hmax. unfold modeEffect, _resetImage, _renderImage. unfold_effects. within_tac Hmax.
Qed.

(** What the component hands out beside the commands and the effects
    above: the resize, the file export and its callback, the two redraw
    callbacks of the tools, and the magnifier effect. *)
Lemma tools_within_capacity id iat max :
  (0 <= max)%Z ->
  (forall base_dims image_dims,
     preserves (WithinCapacity max) (_resizeImage id iat base_dims image_dims)) /\
  (forall blobThrows, preserves (WithinCapacity max) (_downloadImage blobThrows)) /\
  (forall blob, preserves (WithinCapacity max) (_downloadImage_callback blob)) /\
  (forall x y width height, preserves (WithinCapacity max) (_updateCropBox x y width height)) /\
  (forall pts, preserves (WithinCapacity max) (_updateControlPoint id iat pts)) /\
  preserves (WithinCapacity max) (magnifierEffect id iat).
Proof.
  intro Hmax. split; [| split; [| split; [| split; [| split]]]].
  - intros base_dims image_dims. unfold _resizeImage. unfold_effects. within_tac Hmax.
  - intro blobThrows. unfold _downloadImage. unfold_effects. within_tac Hmax.
  - intro blob. unfold _downloadImage_callback. unfold_effects. within_tac Hmax.
  - intros x y width height. unfold _updateCropBox. unfold_effects. within_tac Hmax.
  - intro pts. unfold _updateControlPoint. unfold_effects. within_tac Hmax.
  - unfold magnifierEffect. unfold_effects. within_tac Hmax.
Qed.

(** The control-point list never outgrows the configured capacity.  With a
    capacity [controlPtMax] that is not negative and a stored list within
    it, the list is still within it after any pointer handler called with a
    pointer object whose list is within it, and after everything else the
    component hands out or runs: each menu command (load and the loader's
    callback, save state, redraw, clear, fit, expand, zoom in and out,
    reset, remove, resize, the file export and its callback), the crop and
    align callbacks, the redraw callbacks of the register and crop tools,
    each effect (status and its cleanup, overlay flag, window size,
    magnifier) and a mode change. *)
Theorem control_points_within_capacity id iat w :
  (0 <= controlPtMax (options iat))%Z ->
  WithinCapacity (controlPtMax (options iat)) w ->
  (forall h e properties pointer,
     (Z.of_nat (List.length (Pointer.points pointer)) <= controlPtMax (options iat))%Z ->
     WithinCapacity (controlPtMax (options iat)) (exec (run id iat h e properties pointer) w)) /\
  (forall c, WithinCapacity (controlPtMax (options iat)) (exec (runCommand id iat c) w)) /\
  (forall f, WithinCapacity (controlPtMax (options iat)) (exec (runEffect id iat f) w)) /\
  WithinCapacity (controlPtMax (options iat)) (exec (modeEffect id iat) w) /\
  (forall base_dims image_dims,
     WithinCapacity (controlPtMax (options iat))
       (exec (_resizeImage id iat base_dims image_dims) w)) /\
  (forall blobThrows,
     WithinCapacity (controlPtMax (options iat)) (exec (_downloadImage blobThrows) w)) /\
  (forall blob,
     WithinCapacity (controlPtMax (options iat)) (exec (_downloadImage_callback blob) w)) /\
  (forall x y width height,
     WithinCapacity (controlPtMax (options iat)) (exec (_updateCropBox x y width height) w)) /\
  (forall pts,
     WithinCapacity (controlPtMax (options iat)) (exec (_updateControlPoint id iat pts) w)) /\
  WithinCapacity (controlPtMax (options iat)) (exec (magnifierEffect id iat) w).
Proof.
  intros Hmax Hw.
  destruct (tools_within_capacity id iat _ Hmax) as (T1 & T2 & T3 & T4 & T5 & T6).
  split; [| split; [| split; [| split; [| split; [| split; [| split; [| split; [| split]]]]]]]].
  - intros h e properties pointer Hptr.
    exact (run_within_capacity id iat h e properties pointer Hmax Hptr w Hw).
  - intro c. exact (runCommand_within_capacity id iat c _ Hmax w Hw).
  - intro f. exact (runEffect_within_capacity id iat f _ Hmax w Hw).
  - exact (modeEffect_within_capacity id iat _ Hmax w Hw).
  - intros base_dims image_dims. exact (T1 base_dims image_dims w Hw).
  - intro blobThrows. exact (T2 blobThrows w Hw).
  - intro blob. exact (T3 blob w Hw).
  - intros x y width height. exact (T4 x y width height w Hw).
  - intro pts. exact (T5 pts w Hw).
  - exact (T6 w Hw).
Qed.

End Capacity.

(** ** What the next render shows after a crop *)

Section CropTool.

Context {imports : Imports}.

(** Whether the crop tool is still there after its own command.  In
    crop mode, in the render that follows [_applyCropBox]: after an empty
    select box the crop tool is no longer rendered (the status stays
    [loading]); after a throw of the cropper it is not rendered and the
    error banner is; after a crop that went through it is rendered exactly
    when the cropper left a raster in the canvas. *)
Theorem cropTool_after_apply id iat w :
  mode iat = Mode.crop ->
  let panel := iat_get iat id in
  let selectBox := Pointer.selectBox (Panel.pointer panel) in
  let next := rerender iat id (exec (_applyCropBox id iat) w) in
  (Rect.w selectBox == 0 /\ Rect.h selectBox == 0 ->
     cropToolShown next id = false /\ errorBannerShown next id = false) /\
  (~ (Rect.w selectBox == 0 /\ Rect.h selectBox == 0) ->
     (cropImage (imageLayer (layers w)) (Panel.image panel) selectBox = None ->
        cropToolShown next id = false /\ errorBannerShown next id = true) /\
     (forall cropped,
        cropImage (imageLayer (layers w)) (Panel.image panel) selectBox = Some cropped ->
        cropToolShown next id = isSome cropped /\ errorBannerShown next id = false)).
Proof.
  intros Hmode panel selectBox next.
  assert (Hm : mode next = Mode.crop) by (subst next; destruct id; exact Hmode).
  unfold cropToolShown, errorBannerShown. rewrite Hm. subst next.
  rewrite iat_get_rerender. cbn [andb]. clear Hm Hmode. split.
  - intro Hbox. rewrite (proj1 (applyCropBox_outcome id iat w) Hbox).
    split; [apply andb_false_r | reflexivity].
  - intro Hbox. destruct (proj2 (applyCropBox_outcome id iat w) Hbox) as [Hthrow Hok]. split.
    + intro Hcrop. rewrite (Hthrow Hcrop). split; [apply andb_false_r | reflexivity].
    + intros cropped Hcrop. destruct (Hok cropped Hcrop) as [St Im].
      rewrite St, Im. split; [apply andb_true_r | reflexivity].
Qed.

End CropTool.

(** ** Fitting the view, and the cursor shown in the info panel *)

Section View.

Context {imports : Imports}.

Lemma fitView_render_dims id iat w :
  Properties.render_dims (Panel.properties (live (exec (_fitView id iat) w)))
  = let image_dims := Properties.image_dims (Panel.properties (iat_get iat id)) in
    let base_dims := Properties.base_dims (Panel.properties (iat_get iat id)) in
    let viewDims := scaleToFit (Dims.w image_dims) (Dims.h image_dims)
                               (Dims.w base_dims) (Dims.h base_dims) in
    Rect.mk 0 0 (Dims.w viewDims) (Dims.h viewDims).
Proof. reflexivity. Qed.

Lemma viewCommand_keeps_dims id iat c :
  isViewCommand c = true ->
  keeps (fun w => (Properties.image_dims (Panel.properties (live w)),
                   Properties.base_dims (Panel.properties (live w))))
        (runCommand id iat c).
Proof.
  intro Hc. destruct c; try discriminate Hc; unfold runCommand.
  - unfold _renderImage. unfold_effects. keeps_tac.
  - unfold _fitView, _renderImage. unfold_effects. keeps_tac.
  - unfold _fullView, _renderImage. unfold_effects. keeps_tac.
  - unfold _zoomIn, _zoomView, _renderImage. unfold_effects. keeps_tac.
  - unfold _zoomOut, _zoomView, _renderImage. unfold_effects. keeps_tac.
Qed.

Lemma handler_keeps_dims id iat h e properties pointer :
  keeps (fun w => (Properties.image_dims (Panel.properties (live w)),
                   Properties.base_dims (Panel.properties (live w))))
        (run id iat h e properties pointer).
Proof.
  destruct h; unfold run.
  - unfold _startPanImage. keeps_tac.
  - unfold _endPanImage. keeps_tac.
  - unfold _panImage. unfold_effects. keeps_tac.
  - unfold _selectControlPoint. unfold_effects.
    apply keeps_bind; [keeps_tac | intro].
    destruct (_ || _); [keeps_tac |].
    destruct (_ || _); [keeps_tac |].
    apply keeps_bind; [apply hitTest_keeps; reflexivity | intro].
    keeps_tac.
  - unfold _deselectControlPoint. unfold_effects. keeps_tac.
  - unfold _moveControlPoint. unfold_effects. keeps_tac.
  - unfold _startCropBox. unfold_effects. keeps_tac.
  - unfold _endCropBox. unfold_effects. keeps_tac.
  - unfold _selectCropBox. unfold_effects. keeps_tac.
  - unfold _moveCropBox. unfold_effects. keeps_tac.
Qed.

(** Fit undoes zoom and pan.  From a render whose snapshot is current,
    fitting the view after any view command (redraw, fit, expand, zoom in,
    zoom out) or after any pointer handler (a pan drag included) gives the
    same [render_dims] as fitting it straight away, and that view has no
    offset. *)
Theorem fitView_undoes_zoom_and_pan id iat w :
  iat_get iat id = live w ->
  let fitted := Properties.render_dims (Panel.properties (live (exec (_fitView id iat) w))) in
  Rect.x fitted = 0 /\ Rect.y fitted = 0 /\
  (forall c, isViewCommand c = true ->
     let w1 := exec (runCommand id iat c) w in
     Properties.render_dims
       (Panel.properties (live (exec (_fitView id (rerender iat id w1)) w1))) = fitted) /\
  (forall h e properties pointer,
     let w1 := exec (run id iat h e properties pointer) w in
     Properties.render_dims
       (Panel.properties (live (exec (_fitView id (rerender iat id w1)) w1))) = fitted).
Proof.
  intros Hsnap fitted. subst fitted.
  split; [reflexivity |]. split; [reflexivity |]. split.
  - intros c Hc w1. rewrite !fitView_render_dims. rewrite iat_get_rerender, Hsnap.
    pose proof (viewCommand_keeps_dims id iat c Hc w) as K. cbv beta in K.
    fold (exec (runCommand id iat c) w) in K. fold w1 in K.
    injection K as K1 K2. cbv zeta. rewrite K1, K2. reflexivity.
  - intros h e properties pointer w1. rewrite !fitView_render_dims. rewrite iat_get_rerender, Hsnap.
    pose proof (handler_keeps_dims id iat h e properties pointer w) as K. cbv beta in K.
    fold (exec (run id iat h e properties pointer) w) in K. fold w1 in K.
    injection K as K1 K2. cbv zeta. rewrite K1, K2. reflexivity.
Qed.

End View.

Section InfoCursor.

Variable cropImage : option ImageData -> option ImageData -> Rect.t -> option (option ImageData).
Variable alignImages : Panel.t -> Panel.t -> option ImageData -> option ImageData ->
                       Options -> option (AlignResult * option ImageData).

Local Abbreviation spec := (Spec.imports cropImage alignImages).

(** With the scaler of the specification and a view that is not
    panned (render offset zero), the image cursor shown in the info panel is
    the very pixel a click at the pointer stores as a control point. *)
Theorem imageCursor_is_placed_point (panel : Panel.t) :
  Rect.x (Properties.render_dims (Panel.properties panel)) == 0 ->
  Rect.y (Properties.render_dims (Panel.properties panel)) == 0 ->
  imageCursor (imports := spec) panel
  = actualPoint (imports := spec) (Panel.properties panel) (Pointer.pos (Panel.pointer panel))
      (renderOffset (Panel.properties panel)).
Proof.
  intros Hx Hy. unfold imageCursor, actualPoint, renderOffset.
  cbn [scalePoint getScale spec Spec.imports Spec.scalePoint Spec.getScale Point.x Point.y].
  rewrite (Math_round_comp _ 0 Hx), (Math_round_comp _ 0 Hy).
  change (Js.Math_round 0) with 0.
  unfold Spec.scalePoint, Spec.getScale. cbn [Point.x Point.y].
  f_equal; apply f_equal; apply double_comp; ring.
Qed.

End InfoCursor.

(** ** Concrete runs of the further properties *)

Section MoreRuns.

Import Sample.

Local Abbreviation I := Sample.imports.

(** The pick-up, at a click at (22,21) on a full list whose first two points are
    drawn at (20,20) and (24,22): the second one is picked up. *)
Lemma selectControlPoint_picks_up_witness :
  let points := [Point.mk 100 100; Point.mk 120 110; Point.mk 300 300; Point.mk 400 400] in
  let p := selectPanel (Rect.mk 0 0 800 600) points in
  let w' := exec (_selectControlPoint (imports := I) (iat p Mode.select) (mkEvent 22 21)
                    (Panel.properties p) (Panel.pointer p)) (world p []) in
  Z.of_nat (List.length points) = controlPtMax Sample.options /\
  Pointer.index (Panel.pointer (live w')) = 1%Z /\
  Pointer.points (Panel.pointer (live w')) = points /\
  message w' = None.
Proof.
  intros points p w'.
  assert (Hin : InsideImage (Panel.properties p)
                  (getPos (Imports := I) (mkEvent 22 21)
                     (Properties.base_dims (Panel.properties p))
                     (viewBounds (layers (world p []))))).
  { unfold InsideImage. vm_compute. repeat split; discriminate. }
  assert (Hlast : LastPointInRange (imports := I) (Panel.properties p)
                    (getPos (Imports := I) (mkEvent 22 21)
                       (Properties.base_dims (Panel.properties p))
                       (viewBounds (layers (world p []))))
                    (ptrRadius Sample.options)
                    (Pointer.points (Panel.pointer p)) 1).
  { split.
    - exists (Point.mk 120 110). split; vm_compute; reflexivity.
    - intros j c Hj Hn. destruct j as [| [| [| [| j]]]]; try lia.
      + injection Hn as <-. vm_compute. reflexivity.
      + injection Hn as <-. vm_compute. reflexivity.
      + destruct j; discriminate Hn. }
  pose proof (selectControlPoint_picks_up (imports := I) (iat p Mode.select) (mkEvent 22 21)
                (Panel.properties p) (Panel.pointer p) (world p []) 1 Hin Hlast) as T.
  cbv zeta in T. destruct T as (_ & Hi & Hp & Hm & _).
  split; [reflexivity |]. split; [exact Hi |]. split; [exact Hp | exact Hm].
Defined.


(** The guards of the move, at a mouse-move without an anchor. *)
Lemma moveControlPoint_guards_witness :
  let p := selectPanel (Rect.mk 0 0 800 600) fourPoints in
  Pointer.selected (Panel.pointer p) = None /\
  exec (_moveControlPoint (imports := I) (mkEvent 45 50) (Panel.properties p) (Panel.pointer p))
    (world p []) = world p [].
Proof.
  intro p. split; [reflexivity |].
  exact (moveControlPoint_guards (imports := I) (mkEvent 45 50) (Panel.properties p)
           (Panel.pointer p) (world p []) (or_introl eq_refl)).
Defined.

(** The normalised box, at a drag up and to the left, from (200,300) to (100,100). *)
Lemma selectCropBox_normalised_witness :
  let p := cropPanel Rect.zero in
  let pointer := Pointer.mk 100 100 (Some (Point.mk 200 300)) [] Rect.zero (-1)%Z false in
  let w' := exec (_selectCropBox (imports := I) (mkEvent 100 100) (Panel.properties p) pointer)
              (world p []) in
  Pointer.selectBox (Panel.pointer (live w')) = Rect.mk 50 50 50 100 /\
  0 <= Rect.w (Pointer.selectBox (Panel.pointer (live w'))) /\
  0 <= Rect.h (Pointer.selectBox (Panel.pointer (live w'))).
Proof.
  intros p pointer w'.
  pose proof (selectCropBox_normalised (imports := I) (mkEvent 100 100) (Panel.properties p)
                pointer (world p [])) as T.
  cbv zeta in T. destruct (proj1 T (Point.mk 200 300) eq_refl) as (Hw & Hh & _).
  split; [vm_compute; reflexivity |]. split; [exact Hw | exact Hh].
Defined.

(** The size of a moved box, at a move of the box [{10,20,50,60}] by (10,20) on the canvas. *)
Lemma moveCropBox_keeps_size_witness :
  let box := Rect.mk 10 20 50 60 in
  let p := cropPanel box in
  let pointer := Pointer.mk 40 70 (Some (Point.mk 30 50)) [] box (-1)%Z false in
  let w' := exec (_moveCropBox (imports := I) (mkEvent 40 70) (Panel.properties p) pointer)
              (world p []) in
  Pointer.selectBox (Panel.pointer (live w')) = Rect.mk 15 30 50 60 /\
  Rect.w (Pointer.selectBox (Panel.pointer (live w'))) = 50 /\
  Rect.h (Pointer.selectBox (Panel.pointer (live w'))) = 60.
Proof.
  intros box p pointer w'.
  pose proof (moveCropBox_keeps_size (imports := I) (mkEvent 40 70) (Panel.properties p)
                pointer (world p [])) as T.
  cbv zeta in T. destruct (proj1 T (Point.mk 30 50) eq_refl) as (Hw & Hh & _).
  split; [vm_compute; reflexivity |]. split; [exact Hw | exact Hh].
Defined.

(** Grabbing and restarting, at a mouse-down on the box [{10,20,50,60}] and at one beside it. *)
Lemma startCropBox_grabs_or_restarts_witness :
  let box := Rect.mk 10 20 50 60 in
  let p := cropPanel box in
  let run x y := exec (_startCropBox (imports := I) (mkEvent x y) (Panel.properties p)
                         (Pointer.mk x y None [] box (-1)%Z false)) (world p []) in
  methodsOf (run 60 100) = cropMoveMethods /\
  Pointer.selectBox (Panel.pointer (live (run 60 100))) = box /\
  Pointer.selectBox (Panel.pointer (live (run 200 400))) = Rect.mk 100 200 0 0 /\
  methodsOf (run 200 400) = cropMethods.
Proof.
  intros box p run.
  pose proof (startCropBox_grabs_or_restarts (imports := I) (mkEvent 60 100) (Panel.properties p)
                (Pointer.mk 60 100 None [] box (-1)%Z false) (world p [])) as T1.
  pose proof (startCropBox_grabs_or_restarts (imports := I) (mkEvent 200 400) (Panel.properties p)
                (Pointer.mk 200 400 None [] box (-1)%Z false) (world p [])) as T2.
  cbv zeta in T1, T2.
  destruct (proj1 T1) as (_ & Hm & Hp & _).
  - vm_compute. reflexivity.
  - vm_compute. reflexivity.
  - split; vm_compute; discriminate.
  - split; vm_compute; discriminate.
  - destruct (proj2 T2) as (Hb & _ & Hm2).
    + right; right; right; left. vm_compute. reflexivity.
    + split; [exact Hm |]. split; [exact (f_equal Pointer.selectBox Hp) |].
      split; [vm_compute; reflexivity | exact Hm2].
Defined.

(** The crop, at that of a 150x300 image to the box [{10,20,50,60}]. *)
Lemma applyCropBox_crops_witness :
  let p := cropPanel (Rect.mk 10 20 50 60) in
  let w' := exec (_applyCropBox (imports := I) panel1 (iat p Mode.crop))
              (world p [BoundingBox 20 40 100 120]) in
  Panel.image (live w') = Some (mkImageData 50 60 []) /\
  Properties.image_dims (Panel.properties (live w')) = Dims.mk 50 60 /\
  Rect.eqv (Properties.render_dims (Panel.properties (live w'))) (Rect.mk 0 0 500 600) /\
  Pointer.selectBox (Panel.pointer (live w')) = Rect.mk 0 0 0 0 /\
  overlayLayer1 (layers w') = [] /\
  Panel.status (live w') = Status.loaded.
Proof.
  intros p w'.
  assert (Hbox : ~ (Rect.w (Pointer.selectBox (Panel.pointer (iat_get (iat p Mode.crop) panel1))) == 0 /\
                    Rect.h (Pointer.selectBox (Panel.pointer (iat_get (iat p Mode.crop) panel1))) == 0)).
  { intros [H _]. vm_compute in H. discriminate. }
  pose proof (applyCropBox_crops (imports := I) panel1 (iat p Mode.crop)
                (world p [BoundingBox 20 40 100 120]) (Some (mkImageData 50 60 []))
                Hbox eq_refl) as T.
  cbv zeta in T. destruct T as (Him & _ & Hd & _ & Hb & _ & Ho & _ & Hs & _).
  split; [exact Him |]. split; [exact Hd |].
  split; [vm_compute; repeat split; reflexivity |].
  split; [exact Hb |]. split; [exact Ho | exact Hs].
Defined.


(** The alignment, with a solver that answers with a 400x300 raster. *)
Lemma alignImage_aligned_witness :
  let warped := raster (Dims.mk 400 300) 9 in
  let J := Spec.imports cropToBox
             (fun _ _ _ _ _ => Some (AlignData warped, Some warped)) in
  let p := selectPanel (Rect.mk 0 0 800 600) fourPoints in
  let w' := exec (_alignImage (imports := J) panel1 (iat p Mode.select)) (world p []) in
  Panel.image (live w') = Some warped /\
  Panel.status (live w') = Status.loaded /\
  aligned w' = true /\
  Properties.image_dims (Panel.properties (live w')) = Dims.mk 4000 3000 /\
  Pointer.points (Panel.pointer (live w')) = fourPoints.
Proof.
  intros warped J p w'.
  pose proof (alignImage_aligned (imports := J) panel1 (iat p Mode.select) (world p [])
                warped (Some warped) eq_refl) as T.
  cbv zeta in T. destruct T as (Him & _ & _ & Hs & Ha & Hd & _ & Hp & _).
  split; [exact Him |]. split; [exact Hs |]. split; [exact Ha |].
  split; [exact Hd | exact Hp].
Defined.

(** The failed load, with a loader that reports an error, with and without
    properties in its answer. *)
Lemma loadImage_callback_error_witness :
  let error := mkMessage "Image could not be loaded." "error" in
  let p := Panel.mk Status.loading (initProperties panel1) None None None initPointer panMethods in
  let run props := exec (_loadImage_callback (imports := I) (iat p Mode.pan)
                           (mkLoadResponse None props (Some error))) (world p []) in
  run None = world p [] /\
  Panel.status (live (run (Some (initProperties panel1)))) = Status.empty /\
  message (run (Some (initProperties panel1))) = Some error.
Proof.
  intros error p run.
  pose proof (loadImage_callback_error (imports := I) (iat p Mode.pan)
                (mkLoadResponse None None (Some error)) (world p []) error eq_refl) as T1.
  pose proof (loadImage_callback_error (imports := I) (iat p Mode.pan)
                (mkLoadResponse None (Some (initProperties panel1)) (Some error))
                (world p []) error eq_refl) as T2.
  cbv zeta in T1, T2.
  split; [exact (proj1 T1 eq_refl) |].
  exact (proj1 (proj2 T2) ltac:(discriminate)).
Defined.

(** The reset, on a cropped panel with a source, and on a panel that has an image
    but no source. *)
Lemma resetImage_restores_source_witness :
  let p := cropPanel (Rect.mk 10 20 50 60) in
  let q := Panel.mk Status.loading (Panel.properties p) (Panel.image p) None None
             (Panel.pointer p) cropMethods in
  let w' := exec (_resetImage (imports := I) panel1 (iat p Mode.crop)) (world p []) in
  let v' := exec (_resetImage (imports := I) panel1 (iat q Mode.crop)) (world q []) in
  Panel.image (live w') = Some (raster (Dims.mk 150 300) 0) /\
  Pointer.selectBox (Panel.pointer (live w')) = Rect.zero /\
  Panel.status (live w') = Status.loaded /\
  Panel.image (live v') = None /\
  Panel.status (live v') = Status.loading.
Proof.
  intros p q w' v'.
  pose proof (resetImage_restores_source (imports := I) panel1 (iat p Mode.crop) (world p [])) as T1.
  pose proof (resetImage_restores_source (imports := I) panel1 (iat q Mode.crop) (world q [])) as T2.
  cbv zeta in T1, T2.
  destruct (proj1 T1 (raster (Dims.mk 150 300) 0) eq_refl) as (Him & _ & _ & _ & Hb & Hs & _).
  destruct (proj2 T2 eq_refl) as (He & Hs2 & _).
  split; [exact Him |]. split; [exact Hb |]. split; [exact Hs |].
  split; [| exact Hs2].
  exact (f_equal (fun v => Panel.image (live v)) He).
Defined.

(** The round trip, on a 150x300 image cropped to 50x60 between the save and the
    reset. *)
Lemma save_crop_reset_round_trip_witness :
  let p := cropPanel (Rect.mk 10 20 50 60) in
  let i := iat p Mode.crop in
  let w := world p [] in
  let w1 := exec (_syncImages panel1 i) w in
  let w2 := exec (_applyCropBox (imports := I) panel1 (rerender i panel1 w1)) w1 in
  let w3 := exec (_resetImage (imports := I) panel1 (rerender (rerender i panel1 w1) panel1 w2)) w2 in
  Properties.image_dims (Panel.properties (live w2)) = Dims.mk 50 60 /\
  Panel.image (live w3) = Some (raster (Dims.mk 150 300) 1) /\
  Properties.image_dims (Panel.properties (live w3)) = Dims.mk 150 300.
Proof.
  intros p i w w1 w2 w3.
  pose proof (save_crop_reset_round_trip (imports := I) panel1 i w (raster (Dims.mk 150 300) 1)
                eq_refl eq_refl) as T.
  cbv zeta in T. destruct T as (Him & _ & Hd & _).
  split; [vm_compute; reflexivity |]. split; [exact Him | exact Hd].
Defined.

(** The zoom round trip, on a view of 801x600 at offset (10,-20) whose
    numbers are held as unreduced fractions, as a load leaves them. *)
Lemma zoomIn_zoomOut_round_trip_witness :
  let p := selectPanel (Rect.mk (20 # 2) (-20) (3204000 # 4000) (1800000 # 3000)) [] in
  let i := iat p Mode.pan in
  let w1 := exec (_zoomIn (imports := I) panel1 i) (world p []) in
  let w2 := exec (_zoomOut (imports := I) panel1 (rerender i panel1 w1)) w1 in
  Properties.render_dims (Panel.properties (live w1)) = Rect.mk 13 (-25) 1001 750 /\
  Rect.eqv (Properties.render_dims (Panel.properties (live w2)))
    (Properties.render_dims (Panel.properties p)) /\
  Properties.render_dims (Panel.properties (live w2)) = Rect.mk 10 (-20) 801 600.
Proof.
  intros p i w1 w2.
  split; [vm_compute; reflexivity |].
  apply (zoomIn_zoomOut_round_trip (imports := I) panel1 i (world p []) 10 (-20) 801 600).
  - unfold Rect.eqv. vm_compute. repeat split; reflexivity.
  - vm_compute. discriminate.
  - vm_compute. discriminate.
  - vm_compute. discriminate.
  - vm_compute. discriminate.
Defined.

(** Redrawing, at a zoom on a panel with four control points and a select box. *)
Lemma redraws_keep_edits_witness :
  let p := loadedPanel panel1 (Dims.mk 4000 3000) (Rect.mk 0 0 800 600) fourPoints
             (Rect.mk 10 20 50 60) selectMethods in
  let w' := exec (runCommand (imports := I) panel1 (iat p Mode.select) ZoomIn) (world p []) in
  Pointer.points (Panel.pointer (live w')) = fourPoints /\
  Pointer.selectBox (Panel.pointer (live w')) = Rect.mk 10 20 50 60 /\
  Properties.render_dims (Panel.properties (live w')) = Rect.mk 0 0 1000 750.
Proof.
  intros p w'.
  pose proof (proj1 (redraws_keep_edits (imports := I) panel1 (iat p Mode.select))
                ZoomIn eq_refl (world p [])) as K.
  unfold editState in K.
  split; [exact (f_equal (fun t => fst (fst (fst (fst (fst t))))) K) |].
  split; [exact (f_equal (fun t => snd (fst (fst (fst (fst t))))) K) |].
  vm_compute. reflexivity.
Defined.

(** The failed resize, with an OpenCV resize that throws. *)
Lemma resizeImage_always_clears_witness :
  let p := selectPanel (Rect.mk 0 0 800 600) fourPoints in
  let w' := exec (_resizeImage (resizer := SampleTools.resizeThrows) panel1
                    (iat p Mode.select) (Dims.mk 800 600) (Dims.mk 2000 1500))
              (world p [ControlPoints fourPoints]) in
  Pointer.points (Panel.pointer (live w')) = [] /\
  overlayLayer1 (layers w') = [] /\
  Panel.status (live w') = Status.error /\
  Panel.image (live w') = Panel.image p.
Proof.
  intros p w'.
  pose proof (resizeImage_always_clears (resizer := SampleTools.resizeThrows) panel1
                (iat p Mode.select) (Dims.mk 800 600) (Dims.mk 2000 1500)
                (world p [ControlPoints fourPoints])) as T.
  cbv zeta in T. destruct T as (Hp & Ho & _ & _ & _ & _ & _ & Hthrow).
  destruct (Hthrow eq_refl) as (Hs & Him & _).
  split; [exact Hp |]. split; [exact Ho |]. split; [exact Hs | exact Him].
Defined.

(** The resize, at a resize to 2000x1500 that asks for a canvas of width 0 and
    height 500. *)
Lemma resizeImage_resizes_witness :
  let p := selectPanel (Rect.mk 0 0 800 600) fourPoints in
  let w' := exec (_resizeImage (resizer := SampleTools.resizes) panel1
                    (iat p Mode.select) (Dims.mk 0 500) (Dims.mk 2000 1500)) (world p []) in
  Panel.image (live w') = Some (mkImageData 2000 1500 [7%Z]) /\
  Properties.image_dims (Panel.properties (live w')) = Dims.mk 2000 1500 /\
  Dims.w (Properties.base_dims (Panel.properties (live w'))) = 800 /\
  Dims.h (Properties.base_dims (Panel.properties (live w'))) = 500 /\
  Panel.status (live w') = Status.loaded.
Proof.
  intros p w'.
  pose proof (resizeImage_resizes (resizer := SampleTools.resizes) panel1
                (iat p Mode.select) (Dims.mk 0 500) (Dims.mk 2000 1500) (world p [])
                [7%Z] eq_refl) as T.
  cbv zeta in T. destruct T as (Him & _ & Hd & Hw0 & _ & _ & Hh & Hs).
  split; [exact Him |]. split; [exact Hd |].
  split; [exact (Hw0 ltac:(reflexivity)) |].
  split; [| exact Hs].
  apply Hh. intro H. vm_compute in H. discriminate.
Defined.

(** The capacity, at the click that fills the list: three points stored, capacity
    four. *)
Lemma control_points_within_capacity_witness :
  let p := selectPanel (Rect.mk 0 0 800 600)
             [Point.mk 100 100; Point.mk 200 200; Point.mk 300 300] in
  let w' := exec (run (imports := I) panel1 (iat p Mode.select) SelectControlPoint
                    (mkEvent 400 300) (Panel.properties p) (Panel.pointer p)) (world p []) in
  WithinCapacity 4 (world p []) /\
  List.length (Pointer.points (Panel.pointer (live w'))) = 4%nat /\
  WithinCapacity 4 w'.
Proof.
  intros p w'.
  assert (H0 : WithinCapacity 4 (world p [])) by (vm_compute; discriminate).
  pose proof (control_points_within_capacity (imports := I) (resizer := SampleTools.resizes)
                panel1 (iat p Mode.select) (world p [])
                ltac:(vm_compute; discriminate) H0) as T.
  split; [exact H0 |]. split; [vm_compute; reflexivity |].
  exact (proj1 T SelectControlPoint (mkEvent 400 300) (Panel.properties p) (Panel.pointer p)
           ltac:(vm_compute; discriminate)).
Defined.

(** The crop tool, on a loaded panel in crop mode whose select box is empty: the crop
    tool is rendered before the command and not after it. *)
Lemma cropTool_after_apply_witness :
  let p := cropPanel Rect.zero in
  let i := iat p Mode.crop in
  let next := rerender i panel1 (exec (_applyCropBox (imports := I) panel1 i) (world p [])) in
  cropToolShown i panel1 = true /\
  cropToolShown next panel1 = false /\
  errorBannerShown next panel1 = false.
Proof.
  intros p i next.
  pose proof (cropTool_after_apply (imports := I) panel1 i (world p []) eq_refl) as T.
  cbv zeta in T.
  split; [reflexivity |].
  apply (proj1 T). split; vm_compute; reflexivity.
Defined.

(** Fitting, at a zoom and at a pan drag, each followed by a fit. *)
Lemma fitView_undoes_zoom_and_pan_witness :
  let p := selectPanel (Rect.mk 0 0 800 600) fourPoints in
  let i := iat p Mode.pan in
  let w := world p [] in
  let fitted := Properties.render_dims
                  (Panel.properties (live (exec (_fitView (imports := I) panel1 i) w))) in
  let w1 := exec (runCommand (imports := I) panel1 i ZoomIn) w in
  let pointer := Pointer.mk 150 160 (Some (Point.mk 100 100)) fourPoints Rect.zero (-1)%Z false in
  let w2 := exec (run (imports := I) panel1 i PanImage (mkEvent 150 160) (Panel.properties p) pointer) w in
  Properties.render_dims (Panel.properties (live w1)) = Rect.mk 0 0 1000 750 /\
  Properties.render_dims (Panel.properties (live w2)) = Rect.mk 50 60 800 600 /\
  Properties.render_dims
    (Panel.properties (live (exec (_fitView (imports := I) panel1 (rerender i panel1 w1)) w1)))
    = fitted /\
  Properties.render_dims
    (Panel.properties (live (exec (_fitView (imports := I) panel1 (rerender i panel1 w2)) w2)))
    = fitted.
Proof.
  intros p i w fitted w1 pointer w2.
  pose proof (fitView_undoes_zoom_and_pan (imports := I) panel1 i w eq_refl) as T.
  cbv zeta in T. destruct T as (_ & _ & Hc & Hh).
  split; [vm_compute; reflexivity |]. split; [vm_compute; reflexivity |].
  split; [exact (Hc ZoomIn eq_refl) |].
  exact (Hh PanImage (mkEvent 150 160) (Panel.properties p) pointer).
Defined.

(** The info cursor, at the pointer in the middle of a 4000x3000 image shown at
    800x600. *)
Lemma imageCursor_is_placed_point_witness :
  let p := Panel.mk Status.loaded (properties panel1 (Dims.mk 4000 3000) (Rect.mk 0 0 800 600))
             None None None (Pointer.mk 400 300 None [] Rect.zero (-1)%Z false) selectMethods in
  imageCursor (imports := I) p = Point.mk 2000 1500 /\
  actualPoint (imports := I) (Panel.properties p) (Point.mk 400 300)
    (renderOffset (Panel.properties p)) = Point.mk 2000 1500.
Proof.
  intro p.
  assert (H : actualPoint (imports := I) (Panel.properties p) (Point.mk 400 300)
                (renderOffset (Panel.properties p)) = Point.mk 2000 1500)
    by (vm_compute; reflexivity).
  split; [| exact H].
  exact (eq_trans (imageCursor_is_placed_point cropToBox alignFails p
                     ltac:(vm_compute; reflexivity) ltac:(vm_compute; reflexivity)) H).
Defined.

(** A stored pixel is rounded as the engine rounds it.  On an image 1001
    pixels wide shown 300 wide, a click at x = 150 stores x = 500: the scale
    is the double nearest to 1001/300 and its product with 150 the double
    500.49999999999994, where the exact product 500.5 would round to 501. *)
Lemma selectControlPoint_pixel_in_doubles :
  let p := loadedPanel panel1 (Dims.mk 1001 1001) (Rect.mk 0 0 300 300) [] Rect.zero
             selectMethods in
  let w' := exec (_selectControlPoint (imports := I) (iat p Mode.select) (mkEvent 150 150)
                    (Panel.properties p) (Panel.pointer p)) (world p []) in
  Pointer.points (Panel.pointer (live w')) = [Point.mk 500 500] /\
  Js.Math_round (1001 / 300 * 150) = 501.
Proof.
  intros p w'. split; vm_compute; reflexivity.
Qed.

(** Likewise for a moved point.  On an image 1001 pixels wide shown 400
    wide, a point moved to x = 200 is stored at x = 501: the product of the
    double scale with 200 rounds to the double 500.5, where the exact
    product of that scale, just below 500.5, would round to 500. *)
Lemma moveControlPoint_pixel_in_doubles :
  let p := loadedPanel panel1 (Dims.mk 1001 1001) (Rect.mk 0 0 400 400) [Point.mk 10 10]
             Rect.zero selectMethods in
  let pointer := Pointer.mk 200 200 (Some (Point.mk 200 200)) [Point.mk 10 10] Rect.zero
                   0%Z false in
  let w' := exec (_moveControlPoint (imports := I) (mkEvent 200 200) (Panel.properties p) pointer)
              (world p []) in
  Pointer.points (Panel.pointer (live w')) = [Point.mk 501 501] /\
  Js.Math_round (Js.div 1001 400 * 200) = 500.
Proof.
  intros p pointer w'. split; vm_compute; reflexivity.
Qed.

End MoreRuns.
